(** * OKH-LOSH ontology to WikiBase converter: a shallow embedding

    This development embeds the two modules of the converter,
    [wikibase.py] (the WikiBase session) and [rdfont2wb.py] (the
    converter proper), and proves properties of them.

    Conventions.
    - A Python [str] is a [string]; every character of the [string]
      stands for one character of the Python text.
    - A Python [dict] is an association list in insertion order with
      unique keys ([Dict.set] keeps the position of a key it overwrites).
    - An rdflib graph is the list of its triples in the order in which
      the library yields them; [Rdf.add] has a set's behaviour.
    - The remote WikiBase is a script: the list of the HTTP responses it
      will give, consumed one per call of [call_api]; every request is
      appended to a log.  A run is a function from such a state to an
      outcome and a state.
    - A Python exception is an [error]; an exception is never caught in
      the program, so it ends the run. *)

From Stdlib Require Import String Ascii List Bool Arith ZArith Lia.
Import ListNotations.
Open Scope string_scope.

Set Implicit Arguments.

(** ** Text *)

Module Text.

Definition newline : ascii := "010"%char.
Definition carriage_return : ascii := "013"%char.
Definition dquote : ascii := "034"%char.
Definition backslash : ascii := "\"%char.

(** [s.startswith(p)], and the rest of [s] behind [p]. *)
Fixpoint strip_prefix (p s : string) : option string :=
  match p with
  | EmptyString => Some s
  | String a p' =>
      match s with
      | EmptyString => None
      | String b s' => if Ascii.eqb a b then strip_prefix p' s' else None
      end
  end.

(** [p in s] on two texts. *)
Fixpoint contains (p s : string) : bool :=
  match strip_prefix p s with
  | Some _ => true
  | None =>
      match s with
      | EmptyString => false
      | String _ s' => contains p s'
      end
  end.

(** The class [[0-9]] of a [str] pattern. *)
Definition is_digit (c : ascii) : bool :=
  let n := nat_of_ascii c in ((48 <=? n) && (n <=? 57))%nat.

(** [c.isupper()] for one character (Latin-1 range). *)
Definition isupper (c : ascii) : bool :=
  let n := nat_of_ascii c in
  (((65 <=? n) && (n <=? 90))
   || ((192 <=? n) && (n <=? 214))
   || ((216 <=? n) && (n <=? 222)))%nat.

(** [s.lower()] (Latin-1 range). *)
Definition lower_char (c : ascii) : ascii :=
  if isupper c then ascii_of_nat (nat_of_ascii c + 32) else c.

Fixpoint lower (s : string) : string :=
  match s with
  | EmptyString => EmptyString
  | String c s' => String (lower_char c) (lower s')
  end.

(** The longest run of digits at the head of [s]: what [[0-9]+] takes. *)
Fixpoint take_digits (s : string) : string :=
  match s with
  | EmptyString => EmptyString
  | String c s' => if is_digit c then String c (take_digits s') else EmptyString
  end.

(** [s[:n]]. *)
Fixpoint take (n : nat) (s : string) : string :=
  match n, s with
  | O, _ => EmptyString
  | S _, EmptyString => EmptyString
  | S n', String c s' => String c (take n' s')
  end.

(** [s[1:]]. *)
Definition tail (s : string) : string :=
  match s with
  | EmptyString => EmptyString
  | String _ s' => s'
  end.

(** The characters of [s], each as a one-character text: what indexing
    a [str] position by position yields. *)
Fixpoint chars (s : string) : list string :=
  match s with
  | EmptyString => []
  | String c s' => String c EmptyString :: chars s'
  end.


(** [re.compile(lit + '(' + letter + '[0-9]+)').match(s)]: the pattern
    matched at the head of [s]; the result is group 1. *)
Definition match_ref_here (lit : string) (letter : ascii) (s : string)
  : option string :=
  match strip_prefix (lit ++ String letter EmptyString) s with
  | None => None
  | Some rest =>
      match take_digits rest with
      | EmptyString => None
      | ds => Some (String letter ds)
      end
  end.

(** [pattern.search(s)] for the same pattern: the leftmost match. *)
Fixpoint search_ref (lit : string) (letter : ascii) (s : string)
  : option string :=
  match match_ref_here lit letter s with
  | Some w => Some w
  | None =>
      match s with
      | EmptyString => None
      | String _ s' => search_ref lit letter s'
      end
  end.

(** [re.sub(r".*[#/]", EMPTY, s)], where EMPTY is the empty text.  The dot matches no newline, so on every
    line the greedy match runs from the start of the line (or from the
    end of the previous match) to the last [#] or [/] of that line; what
    stays of a line is what follows its last separator. *)
Definition is_sep (c : ascii) : bool :=
  Ascii.eqb c "#"%char || Ascii.eqb c "/"%char.

Fixpoint sub_to_last_sep_aux (s : string) : string * bool :=
  match s with
  | EmptyString => (EmptyString, false)
  | String c s' =>
      let '(kept, dropping) := sub_to_last_sep_aux s' in
      if Ascii.eqb c newline then (String c kept, false)
      else if dropping then (kept, true)
      else if is_sep c then (kept, true)
      else (String c kept, false)
  end.

Definition sub_to_last_sep (s : string) : string :=
  fst (sub_to_last_sep_aux s).

(** [int(s)]: white space around, a sign, then digits, where single
    underscores may stand between digits.  The white space of [int] is
    the tab, the line feed, the vertical tab, the form feed, the
    carriage return and the space, and of the characters that are not
    ASCII those that are spaces (in the Latin-1 range: the next-line
    control and the no-break space); the separators 28 to 31, which
    [str.isspace] takes, are no white space here. *)
Definition is_space (c : ascii) : bool :=
  let n := nat_of_ascii c in
  (((9 <=? n) && (n <=? 13)) || (n =? 32) || (n =? 133) || (n =? 160))%nat.

Fixpoint lstrip (s : string) : string :=
  match s with
  | EmptyString => EmptyString
  | String c s' => if is_space c then lstrip s' else s
  end.

Fixpoint rstrip (s : string) : string :=
  match s with
  | EmptyString => EmptyString
  | String c s' =>
      match rstrip s' with
      | EmptyString => if is_space c then EmptyString else String c EmptyString
      | kept => String c kept
      end
  end.

Definition digit_value (c : ascii) : Z := Z.of_nat (nat_of_ascii c - 48).

Fixpoint digits_value (s : string) (acc : Z) (after_digit : bool) : option Z :=
  match s with
  | EmptyString => if after_digit then Some acc else None
  | String c s' =>
      if is_digit c then digits_value s' (acc * 10 + digit_value c)%Z true
      else if Ascii.eqb c "_"%char && after_digit then digits_value s' acc false
      else None
  end.

(** [sys.int_max_str_digits], as the interpreter sets it: [int] refuses
    a text with more digits ([ValueError], as for a text that is no
    number). *)
Definition int_max_str_digits : nat := 4300.

Fixpoint count_digits (s : string) : nat :=
  match s with
  | EmptyString => 0
  | String c s' => (if is_digit c then 1 else 0) + count_digits s'
  end.

Definition unsigned_int (ds : string) : option Z :=
  if (int_max_str_digits <? count_digits ds)%nat then None
  else digits_value ds 0%Z false.

Definition py_int (s : string) : option Z :=
  match rstrip (lstrip s) with
  | String "-"%char ds => option_map Z.opp (unsigned_int ds)
  | String "+"%char ds => unsigned_int ds
  | ds => unsigned_int ds
  end.

End Text.

(** ** Python dictionaries and exceptions *)

Module Dict.
Section Dict.
Variable V : Type.

Definition t := list (string * V).

(** [d.get(k)]. *)
Fixpoint get (d : t) (k : string) : option V :=
  match d with
  | [] => None
  | (k', v) :: d' => if String.eqb k' k then Some v else get d' k
  end.

(** [d[k] = v]: a key already present keeps its position. *)
Fixpoint set (d : t) (k : string) (v : V) : t :=
  match d with
  | [] => [(k, v)]
  | (k', v') :: d' =>
      if String.eqb k' k then (k', v) :: d' else (k', v') :: set d' k v
  end.

(** [d.keys()]. *)
Definition keys (d : t) : list string := map fst d.

(** [k in d]. *)
Definition mem (d : t) (k : string) : bool :=
  match get d k with Some _ => true | None => false end.
End Dict.
End Dict.

(** The reasons the program gives when it raises [RuntimeError]. *)
Inductive runtime_failure : Type :=
| FailedClearing (part_id code info : string)
| FailedCreating (type_str code info : string)
| NoSingleWikiBaseId (rdf_ref : string).

Inductive error : Type :=
| RuntimeError (why : runtime_failure)
| KeyError (key : string)
| TypeError
| AttributeError
| IndexError
| ValueError
| SystemExit (status : Z)
| RecursionError
| ConnectionError
| Exception (about : string).

Inductive result (A : Type) : Type :=
| Ok (a : A)
| Raise (e : error).
Arguments Ok {A} a.
Arguments Raise {A} e.

Definition result_bind {A B} (r : result A) (k : A -> result B) : result B :=
  match r with
  | Ok a => k a
  | Raise e => Raise e
  end.

Notation "'let?' x ':=' r 'in' k" := (result_bind r (fun x => k))
  (at level 10, x name, r at level 100, k at level 200).

(** [d[k]]: a missing key raises [KeyError]. *)
Definition getitem {V} (d : Dict.t V) (k : string) : result V :=
  match Dict.get d k with
  | Some v => Ok v
  | None => Raise (KeyError k)
  end.

(** A loop whose body may raise, over the elements of [l], threading [acc]. *)
Fixpoint for_each {A B} (body : B -> A -> result B) (l : list A) (acc : B)
  : result B :=
  match l with
  | [] => Ok acc
  | x :: l' => let? acc' := body acc x in for_each body l' acc'
  end.

(** A run of stateful code: from a state to an outcome and the state
    left behind (also when an exception ends the run). *)
Definition run (S A : Type) : Type := S -> result A * S.

Definition ret {S A} (a : A) : run S A := fun s => (Ok a, s).
Definition raise {S A} (e : error) : run S A := fun s => (Raise e, s).
Definition bind {S A B} (c : run S A) (k : A -> run S B) : run S B :=
  fun s =>
    match c s with
    | (Ok a, s') => k a s'
    | (Raise e, s') => (Raise e, s')
    end.
Definition pure {S A} (r : result A) : run S A := fun s => (r, s).
Definition get_state {S} : run S S := fun s => (Ok s, s).
Definition put_state {S} (s : S) : run S unit := fun _ => (Ok tt, s).

Notation "x <- c ;; k" := (bind c (fun x => k))
  (at level 100, c at next level, right associativity).
Notation "c ;; k" := (bind c (fun _ => k))
  (at level 100, right associativity).

(** [for x in l: body(x)] in stateful code. *)
Fixpoint for_ {S A} (l : list A) (body : A -> run S unit) : run S unit :=
  match l with
  | [] => ret tt
  | x :: l' => body x ;; for_ l' body
  end.

(** ** wikibase.py: the session with the WikiBase API *)

Module WikiBase.

(** A label or a description handed to [create_wb_thing]: a text, or a
    list of texts (the function tests [isinstance(..., list)]). *)
Inductive pyval : Type :=
| PStr (s : string)
| PList (l : list string).

(** [{'language': ..., 'value': ...}]. *)
Record term : Type := { language : string; value : pyval }.

(** The value of a claim: a text, or
    [{'entity-type': ..., 'id': ..., 'numeric-id': ...}]. *)
Inductive main_value : Type :=
| TextValue (s : string)
| EntityValue (entity_type id : string) (numeric_id : Z).

Record snak : Type := {
  snaktype : string;
  property : string;
  datatype : string;
  datavalue_value : main_value;
  datavalue_type : string
}.

Record statement : Type := {
  mainsnak : snak;
  statement_type : string;
  rank : string
}.

(** The [data] parameter of [wbeditentity], in the three shapes the
    program sends. *)
Inductive payload : Type :=
| DataEmpty
| DataEntity (labels descriptions : Dict.t term) (property_datatype : option string)
| DataClaims (claims : Dict.t (list statement)).

(** [new=item|property] or [id=...]. *)
Inductive target : Type :=
| New (kind : string)
| Existing (wb_id : string).

Inductive request : Type :=
| QueryTokens
| EditEntity (on : target) (clear : bool) (data : payload) (token : string).

Record api_error : Type := { code : string; info : string }.

(** An HTTP response with a JSON body, by the parts the program reads:
    [query.tokens.csrftoken], [error] and [entity.id]. *)
Record response : Type := {
  status_code : Z;
  csrftoken : option string;
  error_of : option api_error;
  entity_id : option string
}.

Record session : Type := { script : list response; log : list request }.

(** [call_api]: one round trip.  A remote that gives no answer is a
    network failure. *)
Definition call_api (req : request) : run session response :=
  fun s =>
    match script s with
    | [] => (Raise ConnectionError, {| script := []; log := log s ++ [req] |})
    | r :: rest => (Ok r, {| script := rest; log := log s ++ [req] |})
    end.

(** [request_token].  On a status other than 200 the message of the
    [RuntimeError] is built with ['...{}' % status], which raises
    [TypeError] before the [RuntimeError] exists. *)
Definition request_token : run session string :=
  res <- call_api QueryTokens ;;
  if negb (Z.eqb (status_code res) 200) then raise TypeError
  else match csrftoken res with
       | None => raise (KeyError "query")
       | Some tok => ret tok
       end.

(** [clear_thing]. *)
Definition clear_thing (part_id : string) : run session unit :=
  tok <- request_token ;;
  res <- call_api (EditEntity (Existing part_id) true DataEmpty tok) ;;
  match error_of res with
  | Some e => raise (RuntimeError (FailedClearing part_id (code e) (info e)))
  | None => ret tt
  end.

Definition type_str (item : bool) : string :=
  if item then "Item" else "Property".

(** [item_pat] and [prop_pat], searched in the error's info. *)
Definition search_pat (item : bool) (text : string) : option string :=
  if item then Text.search_ref "[[Item:" "Q" text
  else Text.search_ref "[[Property:" "P" text.

(** [create_wb_thing_raw].  [item] is the truth value of the Python
    argument ([add_wb_thing_claims] passes [None]).  The function calls
    itself; [depth] is the number of frames the interpreter still
    grants, and [RecursionError] is raised when there is none. *)
Fixpoint create_wb_thing_raw (depth : nat) (item : bool) (data : payload)
  (wb_id : option string) : run session string :=
  match depth with
  | O => raise RecursionError
  | S depth' =>
      let on :=
        match wb_id with
        | None => New (if item then "item" else "property")
        | Some id => Existing id
        end in
      let clear := match wb_id with None => true | Some _ => false end in
      tok <- request_token ;;
      res <- call_api (EditEntity on clear data tok) ;;
      match error_of res with
      | Some e =>
          if Text.contains " already has " (info e) then
            match search_pat item (info e) with
            | None => raise AttributeError
            | Some found =>
                clear_thing found ;;
                create_wb_thing_raw depth' item data (Some found)
            end
          else raise (RuntimeError (FailedCreating (type_str item) (code e) (info e)))
      | None =>
          match entity_id res with
          | None => raise (KeyError "entity")
          | Some id => ret id
          end
      end
  end.

(** [add_wb_thing_claims]. *)
Definition add_wb_thing_claims (depth : nat) (wb_id : string)
  (claims : Dict.t (list statement)) : run session string :=
  create_wb_thing_raw depth false (DataClaims claims) (Some wb_id).

(** [len(v)] and the values [v[i]] for [i in range(len(v))]. *)
Definition pylen (v : pyval) : nat :=
  match v with
  | PStr s => String.length s
  | PList l => List.length l
  end.

Definition elements (v : pyval) : list string :=
  match v with
  | PStr s => Text.chars s
  | PList l => l
  end.

(** [for i in range(0, len(v)): d[lang] = {'language': lang, 'value': v[i]}]. *)
Definition set_each (lang : string) (l : list string) (d : Dict.t term)
  : Dict.t term :=
  fold_left (fun d x => Dict.set d lang {| language := lang; value := PStr x |}) l d.

(** [(desc[:247] + '...') if len(desc) > 250 else desc]; a list cannot
    be concatenated with a text. *)
Definition shorten (desc : pyval) : result pyval :=
  if (250 <? pylen desc)%nat then
    match desc with
    | PStr s => Ok (PStr (Text.take 247 s ++ "..."))
    | PList _ => Raise TypeError
    end
  else Ok desc.

(** The body of the loop over [labels.keys()]. *)
Definition label_body (labels : Dict.t pyval) (acc : Dict.t term)
  (label_lang : string) : result (Dict.t term) :=
  let? v := getitem labels label_lang in
  match v with
  | PList l => Ok (set_each label_lang l acc)
  | PStr _ => Ok (Dict.set acc label_lang {| language := label_lang; value := v |})
  end.

(** The body of the loop over [descriptions.keys()]: the test for a
    list reads [labels[desc_lang]]. *)
Definition description_body (labels descriptions : Dict.t pyval)
  (acc : Dict.t term) (desc_lang : string) : result (Dict.t term) :=
  let? lb := getitem labels desc_lang in
  match lb with
  | PList _ =>
      let? ds := getitem descriptions desc_lang in
      Ok (set_each desc_lang (elements ds) acc)
  | PStr _ =>
      let? desc := getitem descriptions desc_lang in
      let? desc' := shorten desc in
      Ok (Dict.set acc desc_lang {| language := desc_lang; value := desc' |})
  end.

(** The [data] that [create_wb_thing] builds before it calls the remote. *)
Definition create_wb_thing_data (item : bool) (labels descriptions : Dict.t pyval)
  (property_type : string) : result payload :=
  let? lbs := for_each (label_body labels) (Dict.keys labels) [] in
  let? dscs := for_each (description_body labels descriptions)
                 (Dict.keys descriptions) [] in
  Ok (DataEntity lbs dscs (if item then None else Some property_type)).

(** [create_wb_thing] (its [claims] parameter is not read). *)
Definition create_wb_thing (depth : nat) (item : bool)
  (labels descriptions : Dict.t pyval) (property_type : string)
  : run session string :=
  data <- pure (create_wb_thing_data item labels descriptions property_type) ;;
  create_wb_thing_raw depth item data None.

End WikiBase.

(** ** rdflib: terms and graphs, by what the converter reads of them *)

Module Rdf.

(** A literal: lexical form, language tag, datatype. *)
Record literal : Type := {
  lexical : string;
  lang : option string;
  datatype : option string
}.

Inductive node : Type :=
| URIRef (uri : string)
| BNode (id : string)
| Literal (l : literal).

Definition triple : Type := node * node * node.
Definition graph : Type := list triple.

Definition option_eqb (a b : option string) : bool :=
  match a, b with
  | None, None => true
  | Some x, Some y => String.eqb x y
  | _, _ => false
  end.

(** [self.language.lower() if self.language else None]. *)
Definition folded_language (l : literal) : option string :=
  match lang l with
  | None => None
  | Some EmptyString => None
  | Some tag => Some (Text.lower tag)
  end.

(** [a == b] on literals: the lexical forms and the datatypes as they
    are, the language tags without regard to case. *)
Definition literal_eqb (a b : literal) : bool :=
  String.eqb (lexical a) (lexical b)
  && option_eqb (folded_language a) (folded_language b)
  && option_eqb (datatype a) (datatype b).

(** [a == b] on terms. *)
Definition node_eqb (a b : node) : bool :=
  match a, b with
  | URIRef x, URIRef y => String.eqb x y
  | BNode x, BNode y => String.eqb x y
  | Literal x, Literal y => literal_eqb x y
  | _, _ => false
  end.

Definition triple_eqb (a b : triple) : bool :=
  let '(s1, p1, o1) := a in
  let '(s2, p2, o2) := b in
  node_eqb s1 s2 && node_eqb p1 p2 && node_eqb o1 o2.

(** [x in l] on a list of terms. *)
Definition mem (x : node) (l : list node) : bool := existsb (node_eqb x) l.

(** [str(n)]. *)
Definition str (n : node) : string :=
  match n with
  | URIRef u => u
  | BNode b => b
  | Literal l => lexical l
  end.

(** [rdflib.Literal(x)] for a text [x], and [rdflib.Literal(None)], whose
    lexical form is the text of [str(None)]. *)
Definition plain (text : string) (language : option string) : literal :=
  {| lexical := text; lang := language; datatype := None |}.

Definition Literal_of (x : option string) : node :=
  match x with
  | Some text => Literal (plain text None)
  | None => Literal (plain "None" None)
  end.

Definition XSD (name : string) : string :=
  "http://www.w3.org/2001/XMLSchema#" ++ name.

(** The datatypes whose value space rdflib maps one to one to the
    lexical form. *)
Definition text_datatypes : list string :=
  [XSD "string"; XSD "normalizedString"; XSD "token"; XSD "language"; XSD "anyURI"].

(** [l.value] when it is a [str]: the lexical form of a plain, a
    language-tagged or a text-typed literal; [None] stands for a value
    that is no [str]. *)
Definition py_value (l : literal) : option string :=
  match datatype l with
  | None => Some (lexical l)
  | Some dt =>
      if existsb (String.eqb dt) text_datatypes then Some (lexical l) else None
  end.

(** [Literal._quote_encode]: a text with a newline is put between triple
    quotes, any other text between quotes. *)
Fixpoint escape_backslash (s : string) : string :=
  match s with
  | EmptyString => EmptyString
  | String c s' =>
      if Ascii.eqb c Text.backslash
      then String Text.backslash (String Text.backslash (escape_backslash s'))
      else String c (escape_backslash s')
  end.

Fixpoint escape_cr (s : string) : string :=
  match s with
  | EmptyString => EmptyString
  | String c s' =>
      if Ascii.eqb c Text.carriage_return
      then String Text.backslash (String "r"%char (escape_cr s'))
      else String c (escape_cr s')
  end.

Fixpoint escape_dquote (s : string) : string :=
  match s with
  | EmptyString => EmptyString
  | String c s' =>
      if Ascii.eqb c Text.dquote
      then String Text.backslash (String Text.dquote (escape_dquote s'))
      else String c (escape_dquote s')
  end.

Definition bsq : string := String Text.backslash (String Text.dquote EmptyString).
Definition qqq : string :=
  String Text.dquote (String Text.dquote (String Text.dquote EmptyString)).

Fixpoint quotes (n : nat) : string :=
  match n with
  | O => EmptyString
  | S n' => String Text.dquote (quotes n')
  end.

(** Replacing every run of three quotes, from the left, by three
    escaped quotes; [pending] counts the quotes read and not yet
    written. *)
Fixpoint escape_triple_from (pending : nat) (s : string) : string :=
  match s with
  | EmptyString => quotes pending
  | String c s' =>
      if Ascii.eqb c Text.dquote then
        match pending with
        | S (S _) => bsq ++ bsq ++ bsq ++ escape_triple_from 0 s'
        | _ => escape_triple_from (S pending) s'
        end
      else quotes pending ++ String c (escape_triple_from 0 s')
  end.

(** A closing quote that no backslash precedes gets one. *)
Fixpoint escape_last_quote (s : string) : string :=
  match s with
  | String a ((String b EmptyString) as t) =>
      if Ascii.eqb b Text.dquote && negb (Ascii.eqb a Text.backslash)
      then String a bsq
      else String a t
  | String a s' => String a (escape_last_quote s')
  | EmptyString => EmptyString
  end.

Definition quote_encode (text : string) : string :=
  if Text.contains (String Text.newline EmptyString) text then
    let encoded := escape_backslash text in
    let encoded :=
      if Text.contains (quotes 3) text then escape_triple_from 0 encoded
      else encoded in
    quotes 3 ++ escape_cr (escape_last_quote encoded) ++ quotes 3
  else
    quotes 1 ++ escape_cr (escape_dquote (escape_backslash text)) ++ quotes 1.

(** [_is_valid_uri(uri)]: none of the characters of
    [_invalid_uri_chars] is in the URI. *)
Definition invalid_uri_chars : list ascii :=
  ["<"; ">"; Text.dquote; " "; "{"; "}"; "|"; Text.backslash; "^"; "`"]%char.

Definition is_valid_uri (uri : string) : bool :=
  forallb (fun c => negb (Text.contains (String c EmptyString) uri))
          invalid_uri_chars.

(** [n.n3()].  For a URI that holds one of these characters rdflib
    raises a plain [Exception], which names the URI. *)
Definition n3 (n : node) : result string :=
  match n with
  | URIRef u =>
      if is_valid_uri u then Ok ("<" ++ u ++ ">") else Raise (Exception u)
  | BNode b => Ok ("_:" ++ b)
  | Literal l =>
      Ok (quote_encode (lexical l) ++
          match lang l, datatype l with
          | Some tag, _ => "@" ++ tag
          | None, Some dt => "^^<" ++ dt ++ ">"
          | None, None => EmptyString
          end)
  end.

(** [g.objects(s, p)], [g.subjects()] (one subject per triple) and
    [g.triples((s, None, None))]. *)
Definition objects (g : graph) (s p : node) : list node :=
  map (fun t : triple => snd t)
      (filter (fun t : triple => node_eqb (fst (fst t)) s && node_eqb (snd (fst t)) p) g).

Definition subjects (g : graph) : list node :=
  map (fun t : triple => fst (fst t)) g.

Definition triples_of (g : graph) (s : node) : list triple :=
  filter (fun t : triple => node_eqb (fst (fst t)) s) g.

(** [g.add(t)]: a graph is a set of triples. *)
Definition add (g : graph) (t : triple) : graph :=
  if existsb (triple_eqb t) g then g else (g ++ [t])%list.

(** [g.load(file)] into an empty graph, and [g.serialize(file)]: the
    file holds the triples of the graph (the Turtle text that rdflib
    writes and reads back is not modelled). *)
Definition load (file : list triple) : graph := fold_left add file [].
Definition serialize (g : graph) : list triple := g.

(** The vocabulary. *)
Definition RDF_type := URIRef "http://www.w3.org/1999/02/22-rdf-syntax-ns#type".
Definition RDFS (name : string) := URIRef ("http://www.w3.org/2000/01/rdf-schema#" ++ name).
Definition SKOS (name : string) := URIRef ("http://www.w3.org/2004/02/skos/core#" ++ name).
Definition DCTERMS (name : string) := URIRef ("http://purl.org/dc/terms/" ++ name).
Definition DC (name : string) := URIRef ("http://purl.org/dc/elements/1.1/" ++ name).
Definition OWL (name : string) := URIRef ("http://www.w3.org/2002/07/owl#" ++ name).
Definition OBO (name : string) := URIRef ("http://purl.obolibrary.org/obo/" ++ name).
Definition SCHEMA (name : string) := URIRef ("http://schema.org/" ++ name).
Definition SPDX (name : string) := URIRef ("http://spdx.org/rdf/terms#" ++ name).
Definition EPO (name : string) := URIRef ("http://data.epo.org/linked-data/def/patent/" ++ name).

End Rdf.

(** ** rdfont2wb.py: the converter *)

Module Converter.
Import Rdf WikiBase.

Definition BASE_URI : string :=
  "https://github.com/OPEN-NEXT/OKH-LOSH/raw/master/OKH-LOSH.ttl".

(** [a or b]: [a] when it is true (a term is true when its text is not
    empty), else [b]. *)
Definition py_or (a b : node) : node :=
  match str a with
  | EmptyString => b
  | _ => a
  end.

Definition get_label_preds : list node :=
  [py_or (RDFS "label") (py_or (SKOS "prefLabel") (py_or (DCTERMS "title") (DC "title")))].

Definition get_desc_preds : list node :=
  [py_or (RDFS "comment")
     (py_or (SKOS "definition") (py_or (DCTERMS "description") (DC "description")))].

Definition get_non_claim_preds : list node :=
  (get_label_preds ++ get_desc_preds ++
   [RDF_type; OWL "cardinality"; OWL "maxCardinality"; OWL "minCardinality"])%list.

Definition default_language : string := "en".
Definition label_sep : string := String Text.newline (String Text.newline EmptyString).
Definition description_sep : string := label_sep.

(** The state of a converter: its session, the link graph [ont2wb], and
    the content of the file [link_graph_file] when the file exists. *)
Record converter : Type := {
  wbs : session;
  ont2wb : graph;
  link_file : option (list triple)
}.

(** A call on [self.wbs]. *)
Definition on_wbs {A} (c : run session A) : run converter A :=
  fun st =>
    let '(r, w) := c (wbs st) in
    (r, {| wbs := w; ont2wb := ont2wb st; link_file := link_file st |}).

Definition set_ont2wb (g : graph) : run converter unit :=
  fun st => (Ok tt, {| wbs := wbs st; ont2wb := g; link_file := link_file st |}).

Definition set_link_file (f : list triple) : run converter unit :=
  fun st => (Ok tt, {| wbs := wbs st; ont2wb := ont2wb st; link_file := Some f |}).

(** [self.ont2wb.add((node, SCHEMA.identifier, rdflib.Literal(wb_id)))]. *)
Definition record_link (subj : node) (wb_id : option string) : run converter unit :=
  st <- get_state ;;
  set_ont2wb (Rdf.add (ont2wb st) (subj, SCHEMA "identifier", Literal_of wb_id)).

(** One turn of the loops that fill [lbs] and [dscs]:
    [lng = lb.language if lb.language is not None else default_language;
     d[lng] = ((d[lng] + sep) if lng in d else '') + lb.value]. *)
Definition add_text (sep : string) (d : Dict.t string) (lb : node)
  : result (Dict.t string) :=
  match lb with
  | Literal l =>
      let lng := match lang l with Some tag => tag | None => default_language end in
      let before :=
        match Dict.get d lng with
        | Some old => old ++ sep
        | None => EmptyString
        end in
      match py_value l with
      | Some text => Ok (Dict.set d lng (before ++ text))
      | None => Raise TypeError
      end
  | _ => Raise AttributeError
  end.

Definition aggregate (g : graph) (preds : list node) (sep : string) (subj : node)
  : result (Dict.t string) :=
  for_each (add_text sep) (flat_map (fun p => objects g subj p) preds) [].

(** The texts of a map, as [create_wb_thing] takes them. *)
Definition texts (d : Dict.t string) : Dict.t pyval :=
  map (fun kv : string * string => (fst kv, PStr (snd kv))) d.

(** What the chain of tests on the types of a subject decides. *)
Inductive thing_kind : Type :=
| Item
| Property
| NoThing
| UnknownType.

Definition kind_of_types (types : list node) : thing_kind :=
  if mem (OWL "Class") types then Item
  else if mem (OWL "ObjectProperty") types || mem (OWL "DatatypeProperty") types
       then Property
  else if mem (OWL "Ontology") types then NoThing
  else UnknownType.

(** [skip_subj]. *)
Definition is_bnode (n : node) : bool :=
  match n with
  | BNode _ => true
  | _ => false
  end.

Definition skip_subj (subj : node) : bool :=
  is_bnode subj || String.eqb (str subj) BASE_URI.

(** [rdf2wb_id]. *)
Definition rdf2wb_id (store : graph) (rdf_ref : node) (fail_if_missing : bool)
  : result (option string) :=
  match objects store rdf_ref (SCHEMA "identifier") with
  | [wb_id] => Ok (Some (str wb_id))
  | _ =>
      if fail_if_missing
      then Raise (RuntimeError (NoSingleWikiBaseId (str rdf_ref)))
      else Ok None
  end.

Section WithGraph.
(** [self.graph], the ontology, and [validators.url], by the truth of
    what it returns. *)
Variable g : graph.
Variable validators_url : string -> bool.

(** [create_ont_wb_thing]. *)
Definition create_ont_wb_thing (depth : nat) (subj : node)
  : run converter (option string) :=
  lbs <- pure (aggregate g get_label_preds label_sep subj) ;;
  dscs <- pure (aggregate g get_desc_preds description_sep subj) ;;
  match kind_of_types (objects g subj RDF_type) with
  | Item =>
      id <- on_wbs (create_wb_thing depth true (texts lbs) (texts dscs) "string") ;;
      ret (Some id)
  | Property =>
      id <- on_wbs (create_wb_thing depth false (texts lbs) (texts dscs) "string") ;;
      ret (Some id)
  | NoThing => ret None
  | UnknownType => raise (SystemExit 1)
  end.

(** [rdf2wb_id(ref)] with its default [fail_if_missing=True], which
    returns a text or raises. *)
Definition rdf2wb_id_or_fail (store : graph) (rdf_ref : node) : result string :=
  match rdf2wb_id store rdf_ref true with
  | Ok (Some wb_id) => Ok wb_id
  | Ok None => Raise (RuntimeError (NoSingleWikiBaseId (str rdf_ref)))
  | Raise e => Raise e
  end.

Definition is_literal (n : node) : bool :=
  match n with
  | Literal _ => true
  | _ => false
  end.

(** The part of [create_claim] that sets [value_type]. *)
Definition value_type_of (obj : node) : result string :=
  if is_literal obj then
    let? text := n3 obj in
    if validators_url text then Ok "url" else Ok "string"
  else
    let types := objects g obj RDF_type in
    if mem (OWL "Class") types then Ok "item"
    else if mem (OWL "ObjectProperty") types || mem (OWL "DatatypeProperty") types
         then Ok "property"
    else
      let? rdf_name := n3 obj in
      match Text.sub_to_last_sep rdf_name with
      | EmptyString => Raise IndexError
      | String c _ => if Text.isupper c then Ok "item" else Ok "property"
      end.

(** [value_type in ['string', 'url']]. *)
Definition is_text_type (value_type : string) : bool :=
  String.eqb value_type "string" || String.eqb value_type "url".

(** The part that sets [main_value]. *)
Definition main_value_of (store : graph) (value_type : string) (obj : node)
  : result main_value :=
  if String.eqb value_type "string" then Ok (TextValue (str obj))
  else if String.eqb value_type "url" then Ok (TextValue (str obj))
  else
    let? obj_id := rdf2wb_id_or_fail store obj in
    match Text.py_int (Text.tail obj_id) with
    | None => Raise ValueError
    | Some obj_id_num => Ok (EntityValue value_type obj_id obj_id_num)
    end.

(** The statement put under [claims[pred_wb_id]]. *)
Definition claim_of (pred_wb_id value_type : string) (value : main_value)
  : statement :=
  {| mainsnak :=
       {| snaktype := "value";
          property := pred_wb_id;
          WikiBase.datatype :=
            if is_text_type value_type then value_type
            else "wikibase-" ++ value_type;
          datavalue_value := value;
          datavalue_type :=
            if is_text_type value_type then value_type
            else "wikibase-entityid" |};
     statement_type := "statement";
     rank := "normal" |}.

(** The claims [create_claim] builds, or [None] where it returns
    without a claim. *)
Definition claims_of (store : graph) (pred obj : node)
  : result (option (Dict.t (list statement))) :=
  if mem pred get_non_claim_preds then Ok None
  else
    let? pred_wb_id := rdf2wb_id_or_fail store pred in
    if String.eqb pred_wb_id "P1647" then Ok None
    else
      let? value_type := value_type_of obj in
      let? value := main_value_of store value_type obj in
      Ok (Some [(pred_wb_id, [claim_of pred_wb_id value_type value])]).

(** [create_claim]. *)
Definition create_claim (depth : nat) (wb_id : string) (subj pred obj : node)
  : run converter unit :=
  st <- get_state ;;
  made <- pure (claims_of (ont2wb st) pred obj) ;;
  match made with
  | None => ret tt
  | Some claims =>
      on_wbs (add_wb_thing_claims depth wb_id claims) ;;
      ret tt
  end.

(** [create_subst_property] and [create_subst_item]. *)
Definition create_subst_property (depth : nat) (rdf_pred_node : node)
  (original_wd_id label obj_type : string) : run converter unit :=
  st <- get_state ;;
  known <- pure (rdf2wb_id (ont2wb st) rdf_pred_node false) ;;
  match known with
  | Some _ => ret tt
  | None =>
      let lbs := Dict.set [] default_language label in
      let property_type :=
        if is_text_type obj_type then obj_type else "wikibase-" ++ obj_type in
      local_wb_id <-
        on_wbs (create_wb_thing depth false (texts lbs) (texts []) property_type) ;;
      record_link rdf_pred_node (Some local_wb_id)
  end.

Definition create_subst_item (depth : nat) (rdf_indiv_node : node)
  (original_wd_id label : string) : run converter unit :=
  st <- get_state ;;
  known <- pure (rdf2wb_id (ont2wb st) rdf_indiv_node false) ;;
  match known with
  | Some _ => ret tt
  | None =>
      let lbs := Dict.set [] default_language label in
      local_wb_id <-
        on_wbs (create_wb_thing depth true (texts lbs) (texts []) "string") ;;
      record_link rdf_indiv_node (Some local_wb_id)
  end.

(** The calls [convert] makes when there is no link file. *)
Definition bootstrap (depth : nat) : run converter unit :=
  create_subst_property depth (RDFS "subClassOf") "P279" "subClassOf" "item" ;;
  create_subst_property depth (RDFS "subPropertyOf") "P1647" "subPropertyOf" "property" ;;
  create_subst_property depth (SCHEMA "inLanguage") "P305" "inLanguage" "string" ;;
  create_subst_property depth (SCHEMA "version") "P348" "version" "string" ;;
  create_subst_property depth (SCHEMA "isBasedOn") "P144" "isBasedOn" "property" ;;
  create_subst_property depth (SCHEMA "copyrightHolder") "P3931" "copyrightHolder" "item" ;;
  create_subst_property depth (SCHEMA "licenseDeclared") "P2479" "licenseDeclared" "item" ;;
  create_subst_property depth (SCHEMA "creativeWorkStatus") "P548" "creativeWorkStatus" "string" ;;
  create_subst_property depth (SCHEMA "image") "P4765" "image" "url" ;;
  create_subst_property depth (SCHEMA "hasPart") "P527" "hasPart" "item" ;;
  create_subst_property depth (SCHEMA "codeRepository") "P1324" "sourceCodeRepository" "url" ;;
  create_subst_property depth (SCHEMA "value") "P8203" "supportedMetaData" "string" ;;
  create_subst_property depth (OBO "BFO_0000016") "P7535" "scopeAndContent" "string" ;;
  create_subst_property depth (SCHEMA "amount") "P1114" "quantity" "string" ;;
  create_subst_item depth (SCHEMA "URL") "QXXXXXXX" "URL" ;;
  create_subst_property depth (SPDX "licenseDeclared") "P2479" "licenseDeclared" "string" ;;
  create_subst_property depth (EPO "classificationIPCInventive") "P5778"
    "classificationIPCInventive" "string" ;;
  create_subst_property depth (SCHEMA "fileFormat") "PXXXXXX" "fileFormat" "string".

(** The body of the first loop of [convert], which creates the items
    and properties. *)
Definition create_for (depth : nat) (subj : node) : run converter unit :=
  if skip_subj subj then ret tt
  else
    st <- get_state ;;
    match objects (ont2wb st) subj (SCHEMA "identifier") with
    | _ :: _ => ret tt
    | [] =>
        wb_id <- create_ont_wb_thing depth subj ;;
        record_link subj wb_id
    end.

(** The body of the loop over the triples of a subject. *)
Definition claim_for_triple (depth : nat) (wb_id : string) (subj : node)
  (t : triple) : run converter unit :=
  let pred := snd (fst t) in
  let obj := snd t in
  if node_eqb pred (RDFS "range") then ret tt
  else if node_eqb pred (RDFS "domain") then ret tt
  else create_claim depth wb_id subj pred obj.

(** The body of the second loop, which creates the claims;
    [wb_ids[0]] raises on an empty list. *)
Definition claims_for (depth : nat) (subj : node) : run converter unit :=
  if skip_subj subj then ret tt
  else
    st <- get_state ;;
    match objects (ont2wb st) subj (SCHEMA "identifier") with
    | [] => raise IndexError
    | first :: _ =>
        for_ (triples_of g subj) (claim_for_triple depth (str first) subj)
    end.

Definition creation_pass (depth : nat) : run converter unit :=
  for_ (subjects g) (create_for depth).

Definition claim_pass (depth : nat) : run converter unit :=
  for_ (subjects g) (claims_for depth).

(** [convert]. *)
Definition convert (depth : nat) : run converter unit :=
  set_ont2wb [] ;;
  st <- get_state ;;
  match link_file st with
  | Some file => set_ont2wb (load file)
  | None => bootstrap depth
  end ;;
  creation_pass depth ;;
  st <- get_state ;;
  set_link_file (serialize (ont2wb st)) ;;
  claim_pass depth.
End WithGraph.

End Converter.

(** ** wikibase.py: the dummy session of a dry run *)

Module Dummy.
Import WikiBase.

(** [request_token], [clear_thing] and [add_wb_thing_claims] of
    [DummyWBSession]: nothing is sent. *)
Definition request_token : run session string := ret EmptyString.

Definition clear_thing (part_id : string) : run session unit := ret tt.

Definition add_wb_thing_claims (depth : nat) (wb_id : string)
  (claims : Dict.t (list statement)) : run session string :=
  ret EmptyString.

(** [create_wb_thing_raw] of [DummyWBSession]: the text [Q] or [P] is
    added to the number that [random.randint] gives, and a text and a
    number cannot be added. *)
Definition create_wb_thing_raw (depth : nat) (item : bool) (data : payload)
  (wb_id : option string) : run session string :=
  raise TypeError.

(** [create_wb_thing], which [DummyWBSession] takes from [WBSession]; its
    last call goes to the function of the dummy. *)
Definition create_wb_thing (depth : nat) (item : bool)
  (labels descriptions : Dict.t pyval) (property_type : string)
  : run session string :=
  data <- pure (create_wb_thing_data item labels descriptions property_type) ;;
  create_wb_thing_raw depth item data None.

End Dummy.

(** ** rdfont2wb.py: the converter on either session *)

Module OnSession.
Import Rdf WikiBase Converter.

(** The two methods of [self.wbs] that the converter calls. *)
Record wb_session : Type := {
  create_wb_thing_of :
    nat -> bool -> Dict.t pyval -> Dict.t pyval -> string -> run session string;
  add_wb_thing_claims_of :
    nat -> string -> Dict.t (list statement) -> run session string
}.

(** [WBSession] and [DummyWBSession], as [cli] chooses between them. *)
Definition live : wb_session :=
  {| create_wb_thing_of := WikiBase.create_wb_thing;
     add_wb_thing_claims_of := WikiBase.add_wb_thing_claims |}.

Definition dry : wb_session :=
  {| create_wb_thing_of := Dummy.create_wb_thing;
     add_wb_thing_claims_of := Dummy.add_wb_thing_claims |}.

Section WithSession.
Variable session_of : wb_session.
Variable g : graph.
Variable validators_url : string -> bool.

Definition create_ont_wb_thing (depth : nat) (subj : node)
  : run converter (option string) :=
  lbs <- pure (aggregate g get_label_preds label_sep subj) ;;
  dscs <- pure (aggregate g get_desc_preds description_sep subj) ;;
  match kind_of_types (objects g subj RDF_type) with
  | Item =>
      id <- on_wbs (create_wb_thing_of session_of depth true
                      (texts lbs) (texts dscs) "string") ;;
      ret (Some id)
  | Property =>
      id <- on_wbs (create_wb_thing_of session_of depth false
                      (texts lbs) (texts dscs) "string") ;;
      ret (Some id)
  | NoThing => ret None
  | UnknownType => raise (SystemExit 1)
  end.

Definition create_claim (depth : nat) (wb_id : string) (subj pred obj : node)
  : run converter unit :=
  st <- get_state ;;
  made <- pure (claims_of g validators_url (ont2wb st) pred obj) ;;
  match made with
  | None => ret tt
  | Some claims =>
      on_wbs (add_wb_thing_claims_of session_of depth wb_id claims) ;;
      ret tt
  end.

Definition create_subst_property (depth : nat) (rdf_pred_node : node)
  (original_wd_id label obj_type : string) : run converter unit :=
  st <- get_state ;;
  known <- pure (rdf2wb_id (ont2wb st) rdf_pred_node false) ;;
  match known with
  | Some _ => ret tt
  | None =>
      let lbs := Dict.set [] default_language label in
      let property_type :=
        if is_text_type obj_type then obj_type else "wikibase-" ++ obj_type in
      local_wb_id <-
        on_wbs (create_wb_thing_of session_of depth false
                  (texts lbs) (texts []) property_type) ;;
      record_link rdf_pred_node (Some local_wb_id)
  end.

Definition create_subst_item (depth : nat) (rdf_indiv_node : node)
  (original_wd_id label : string) : run converter unit :=
  st <- get_state ;;
  known <- pure (rdf2wb_id (ont2wb st) rdf_indiv_node false) ;;
  match known with
  | Some _ => ret tt
  | None =>
      let lbs := Dict.set [] default_language label in
      local_wb_id <-
        on_wbs (create_wb_thing_of session_of depth true
                  (texts lbs) (texts []) "string") ;;
      record_link rdf_indiv_node (Some local_wb_id)
  end.

Definition bootstrap (depth : nat) : run converter unit :=
  create_subst_property depth (RDFS "subClassOf") "P279" "subClassOf" "item" ;;
  create_subst_property depth (RDFS "subPropertyOf") "P1647" "subPropertyOf" "property" ;;
  create_subst_property depth (SCHEMA "inLanguage") "P305" "inLanguage" "string" ;;
  create_subst_property depth (SCHEMA "version") "P348" "version" "string" ;;
  create_subst_property depth (SCHEMA "isBasedOn") "P144" "isBasedOn" "property" ;;
  create_subst_property depth (SCHEMA "copyrightHolder") "P3931" "copyrightHolder" "item" ;;
  create_subst_property depth (SCHEMA "licenseDeclared") "P2479" "licenseDeclared" "item" ;;
  create_subst_property depth (SCHEMA "creativeWorkStatus") "P548" "creativeWorkStatus" "string" ;;
  create_subst_property depth (SCHEMA "image") "P4765" "image" "url" ;;
  create_subst_property depth (SCHEMA "hasPart") "P527" "hasPart" "item" ;;
  create_subst_property depth (SCHEMA "codeRepository") "P1324" "sourceCodeRepository" "url" ;;
  create_subst_property depth (SCHEMA "value") "P8203" "supportedMetaData" "string" ;;
  create_subst_property depth (OBO "BFO_0000016") "P7535" "scopeAndContent" "string" ;;
  create_subst_property depth (SCHEMA "amount") "P1114" "quantity" "string" ;;
  create_subst_item depth (SCHEMA "URL") "QXXXXXXX" "URL" ;;
  create_subst_property depth (SPDX "licenseDeclared") "P2479" "licenseDeclared" "string" ;;
  create_subst_property depth (EPO "classificationIPCInventive") "P5778"
    "classificationIPCInventive" "string" ;;
  create_subst_property depth (SCHEMA "fileFormat") "PXXXXXX" "fileFormat" "string".

Definition create_for (depth : nat) (subj : node) : run converter unit :=
  if skip_subj subj then ret tt
  else
    st <- get_state ;;
    match objects (ont2wb st) subj (SCHEMA "identifier") with
    | _ :: _ => ret tt
    | [] =>
        wb_id <- create_ont_wb_thing depth subj ;;
        record_link subj wb_id
    end.

Definition claim_for_triple (depth : nat) (wb_id : string) (subj : node)
  (t : triple) : run converter unit :=
  let pred := snd (fst t) in
  let obj := snd t in
  if node_eqb pred (RDFS "range") then ret tt
  else if node_eqb pred (RDFS "domain") then ret tt
  else create_claim depth wb_id subj pred obj.

Definition claims_for (depth : nat) (subj : node) : run converter unit :=
  if skip_subj subj then ret tt
  else
    st <- get_state ;;
    match objects (ont2wb st) subj (SCHEMA "identifier") with
    | [] => raise IndexError
    | first :: _ =>
        for_ (triples_of g subj) (claim_for_triple depth (str first) subj)
    end.

Definition creation_pass (depth : nat) : run converter unit :=
  for_ (subjects g) (create_for depth).

Definition claim_pass (depth : nat) : run converter unit :=
  for_ (subjects g) (claims_for depth).

Definition convert (depth : nat) : run converter unit :=
  set_ont2wb [] ;;
  st <- get_state ;;
  match link_file st with
  | Some file => set_ont2wb (load file)
  | None => bootstrap depth
  end ;;
  creation_pass depth ;;
  st <- get_state ;;
  set_link_file (serialize (ont2wb st)) ;;
  claim_pass depth.
End WithSession.

End OnSession.

(** * The vocabulary of the properties, and sample data *)

Import Rdf WikiBase Converter.

Definition example_node : node := URIRef "http://example.org/onto#Thing".

Definition twice_linked : graph :=
  [(example_node, SCHEMA "identifier", Literal_of (Some "Q1"));
   (example_node, SCHEMA "identifier", Literal_of (Some "Q2"))].

(** A plain or language-tagged literal, from its text and its tag. *)
Definition tagged (x : string * option string) : node :=
  Literal (plain (fst x) (snd x)).







(** The creation of an item ([item = true]) or a property for the
    subject, and the record of its link. *)
Definition materialize (depth : nat) (subj : node) (st : converter)
  (lbs dscs : Dict.t string) (item : bool) : result unit * converter :=
  (wb_id <- on_wbs (create_wb_thing depth item (texts lbs) (texts dscs) "string") ;;
   record_link subj (Some wb_id)) st.

(** Scripted answers of the remote, and a converter that has not run. *)
Definition ok_token (tok : string) : response :=
  {| status_code := 200; csrftoken := Some tok; error_of := None; entity_id := None |}.

Definition done (id : string) : response :=
  {| status_code := 200; csrftoken := None; error_of := None; entity_id := Some id |}.

Definition refused (why : string) : response :=
  {| status_code := 200; csrftoken := None;
     error_of := Some {| code := "modification-failed"; info := why |};
     entity_id := None |}.

Definition fresh (answers : list response) (file : option (list triple)) : converter :=
  {| wbs := {| script := answers; log := [] |}; ont2wb := []; link_file := file |}.

Definition untyped_graph : graph :=
  [(example_node, RDF_type, SKOS "Concept")].

Definition blank_class : node := BNode "b0".
Definition blank_class_graph : graph := [(blank_class, RDF_type, OWL "Class")].

Definition is_range_or_domain (t : triple) : bool :=
  node_eqb (snd (fst t)) (RDFS "range") || node_eqb (snd (fst t)) (RDFS "domain").

Definition ranged_graph : graph :=
  [(example_node, RDFS "range", OWL "Thing");
   (example_node, RDFS "domain", OWL "Thing")].

Definition english_label : Dict.t pyval := [("en", PStr "Thing")].
Definition two_descriptions : Dict.t string :=
  [("en", "a thing"); ("de", "ein Ding")].
Definition ready : session :=
  {| script := [ok_token "t"; done "Q1"]; log := [] |}.

(** The entries made of the keys and values of a dictionary. *)
Definition entries {V W : Type} (f : string -> V -> W) (d : Dict.t V) : Dict.t W :=
  map (fun kv : string * V => (fst kv, f (fst kv) (snd kv))) d.

(** The entry sent for a label and for a description. *)
Definition label_term (lng text : string) : term :=
  {| language := lng; value := PStr text |}.

Definition description_term (lng text : string) : term :=
  {| language := lng;
     value := PStr (if (250 <? String.length text)%nat
                    then Text.take 247 text ++ "..." else text) |}.

(** From [w] to [w'] the session has sent requests that are all [P]. *)
Definition sends_all (P : request -> Prop) (w w' : session) : Prop :=
  exists reqs, log w' = (log w ++ reqs)%list /\ Forall P reqs.

(** The edit that [create_wb_thing_raw] sends: a new entity when it has
    no identifier, an entity that exists when it has one. *)
Definition edit_of (item : bool) (data : payload) (wb_id : option string)
  (tok : string) : request :=
  match wb_id with
  | None => EditEntity (New (if item then "item" else "property")) true data tok
  | Some id => EditEntity (Existing id) false data tok
  end.


(** A request that asks for no new entity. *)
Definition not_new (q : request) : Prop :=
  match q with
  | EditEntity (New _) _ _ _ => False
  | _ => True
  end.


Fixpoint replicate (n : nat) (c : ascii) : string :=
  match n with
  | O => EmptyString
  | S n' => String c (replicate n' c)
  end.

Definition long_text : string := replicate 260 "x".

Definition described : graph :=
  [(example_node, RDF_type, OWL "Class");
   (example_node, RDFS "label", tagged ("Thing", None));
   (example_node, RDFS "comment", tagged (long_text, Some "en"))].

Definition described_run : result (option string) * converter :=
  create_ont_wb_thing described 5 example_node
    (fresh [ok_token "t"; done "Q1"] None).

(** A collision is a pair of the info of the error and the identifier
    found in it. *)
Definition collides (item : bool) (c : string * string) : Prop :=
  Text.contains " already has " (fst c) = true
  /\ search_pat item (fst c) = Some (snd c).

(** The answers of a remote that reports the collisions [cs], one
    after the other, lets every [clear_thing] pass, and then accepts
    the edit; and the requests the session sends to it. *)
Fixpoint answers (tok final : string) (rest : list response)
  (cs : list (string * string)) : list response :=
  match cs with
  | [] => ok_token tok :: done final :: rest
  | c :: cs' =>
      ok_token tok :: refused (fst c)
        :: ok_token tok :: done (snd c) :: answers tok final rest cs'
  end.

Fixpoint requests (item : bool) (data : payload) (tok : string)
  (wb_id : option string) (cs : list (string * string)) : list request :=
  match cs with
  | [] => [QueryTokens; edit_of item data wb_id tok]
  | c :: cs' =>
      QueryTokens :: edit_of item data wb_id tok
        :: QueryTokens :: EditEntity (Existing (snd c)) true DataEmpty tok
        :: requests item data tok (Some (snd c)) cs'
  end.

Definition collision_info : string :=
  "Item [[Item:Q42|Q42]] already has label Thing associated with language code en.".

Definition thing_data : payload :=
  DataEntity [("en", label_term "en" "Thing")] [] None.

(** The claim with a text as its value. *)
Definition text_claim (pred_wb_id kind text : string) : statement :=
  {| mainsnak :=
       {| snaktype := "value";
          property := pred_wb_id;
          WikiBase.datatype := kind;
          datavalue_value := TextValue text;
          datavalue_type := kind |};
     statement_type := "statement";
     rank := "normal" |}.

(** A test for URLs by their scheme, in the place of [validators.url]. *)
Definition scheme_url (s : string) : bool :=
  match Text.strip_prefix "http://" s, Text.strip_prefix "https://" s,
        Text.strip_prefix "ftp://" s with
  | None, None, None => false
  | _, _, _ => true
  end.

Definition homepage : node := SCHEMA "url".
Definition homepage_store : graph :=
  [(homepage, SCHEMA "identifier", Literal_of (Some "P10"))].

(** A node with a record in the link store. *)
Definition linked (store : graph) (s : node) : Prop :=
  objects store s (SCHEMA "identifier") <> [].

(** What a turn of the creation loop does. *)
Inductive turn (g : graph) (depth : nat) (s : node) (st : converter)
  : result unit -> converter -> Prop :=
| turn_skipped :
    skip_subj s = true -> turn g depth s st (Ok tt) st
| turn_known :
    skip_subj s = false -> linked (ont2wb st) s -> turn g depth s st (Ok tt) st
| turn_failed (e : error) (st1 : converter) :
    skip_subj s = false ->
    objects (ont2wb st) s (SCHEMA "identifier") = [] ->
    create_ont_wb_thing g depth s st = (Raise e, st1) ->
    turn g depth s st (Raise e) st1
| turn_recorded (x : option string) (st1 : converter) :
    skip_subj s = false ->
    objects (ont2wb st) s (SCHEMA "identifier") = [] ->
    create_ont_wb_thing g depth s st = (Ok x, st1) ->
    turn g depth s st (Ok tt)
      {| wbs := wbs st1;
         ont2wb := Rdf.add (ont2wb st1) (s, SCHEMA "identifier", Literal_of x);
         link_file := link_file st1 |}.

(** A run that keeps the relation [R] between the state it starts from
    and the state it leaves. *)
Definition respects (R : converter -> converter -> Prop) {A : Type}
  (c : run converter A) : Prop :=
  forall st r st', c st = (r, st') -> R st st'.

(** The link file is written by [convert] only. *)
Definition same_file (st st' : converter) : Prop := link_file st' = link_file st.

(** The claim pass keeps the link graph and the link file, and asks for
    no new entity. *)
Definition claims_only (st st' : converter) : Prop :=
  ont2wb st' = ont2wb st
  /\ link_file st' = link_file st
  /\ sends_all not_new (wbs st) (wbs st').

(** The converter as the second run has it after loading the file. *)
Definition loaded (st : converter) (file : list triple) : converter :=
  {| wbs := wbs st; ont2wb := load file; link_file := Some file |}.

Definition class_graph : graph :=
  [(example_node, RDF_type, OWL "Class");
   (example_node, RDFS "label", tagged ("Thing", Some "en"))].

(** A remote that accepts every creation: the eighteen of the bootstrap
    and the one of the class. *)
Definition accepting : list response :=
  flat_map (fun id => [ok_token "t"; done id])
    ["P1"; "P2"; "P3"; "P4"; "P5"; "P6"; "P7"; "P8"; "P9"; "P10"; "P11"; "P12";
     "P13"; "P14"; "Q1"; "P15"; "P16"; "P17"; "Q2"].

Definition first_run : result unit * converter :=
  convert class_graph scheme_url 5 (fresh accepting None).

Definition written : list triple :=
  match link_file (snd first_run) with
  | Some file => file
  | None => []
  end.

Definition second_run : result unit * converter :=
  convert class_graph scheme_url 5 (fresh [] (Some written)).

Definition no_identifier : node := Literal (plain "None" None).

Definition ontology_node : node := URIRef "http://example.org/onto".

Definition ontology_graph : graph :=
  [(ontology_node, RDF_type, OWL "Ontology");
   (ontology_node, RDFS "label", tagged ("An ontology", Some "en"))].

Definition ontology_and_class : graph :=
  [(ontology_node, RDF_type, OWL "Ontology");
   (ontology_node, RDF_type, OWL "Class")].

(** Texts made of digits only, and texts free of a character. *)
Fixpoint all_digits (s : string) : bool :=
  match s with
  | EmptyString => true
  | String c s' => Text.is_digit c && all_digits s'
  end.

Fixpoint free_of (c : ascii) (s : string) : bool :=
  match s with
  | EmptyString => true
  | String c' s' => negb (Ascii.eqb c' c) && free_of c s'
  end.

(** A text that does not go on with a digit. *)
Definition no_digit_ahead (s : string) : bool :=
  match s with
  | EmptyString => true
  | String c _ => negb (Text.is_digit c)
  end.

(** The literal and the letter of [item_pat] and of [prop_pat]. *)
Definition ref_lit (item : bool) : string :=
  if item then "[[Item:" else "[[Property:".

Definition ref_letter (item : bool) : ascii :=
  if item then "Q"%char else "P"%char.

(** What [create_wb_thing] sends for the label of a language: a text as
    it is; of a list, whose elements are set one over the other, the
    last element; of an empty list nothing. *)
Definition sent_label (kv : string * pyval) : Dict.t term :=
  match snd kv with
  | PStr text => [(fst kv, {| language := fst kv; value := PStr text |})]
  | PList [] => []
  | PList (x :: l) =>
      [(fst kv, {| language := fst kv; value := PStr (last l x) |})]
  end.

(** Texts without a newline, and texts without [#] and [/]. *)
Definition one_line (s : string) : bool := free_of Text.newline s.

Definition no_sep (s : string) : bool := free_of "#"%char s && free_of "/"%char s.

(** A link store with at most one record for every node, and a run
    that keeps a property of the link graph. *)
Definition functional (store : graph) : Prop :=
  forall s, length (objects store s (SCHEMA "identifier")) <= 1.

Definition keeps (P : graph -> Prop) (st st' : converter) : Prop :=
  P (ont2wb st) -> P (ont2wb st').

(** A link store that holds no record for a node that the passes skip. *)
Definition skipped_unlinked (store : graph) : Prop :=
  forall s, skip_subj s = true -> objects store s (SCHEMA "identifier") = [].

(** A literal whose value is a text. *)
Definition text_literal (o : node) : Prop :=
  exists l, o = Literal l /\ py_value l <> None.

(** A run that leaves the session as it was. *)
Definition same_session (st st' : converter) : Prop := wbs st' = wbs st.

(** A URI with a character that rdflib refuses to write. *)
Definition spaced_node : node := URIRef "http://example.org/a b".

(** None of the types that decide the value type of an object. *)
Definition untyped (g : graph) (obj : node) : bool :=
  let types := objects g obj RDF_type in
  negb (mem (OWL "Class") types
        || mem (OWL "ObjectProperty") types
        || mem (OWL "DatatypeProperty") types).

Definition knows_store : graph :=
  [(SCHEMA "knows", SCHEMA "identifier", Literal_of (Some "P7"));
   (SCHEMA "Person", SCHEMA "identifier", Literal_of (Some "Q42"))].

Definition subproperty_store : graph :=
  [(RDFS "subPropertyOf", SCHEMA "identifier", Literal_of (Some "P1647"))].

Definition defined_by_store : graph :=
  [(RDFS "isDefinedBy", SCHEMA "identifier", Literal_of (Some "P20"));
   (ontology_node, SCHEMA "identifier", Literal_of None)].

Definition linked_label : graph :=
  [(example_node, RDFS "label", SCHEMA "name")].

Definition preferred_label : graph :=
  [(example_node, SKOS "prefLabel", tagged ("Thing", Some "en"));
   (example_node, DC "title", tagged ("Thing", None))].

(** * Properties *)

(** ** Texts, dictionaries, terms *)

Lemma append_assoc (a b c : string) : (a ++ b) ++ c = a ++ (b ++ c).
Proof.
  induction a as [|x a IH]; simpl; [reflexivity | now rewrite IH].
Qed.

Lemma append_empty_r (a : string) : a ++ EmptyString = a.
Proof.
  induction a as [|x a IH]; simpl; [reflexivity | now rewrite IH].
Qed.



Lemma take_all (n : nat) (s : string) :
  String.length s <= n -> Text.take n s = s.
Proof.
  revert s; induction n as [|n IH]; intros [|c s] H; simpl in *;
    try reflexivity; try lia.
  now rewrite IH by lia.
Qed.

Section DictFacts.
Variable V : Type.
Implicit Types (d : Dict.t V) (k : string) (v : V).

Lemma get_set d k v k' :
  Dict.get (Dict.set d k v) k' = if String.eqb k k' then Some v else Dict.get d k'.
Proof.
  induction d as [|[k0 v0] d IH]; simpl.
  - reflexivity.
  - destruct (String.eqb_spec k0 k) as [->|Hne]; simpl.
    + destruct (String.eqb k k'); reflexivity.
    + rewrite IH. destruct (String.eqb_spec k0 k') as [->|]; [|reflexivity].
      destruct (String.eqb_spec k k') as [->|]; [congruence | reflexivity].
Qed.

Lemma get_set_same d k v : Dict.get (Dict.set d k v) k = Some v.
Proof. now rewrite get_set, String.eqb_refl. Qed.

Lemma get_in_keys d k : Dict.get d k <> None <-> In k (Dict.keys d).
Proof.
  induction d as [|[k0 v0] d IH]; simpl.
  - intuition congruence.
  - destruct (String.eqb_spec k0 k) as [->|Hne].
    + split; [now left | discriminate].
    + rewrite IH. intuition congruence.
Qed.

End DictFacts.

Lemma option_eqb_eq (a b : option string) : option_eqb a b = true <-> a = b.
Proof.
  destruct a, b; simpl; try (split; congruence).
  rewrite String.eqb_eq. split; congruence.
Qed.

(** Equality of terms is an equivalence; it is the identity of texts
    on URI references and blank nodes, and on literals it leaves the
    case of the language tag aside. *)
Lemma literal_eqb_iff (a b : literal) :
  literal_eqb a b = true
  <-> lexical a = lexical b /\ folded_language a = folded_language b
      /\ Rdf.datatype a = Rdf.datatype b.
Proof.
  unfold literal_eqb.
  rewrite !andb_true_iff, String.eqb_eq, !option_eqb_eq. tauto.
Qed.

Lemma node_eqb_refl (a : node) : node_eqb a a = true.
Proof.
  destruct a; simpl; try apply String.eqb_refl.
  apply literal_eqb_iff. auto.
Qed.

Lemma node_eqb_sym (a b : node) : node_eqb a b = node_eqb b a.
Proof.
  destruct a, b; simpl; try reflexivity; try apply String.eqb_sym.
  apply eq_true_iff_eq. rewrite !literal_eqb_iff. intuition congruence.
Qed.

Lemma node_eqb_trans (a b c : node) :
  node_eqb a b = true -> node_eqb b c = true -> node_eqb a c = true.
Proof.
  destruct a, b, c; simpl; try discriminate;
    rewrite ?String.eqb_eq, ?literal_eqb_iff; intuition congruence.
Qed.

(** A term equal to one that is no literal is that term. *)
Lemma node_eqb_eq (a b : node) :
  is_literal a = false \/ is_literal b = false ->
  node_eqb a b = true <-> a = b.
Proof.
  intros Hlit. split; [|intros ->; apply node_eqb_refl].
  destruct a, b; simpl in *; try discriminate;
    try (rewrite String.eqb_eq; congruence).
  destruct Hlit; discriminate.
Qed.

Lemma node_eqb_left (a b c : node) :
  node_eqb a b = true -> node_eqb a c = node_eqb b c.
Proof.
  intros Hab. destruct (node_eqb b c) eqn:Hbc.
  - exact (node_eqb_trans _ _ _ Hab Hbc).
  - destruct (node_eqb a c) eqn:Hac; [|reflexivity].
    rewrite node_eqb_sym in Hab.
    rewrite (node_eqb_trans _ _ _ Hab Hac) in Hbc. discriminate.
Qed.

Lemma triple_eqb_refl (t : triple) : triple_eqb t t = true.
Proof. destruct t as [[s p] o]. simpl. now rewrite !node_eqb_refl. Qed.

(** The objects of a graph for a subject and a predicate: those of the
    triples with a subject and a predicate equal to them. *)
Lemma in_objects (g : graph) (s p o : node) :
  In o (objects g s p)
  <-> exists s' p', In (s', p', o) g
                    /\ node_eqb s' s = true /\ node_eqb p' p = true.
Proof.
  unfold objects. rewrite in_map_iff. split.
  - intros [[[s' p'] o'] [Ho Hin]]. simpl in Ho. subst o'.
    apply filter_In in Hin. destruct Hin as [Hin Hsp]. simpl in Hsp.
    apply andb_true_iff in Hsp. destruct Hsp as [Hs Hp]. eauto.
  - intros [s' [p' [Hin [Hs Hp]]]]. exists (s', p', o). split; [reflexivity|].
    apply filter_In. split; [assumption|]. simpl. now rewrite Hs, Hp.
Qed.

(** Equal subjects have the same objects. *)
Lemma objects_eqb (g : graph) (s s' p : node) :
  node_eqb s s' = true -> objects g s p = objects g s' p.
Proof.
  intros Heq. unfold objects. f_equal. apply filter_ext. intros [[s0 p0] o0].
  simpl. f_equal. rewrite (node_eqb_sym s0 s), (node_eqb_sym s0 s').
  now apply node_eqb_left.
Qed.

Lemma str_eqb (s s' : node) : node_eqb s s' = true -> str s = str s'.
Proof.
  destruct s, s'; simpl; try discriminate; try apply String.eqb_eq.
  intros H. apply literal_eqb_iff in H. tauto.
Qed.

Lemma skip_subj_eqb (s s' : node) :
  node_eqb s s' = true -> skip_subj s = skip_subj s'.
Proof.
  intros Heq. unfold skip_subj. rewrite (str_eqb _ _ Heq).
  destruct s, s'; simpl in *; try discriminate; reflexivity.
Qed.

Lemma objects_app (g1 g2 : graph) (s p : node) :
  objects (g1 ++ g2)%list s p = (objects g1 s p ++ objects g2 s p)%list.
Proof. unfold objects. now rewrite filter_app, map_app. Qed.

(** ** The link store: [rdf2wb_id] *)

Section Resolution.
Variables (store : graph) (rdf_ref : node).

Let records := objects store rdf_ref (SCHEMA "identifier").
Let unresolved (required : bool) : result (option string) :=
  if required then Raise (RuntimeError (NoSingleWikiBaseId (str rdf_ref)))
  else Ok None.

Lemma rdf2wb_id_unique (wb_id : node) (required : bool) :
  records = [wb_id] -> rdf2wb_id store rdf_ref required = Ok (Some (str wb_id)).
Proof. unfold rdf2wb_id; fold records; now intros ->. Qed.

Lemma rdf2wb_id_not_unique (required : bool) :
  length records <> 1 -> rdf2wb_id store rdf_ref required = unresolved required.
Proof.
  unfold rdf2wb_id, unresolved; fold records.
  destruct records as [|x [|y l]]; simpl; intros H; try reflexivity; lia.
Qed.

Lemma rdf2wb_id_some_inv (required : bool) (id : string) :
  rdf2wb_id store rdf_ref required = Ok (Some id) ->
  exists wb_id, records = [wb_id] /\ id = str wb_id.
Proof.
  unfold rdf2wb_id; fold records.
  destruct records as [|x [|y l]]; destruct required; try discriminate.
  - intros [= <-]; eauto.
  - intros [= <-]; eauto.
Qed.

(** With [fail_if_missing] the function gives a text or raises. *)
Lemma rdf2wb_id_required_not_none : rdf2wb_id store rdf_ref true <> Ok None.
Proof.
  unfold rdf2wb_id. destruct (objects _ _ _) as [|x [|y l]]; discriminate.
Qed.
End Resolution.

(** C5, as amended.  [rdf2wb_id] returns an identifier exactly when the
    link store holds one single record for the node, and then it is the
    text of that record.  With no record it raises the resolution error
    when the identifier is required and returns [None] when it is not.
    With more than one record it never returns an identifier, and it
    does what it does for a missing record: it raises when the
    identifier is required, and returns [None], without any error, when
    it is not. *)
Theorem rdf2wb_id_resolution (store : graph) (rdf_ref : node) (required : bool) :
  let records := objects store rdf_ref (SCHEMA "identifier") in
  let unresolved :=
    if required then Raise (RuntimeError (NoSingleWikiBaseId (str rdf_ref)))
    else Ok None in
  (forall id, rdf2wb_id store rdf_ref required = Ok (Some id) <->
              exists wb_id, records = [wb_id] /\ id = str wb_id)
  /\ (records = [] -> rdf2wb_id store rdf_ref required = unresolved)
  /\ (1 < length records ->
      rdf2wb_id store rdf_ref required = unresolved
      /\ forall id, rdf2wb_id store rdf_ref required <> Ok (Some id)).
Proof.
  cbv zeta. split; [|split].
  - intros id. split.
    + apply rdf2wb_id_some_inv.
    + intros [wb_id [Hrec ->]]. now apply rdf2wb_id_unique.
  - intros Hrec. apply rdf2wb_id_not_unique. rewrite Hrec. discriminate.
  - intros Hlen. split.
    + apply rdf2wb_id_not_unique. lia.
    + intros id Hid. apply rdf2wb_id_some_inv in Hid.
      destruct Hid as [wb_id [Hrec _]]. rewrite Hrec in Hlen. simpl in Hlen. lia.
Qed.

Lemma rdf2wb_id_resolution_witness :
  rdf2wb_id [] example_node true
    = Raise (RuntimeError (NoSingleWikiBaseId "http://example.org/onto#Thing"))
  /\ rdf2wb_id twice_linked example_node true
    = Raise (RuntimeError (NoSingleWikiBaseId "http://example.org/onto#Thing")).
Proof.
  split.
  - apply (proj1 (proj2 (rdf2wb_id_resolution [] example_node true))).
    reflexivity.
  - apply (proj2 (proj2 (rdf2wb_id_resolution twice_linked example_node true))).
    simpl. apply le_n.
Defined.

(** C5 as stated fails: two records for one node, and an identifier
    that is not required; the duplicate is no fault, the call returns
    [None] as it does for a node without a record. *)
Lemma duplicate_record_is_not_fatal :
  length (objects twice_linked example_node (SCHEMA "identifier")) = 2
  /\ rdf2wb_id twice_linked example_node false = Ok None.
Proof. split; reflexivity. Qed.

(** ** Aggregation of labels *)

Lemma get_label_preds_eq : get_label_preds = [RDFS "label"].
Proof. reflexivity. Qed.

Lemma get_desc_preds_eq : get_desc_preds = [RDFS "comment"].
Proof. reflexivity. Qed.

Section Aggregation.
Variable sep : string.



End Aggregation.




(** ** Runs *)

Lemma bind_ok {S A B} (c : run S A) (k : A -> run S B) (s s' : S) (a : A) :
  c s = (Ok a, s') -> bind c k s = k a s'.
Proof. unfold bind. now intros ->. Qed.

Lemma bind_raise {S A B} (c : run S A) (k : A -> run S B) (s s' : S) (e : error) :
  c s = (Raise e, s') -> bind c k s = (Raise e, s').
Proof. unfold bind. now intros ->. Qed.

Lemma for_app {S A} (l1 l2 : list A) (body : A -> run S unit) (s : S) :
  for_ (l1 ++ l2) body s = bind (for_ l1 body) (fun _ => for_ l2 body) s.
Proof.
  revert s. induction l1 as [|x l1 IH]; intros s; simpl.
  - reflexivity.
  - unfold bind in *. destruct (body x s) as [[[]|e] s1]; [|reflexivity].
    apply IH.
Qed.

(** An exception in a turn of a loop ends the loop. *)
Lemma for_raises {S A} (l1 l2 : list A) (x : A) (body : A -> run S unit)
  (s s1 s2 : S) (e : error) :
  for_ l1 body s = (Ok tt, s1) ->
  body x s1 = (Raise e, s2) ->
  for_ (l1 ++ x :: l2) body s = (Raise e, s2).
Proof.
  intros H1 Hx. rewrite for_app. rewrite (bind_ok _ _ _ H1). simpl.
  now rewrite (bind_raise _ _ _ Hx).
Qed.

(** ** Classification of the subjects *)

Section Classification.
Variables (g : graph) (depth : nat) (subj : node) (st : converter).
Variables (lbs dscs : Dict.t string).

Hypothesis not_linked : objects (ont2wb st) subj (SCHEMA "identifier") = [].
Hypothesis labels_ok : aggregate g get_label_preds label_sep subj = Ok lbs.
Hypothesis descriptions_ok : aggregate g get_desc_preds description_sep subj = Ok dscs.

Let types := objects g subj RDF_type.

Lemma create_for_by_kind :
  skip_subj subj = false ->
  create_for g depth subj st =
    match kind_of_types types with
    | Item => materialize depth subj st lbs dscs true
    | Property => materialize depth subj st lbs dscs false
    | NoThing => record_link subj None st
    | UnknownType => (Raise (SystemExit 1), st)
    end.
Proof.
  intros Hskip. unfold create_for, materialize. rewrite Hskip.
  unfold bind at 1. simpl. rewrite not_linked.
  unfold create_ont_wb_thing. fold types.
  unfold bind at 1. unfold bind at 1. unfold pure at 1. rewrite labels_ok.
  unfold bind at 1. unfold pure at 1. rewrite descriptions_ok.
  destruct (kind_of_types types).
  - unfold bind. destruct (on_wbs _ st) as [[id|e] st1]; reflexivity.
  - unfold bind. destruct (on_wbs _ st) as [[id|e] st1]; reflexivity.
  - reflexivity.
  - reflexivity.
Qed.
End Classification.

(** C3, as amended.  The creation pass decides for every subject, in
    this order: a blank node, or a node whose text is the base URI, is
    skipped, whatever its types; a type set with the class type yields
    an item; one with the object-property or the datatype-property type
    (and not the class type) yields a property; one with the ontology
    type yields no entity; any other type set ends the run with
    [exit(1)].  (The subject has no link yet and its labels and
    descriptions aggregate.) *)
Theorem classification_order (g : graph) (depth : nat) (subj : node)
  (st : converter) (lbs dscs : Dict.t string) :
  objects (ont2wb st) subj (SCHEMA "identifier") = [] ->
  aggregate g get_label_preds label_sep subj = Ok lbs ->
  aggregate g get_desc_preds description_sep subj = Ok dscs ->
  let types := objects g subj RDF_type in
  let class := mem (OWL "Class") types in
  let property :=
    mem (OWL "ObjectProperty") types || mem (OWL "DatatypeProperty") types in
  let ontology := mem (OWL "Ontology") types in
  (is_bnode subj = true \/ str subj = BASE_URI ->
   create_for g depth subj st = (Ok tt, st))
  /\ (is_bnode subj = false /\ str subj <> BASE_URI ->
      (class = true ->
       create_for g depth subj st = materialize depth subj st lbs dscs true)
      /\ (class = false -> property = true ->
          create_for g depth subj st = materialize depth subj st lbs dscs false)
      /\ (class = false -> property = false -> ontology = true ->
          create_for g depth subj st = record_link subj None st)
      /\ (class = false -> property = false -> ontology = false ->
          create_for g depth subj st = (Raise (SystemExit 1), st))).
Proof.
  intros Hlink Hlbs Hdscs. cbv zeta. split.
  - intros Hskip. unfold create_for.
    replace (skip_subj subj) with true; [reflexivity|].
    unfold skip_subj. destruct Hskip as [-> | ->]; [reflexivity|].
    now rewrite String.eqb_refl, orb_true_r.
  - intros [Hb Huri].
    assert (Hskip : skip_subj subj = false).
    { unfold skip_subj. rewrite Hb. simpl.
      destruct (String.eqb_spec (str subj) BASE_URI); congruence. }
    rewrite (create_for_by_kind g depth subj st Hlink Hlbs Hdscs Hskip).
    unfold kind_of_types. repeat split.
    + now intros ->.
    + now intros -> ->.
    + now intros -> -> ->.
    + now intros -> -> ->.
Qed.

Lemma classification_order_witness :
  create_for untyped_graph 5 example_node (fresh [] None)
  = (Raise (SystemExit 1), fresh [] None).
Proof.
  refine (proj2 (proj2 (proj2 (proj2
            (classification_order untyped_graph 5 example_node (fresh [] None)
               (lbs := []) (dscs := []) eq_refl eq_refl eq_refl)
            (conj eq_refl _)))) eq_refl eq_refl eq_refl).
  discriminate.
Defined.

(** C3 as stated fails: a blank node whose type set holds the class
    type is skipped; no item is made of it, though the remote would
    have answered. *)
Lemma blank_class_node_is_skipped :
  mem (OWL "Class") (objects blank_class_graph blank_class RDF_type) = true
  /\ kind_of_types (objects blank_class_graph blank_class RDF_type) = Item
  /\ create_for blank_class_graph 5 blank_class
       (fresh [ok_token "t"; done "Q7"] None)
     = (Ok tt, fresh [ok_token "t"; done "Q7"] None).
Proof. repeat split. Qed.

(** An unknown type set ends the creation pass. *)
Lemma unknown_type_aborts_pass (g : graph) (depth : nat) (subj : node)
  (before after : list node) (st0 st : converter) (lbs dscs : Dict.t string) :
  subjects g = (before ++ subj :: after)%list ->
  for_ before (create_for g depth) st0 = (Ok tt, st) ->
  skip_subj subj = false ->
  objects (ont2wb st) subj (SCHEMA "identifier") = [] ->
  aggregate g get_label_preds label_sep subj = Ok lbs ->
  aggregate g get_desc_preds description_sep subj = Ok dscs ->
  kind_of_types (objects g subj RDF_type) = UnknownType ->
  creation_pass g depth st0 = (Raise (SystemExit 1), st).
Proof.
  intros Hsub Hbefore Hskip Hlink Hlbs Hdscs Hkind.
  unfold creation_pass. rewrite Hsub.
  apply for_raises with (s1 := st); [assumption|].
  rewrite (create_for_by_kind g depth subj st Hlink Hlbs Hdscs Hskip).
  now rewrite Hkind.
Qed.

(** ** The claim pass: [rdfs:range] and [rdfs:domain] *)

(** C8.  [rdfs:range] and [rdfs:domain] are not in the non-claim set
    that [create_claim] consults; all the same the claim pass makes no
    call for a triple with one of them as its predicate, in any state
    and for any subject and object: the triples of a subject give the
    calls that the same triples without these two predicates give. *)
Theorem range_and_domain_make_no_claim :
  mem (RDFS "range") get_non_claim_preds = false
  /\ mem (RDFS "domain") get_non_claim_preds = false
  /\ (forall g url depth wb_id subj t st,
         snd (fst t) = RDFS "range" \/ snd (fst t) = RDFS "domain" ->
         claim_for_triple g url depth wb_id subj t st = (Ok tt, st))
  /\ (forall g url depth wb_id subj ts st,
         for_ ts (claim_for_triple g url depth wb_id subj) st
         = for_ (filter (fun t => negb (is_range_or_domain t)) ts)
             (claim_for_triple g url depth wb_id subj) st).
Proof.
  assert (Hstep : forall g url depth wb_id subj t st,
             is_range_or_domain t = true ->
             claim_for_triple g url depth wb_id subj t st = (Ok tt, st)).
  { intros g url depth wb_id subj t st H. unfold claim_for_triple.
    unfold is_range_or_domain in H.
    destruct (node_eqb (snd (fst t)) (RDFS "range")); [reflexivity|].
    simpl in H. now rewrite H. }
  split; [reflexivity|]. split; [reflexivity|]. split.
  - intros g url depth wb_id subj t st H. apply Hstep.
    unfold is_range_or_domain. destruct H as [-> | ->].
    + now rewrite node_eqb_refl.
    + rewrite node_eqb_refl. apply orb_true_r.
  - intros g url depth wb_id subj ts. induction ts as [|t ts IH]; intros st.
    + reflexivity.
    + simpl. destruct (is_range_or_domain t) eqn:Ht; simpl.
      * unfold bind. rewrite (Hstep _ _ _ _ _ _ _ Ht). apply IH.
      * unfold bind.
        destruct (claim_for_triple g url depth wb_id subj t st) as [[[]|e] s1];
          [apply IH | reflexivity].
Qed.

Lemma range_and_domain_make_no_claim_witness :
  claim_for_triple ranged_graph (fun _ => false) 5 "P1" example_node
    (example_node, RDFS "range", OWL "Thing") (fresh [] None)
  = (Ok tt, fresh [] None).
Proof.
  apply (proj1 (proj2 (proj2 range_and_domain_make_no_claim))).
  left. reflexivity.
Defined.

(** ** [create_wb_thing]: the data sent for an entity *)

Lemma getitem_of_key {V} (d : Dict.t V) (k : string) :
  In k (Dict.keys d) -> exists v, getitem d k = Ok v.
Proof.
  intros Hin. apply get_in_keys in Hin. unfold getitem.
  destruct (Dict.get d k) as [v|]; [eauto | congruence].
Qed.

Lemma get_texts (d : Dict.t string) (k : string) :
  Dict.get (texts d) k = option_map PStr (Dict.get d k).
Proof.
  induction d as [|[k0 v0] d IH]; simpl; [reflexivity|].
  destruct (String.eqb k0 k); [reflexivity | apply IH].
Qed.

Lemma keys_texts (d : Dict.t string) : Dict.keys (texts d) = Dict.keys d.
Proof. unfold Dict.keys, texts. rewrite map_map. reflexivity. Qed.

(** The loop over the labels raises nothing. *)
Lemma label_loop_ok (labels : Dict.t pyval) (ks : list string) :
  (forall k, In k ks -> In k (Dict.keys labels)) ->
  forall acc, exists lbs, for_each (label_body labels) ks acc = Ok lbs.
Proof.
  induction ks as [|k ks IH]; intros Hks acc; simpl.
  - eauto.
  - destruct (getitem_of_key labels k (Hks k (or_introl eq_refl))) as [v Hv].
    unfold label_body at 1. rewrite Hv. simpl.
    destruct v; simpl; apply IH; intros k' Hk'; apply Hks; now right.
Qed.

Section MissingLabel.
Variables (labels descriptions : Dict.t pyval).

(** A description in a language without a label ends the loop over
    the descriptions with an exception. *)
Lemma description_loop_fails (ks : list string) :
  (exists lng, In lng ks /\ Dict.get labels lng = None) ->
  forall acc, exists e,
    for_each (description_body labels descriptions) ks acc = Raise e.
Proof.
  induction ks as [|k ks IH]; intros [lng [Hin Hnone]] acc.
  - destruct Hin.
  - simpl.
    destruct (description_body labels descriptions acc k) as [acc'|e] eqn:Hk;
      simpl; [|eauto].
    apply IH. exists lng. split; [|assumption].
    destruct Hin as [<-|Hin]; [|assumption].
    unfold description_body, getitem in Hk. rewrite Hnone in Hk.
    discriminate.
Qed.

Lemma data_fails (item : bool) (property_type : string) :
  (exists lng, In lng (Dict.keys descriptions) /\ Dict.get labels lng = None) ->
  exists e, create_wb_thing_data item labels descriptions property_type = Raise e.
Proof.
  intros Hmiss. unfold create_wb_thing_data.
  destruct (for_each (label_body labels) (Dict.keys labels) []) as [lbs|e];
    simpl; [|eauto].
  destruct (description_loop_fails (Dict.keys descriptions) Hmiss []) as [e He].
  rewrite He. simpl. eauto.
Qed.
End MissingLabel.

Section MissingLabelOfText.
Variables (labels : Dict.t pyval) (descriptions : Dict.t string).

(** When the descriptions are texts, the exception is the [KeyError]
    of the first language without a label. *)
Lemma description_loop_key_error (ks : list string) :
  (forall k, In k ks -> In k (Dict.keys descriptions)) ->
  (exists lng, In lng ks /\ Dict.get labels lng = None) ->
  forall acc, exists missing,
    In missing ks /\ Dict.get labels missing = None
    /\ for_each (description_body labels (texts descriptions)) ks acc
       = Raise (KeyError missing).
Proof.
  induction ks as [|k ks IH]; intros Hks [lng [Hin Hnone]] acc.
  - destruct Hin.
  - simpl. unfold description_body at 1, getitem at 1.
    destruct (Dict.get labels k) as [lb|] eqn:Hlb; simpl.
    + assert (Hd : exists d, getitem (texts descriptions) k = Ok (PStr d)).
      { unfold getitem. rewrite get_texts.
        assert (Hk : In k (Dict.keys descriptions)) by (apply Hks; now left).
        apply get_in_keys in Hk.
        destruct (Dict.get descriptions k) as [d|]; [simpl; eauto | congruence]. }
      destruct Hd as [d Hd]. rewrite Hd. simpl.
      assert (Hrest : exists lng', In lng' ks /\ Dict.get labels lng' = None).
      { exists lng. split; [|assumption].
        destruct Hin as [<-|Hin]; [congruence | assumption]. }
      assert (Hks' : forall k', In k' ks -> In k' (Dict.keys descriptions))
        by (intros k' Hk'; apply Hks; now right).
      assert (Hgo : forall acc', exists missing,
                 In missing (k :: ks) /\ Dict.get labels missing = None
                 /\ for_each (description_body labels (texts descriptions)) ks acc'
                    = Raise (KeyError missing)).
      { intros acc'. destruct (IH Hks' Hrest acc') as [m [Hm [Hm' Hfor]]].
        exists m. split; [now right | split; assumption]. }
      destruct lb as [s|l]; simpl.
      * unfold shorten. simpl.
        destruct (250 <? String.length d)%nat; simpl; apply Hgo.
      * apply Hgo.
    + exists k. split; [now left | split; [assumption | reflexivity]].
Qed.
End MissingLabelOfText.

(** C10.  When the descriptions hold a language that the labels do not
    hold, [create_wb_thing] raises before any call of the remote: the
    session is left as it was.  For descriptions that are texts the
    exception is the [KeyError] of the first such language, raised by
    the look-up in the labels that decides on the handling of lists.
    So the operation returns only when every language of the
    descriptions is a language of the labels. *)
Theorem missing_label_language_fails (depth : nat) (item : bool)
  (labels : Dict.t pyval) (property_type : string) (w : session) :
  (forall descriptions : Dict.t string,
      (exists lng, In lng (Dict.keys descriptions) /\ Dict.get labels lng = None) ->
      exists missing,
        In missing (Dict.keys descriptions) /\ Dict.get labels missing = None
        /\ create_wb_thing depth item labels (texts descriptions) property_type w
           = (Raise (KeyError missing), w))
  /\ (forall descriptions : Dict.t pyval,
         (exists lng, In lng (Dict.keys descriptions) /\ Dict.get labels lng = None) ->
         exists e,
           create_wb_thing depth item labels descriptions property_type w
           = (Raise e, w))
  /\ (forall (descriptions : Dict.t pyval) (id : string) (w' : session),
         create_wb_thing depth item labels descriptions property_type w = (Ok id, w') ->
         forall lng, In lng (Dict.keys descriptions) -> Dict.get labels lng <> None).
Proof.
  split; [|split].
  - intros descriptions Hmiss.
    destruct (label_loop_ok labels (Dict.keys labels) (fun k H => H) []) as [lbs Hlbs].
    rewrite <- keys_texts in Hmiss.
    destruct (@description_loop_key_error labels descriptions
                (Dict.keys (texts descriptions))
                (fun k H => eq_ind _ (fun l => In k l) H _ (keys_texts descriptions))
                Hmiss [])
      as [missing [Hin [Hnone Hfor]]].
    exists missing. rewrite keys_texts in Hin.
    split; [assumption | split; [assumption|]].
    unfold create_wb_thing, bind, pure, create_wb_thing_data.
    rewrite Hlbs. simpl. rewrite Hfor. reflexivity.
  - intros descriptions Hmiss.
    destruct (@data_fails labels descriptions item property_type Hmiss) as [e He].
    exists e. unfold create_wb_thing, bind, pure. now rewrite He.
  - intros descriptions id w' Hrun lng Hin Hnone.
    destruct (@data_fails labels descriptions item property_type) as [e He].
    { exists lng. now split. }
    unfold create_wb_thing, bind, pure in Hrun. rewrite He in Hrun.
    discriminate.
Qed.

Lemma missing_label_language_fails_witness :
  exists missing,
    In missing (Dict.keys two_descriptions)
    /\ Dict.get english_label missing = None
    /\ create_wb_thing 5 true english_label (texts two_descriptions) "string" ready
       = (Raise (KeyError missing), ready).
Proof.
  apply (proj1 (missing_label_language_fails 5 true english_label "string" ready)).
  exists "de". split; [right; left; reflexivity | reflexivity].
Defined.

(** *** Dictionaries filled key by key *)

Lemma get_none_iff {V} (d : Dict.t V) (k : string) :
  Dict.get d k = None <-> ~ In k (Dict.keys d).
Proof.
  rewrite <- get_in_keys. destruct (Dict.get d k); split; intros H;
    try congruence; try reflexivity.
  exfalso. apply H. discriminate.
Qed.

Lemma set_fresh {V} (d : Dict.t V) (k : string) (v : V) :
  Dict.get d k = None -> Dict.set d k v = (d ++ [(k, v)])%list.
Proof.
  induction d as [|[k0 v0] d IH]; simpl; [reflexivity|].
  destruct (String.eqb k0 k); [discriminate|].
  intros H. now rewrite IH.
Qed.

Lemma get_app_fresh {V} (d1 d2 : Dict.t V) (k : string) :
  Dict.get d1 k = None -> Dict.get (d1 ++ d2)%list k = Dict.get d2 k.
Proof.
  induction d1 as [|[k0 v0] d1 IH]; simpl; [reflexivity|].
  destruct (String.eqb k0 k); [discriminate | exact IH].
Qed.

Section DictBuild.
Variables (V W : Type).
Variable f : string -> V -> W.


Lemma get_entries (d : Dict.t V) (k : string) :
  Dict.get (entries f d) k = option_map (f k) (Dict.get d k).
Proof.
  induction d as [|[k0 v0] d IH]; simpl; [reflexivity|].
  destruct (String.eqb_spec k0 k) as [->|]; [reflexivity | apply IH].
Qed.

(** A loop that sets, for every key of [d] in turn, the entry made of
    the key and its value, builds the entries f of [d]. *)
Lemma build_entries (body : Dict.t W -> string -> result (Dict.t W)) (d : Dict.t V) :
  (forall acc k v, Dict.get d k = Some v -> body acc k = Ok (Dict.set acc k (f k v))) ->
  NoDup (Dict.keys d) ->
  for_each body (Dict.keys d) [] = Ok (entries f d).
Proof.
  intros Hbody Hnodup.
  assert (Hgen : forall d2 d1,
             d = (d1 ++ d2)%list ->
             for_each body (Dict.keys d2) (entries f d1) = Ok (entries f d)).
  { induction d2 as [|[k v] d2 IH]; intros d1 Hd.
    - simpl. rewrite Hd, app_nil_r. reflexivity.
    - simpl.
      assert (Hfresh : Dict.get d1 k = None).
      { apply get_none_iff. intros Hin. subst d.
        unfold Dict.keys in Hnodup. rewrite map_app in Hnodup. simpl in Hnodup.
        apply NoDup_remove_2 in Hnodup. apply Hnodup.
        apply in_or_app. now left. }
      rewrite (Hbody (entries f d1) k v).
      + cbn [result_bind]. rewrite set_fresh.
        * replace (entries f d1 ++ [(k, f k v)])%list
            with (entries f (d1 ++ [(k, v)])%list).
          -- apply IH. rewrite <- app_assoc. exact Hd.
          -- unfold entries. rewrite map_app. reflexivity.
        * rewrite get_entries, Hfresh. reflexivity.
      + rewrite Hd, get_app_fresh by assumption. simpl.
        now rewrite String.eqb_refl. }
  apply (Hgen d []). reflexivity.
Qed.
End DictBuild.




(** *** What a creation sends *)

Section Sends.
Variable P : request -> Prop.

Lemma sends_refl (w : session) : sends_all P w w.
Proof. exists []. split; [now rewrite app_nil_r | constructor]. Qed.

Lemma sends_trans (w1 w2 w3 : session) :
  sends_all P w1 w2 -> sends_all P w2 w3 -> sends_all P w1 w3.
Proof.
  intros [r1 [H1 F1]] [r2 [H2 F2]]. exists (r1 ++ r2)%list. split.
  - now rewrite H2, H1, app_assoc.
  - apply Forall_app. now split.
Qed.

Lemma call_api_sends (q : request) (w w' : session) (r : result response) :
  P q -> call_api q w = (r, w') -> sends_all P w w'.
Proof.
  intros Hq. unfold call_api.
  destruct (script w); intros [= <- <-]; exists [q]; simpl;
    (split; [reflexivity | now constructor]).
Qed.

Hypothesis token_ok : P QueryTokens.
Hypothesis clear_ok : forall id tok, P (EditEntity (Existing id) true DataEmpty tok).

Lemma request_token_sends (w w' : session) (r : result string) :
  request_token w = (r, w') -> sends_all P w w'.
Proof.
  unfold request_token, bind.
  destruct (call_api QueryTokens w) as [[res|e] w1] eqn:Hcall;
    apply call_api_sends in Hcall; try exact token_ok.
  - destruct (negb _); [intros [= <- <-]; assumption|].
    destruct (csrftoken res); intros [= <- <-]; assumption.
  - intros [= <- <-]; assumption.
Qed.

Lemma clear_thing_sends (part_id : string) (w w' : session) (r : result unit) :
  clear_thing part_id w = (r, w') -> sends_all P w w'.
Proof.
  unfold clear_thing, bind.
  destruct (request_token w) as [[tok|e] w1] eqn:Htok;
    apply request_token_sends in Htok.
  - destruct (call_api _ w1) as [[res|e] w2] eqn:Hcall;
      apply call_api_sends in Hcall; try apply clear_ok.
    + destruct (error_of res); intros [= <- <-];
        apply (sends_trans Htok Hcall).
    + intros [= <- <-]. apply (sends_trans Htok Hcall).
  - intros [= <- <-]; assumption.
Qed.

Variables (item : bool) (data : payload).
Hypothesis edit_ok : forall id tok, P (EditEntity (Existing id) false data tok).

Lemma create_wb_thing_raw_sends (depth : nat) :
  forall (wb_id : option string) (w w' : session) (r : result string),
    (forall tok, P (edit_of item data wb_id tok)) ->
    create_wb_thing_raw depth item data wb_id w = (r, w') -> sends_all P w w'.
Proof.
  induction depth as [|depth IH]; intros wb_id w w' r Hedit.
  - simpl. intros [= <- <-]. apply sends_refl.
  - simpl. unfold bind at 1.
    destruct (request_token w) as [[tok|e] w1] eqn:Htok;
      apply request_token_sends in Htok;
      [|intros [= <- <-]; assumption].
    unfold bind at 1.
    destruct (call_api _ w1) as [[res|e] w2] eqn:Hcall;
      (apply call_api_sends in Hcall;
       [|specialize (Hedit tok); destruct wb_id; exact Hedit]);
      pose proof (sends_trans Htok Hcall) as H12;
      [|intros [= <- <-]; assumption].
    destruct (error_of res) as [err|].
    + destruct (Text.contains _ _); [|intros [= <- <-]; assumption].
      destruct (search_pat item (info err)) as [found|];
        [|intros [= <- <-]; assumption].
      unfold bind.
      destruct (clear_thing found w2) as [[[]|e] w3] eqn:Hclear;
        apply clear_thing_sends in Hclear.
      * intros Hrec. apply IH in Hrec; [|intros tok'; apply edit_ok].
        apply (sends_trans H12). apply (sends_trans Hclear Hrec).
      * intros [= <- <-]. apply (sends_trans H12 Hclear).
    + destruct (entity_id res); intros [= <- <-]; assumption.
Qed.
End Sends.


Lemma add_wb_thing_claims_not_new (depth : nat) (wb_id : string)
  (claims : Dict.t (list statement)) (w w' : session) (r : result string) :
  add_wb_thing_claims depth wb_id claims w = (r, w') -> sends_all not_new w w'.
Proof.
  unfold add_wb_thing_claims. apply create_wb_thing_raw_sends; intros; exact I.
Qed.






(** The run of the witness: one creation, with the description cut. *)
Example long_description_as_sent :
  described_run
  = (Ok (Some "Q1"),
      {| wbs :=
           {| script := [];
              log := [QueryTokens;
                      EditEntity (New "item") true
                        (DataEntity
                           [("en", label_term "en" "Thing")]
                           [("en", {| language := "en";
                                      value := PStr (replicate 247 "x" ++ "...") |})]
                           None)
                        "t"] |};
         ont2wb := [];
         link_file := None |}).
Proof. vm_compute. reflexivity. Qed.

(** ** Collisions: [create_wb_thing_raw] *)

Section Collisions.
Variables (item : bool) (data : payload) (tok final : string).
Variable rest : list response.

Lemma collisions_recovered (cs : list (string * string)) :
  Forall (collides item) cs ->
  forall (depth : nat) (wb_id : option string) (sent : list request),
    length cs < depth ->
    create_wb_thing_raw depth item data wb_id
      {| script := answers tok final rest cs; log := sent |}
    = (Ok final, {| script := rest; log := (sent ++ requests item data tok wb_id cs)%list |}).
Proof.
  induction 1 as [|c cs [Hhas Hfound] Hcs IH]; intros depth wb_id sent Hdepth.
  - destruct depth as [|depth]; [simpl in Hdepth; lia|].
    cbn [create_wb_thing_raw answers].
    unfold bind, request_token, call_api, ret, raise. cbn.
    rewrite <- app_assoc. destruct wb_id; reflexivity.
  - destruct depth as [|depth]; [simpl in Hdepth; lia|].
    simpl in Hdepth.
    cbn [create_wb_thing_raw answers requests].
    unfold bind, request_token, clear_thing, call_api, ret, raise. cbn.
    rewrite Hhas, Hfound. cbn.
    rewrite IH by lia. rewrite <- !app_assoc. destruct wb_id; reflexivity.
Qed.

(** Collisions without end are ended by the interpreter only. *)
Lemma collisions_exhaust_the_stack (depth : nat) :
  forall (cs : list (string * string)) (wb_id : option string) (w : list request),
    Forall (collides item) cs ->
    depth <= length cs ->
    fst (create_wb_thing_raw depth item data wb_id
           {| script := answers tok final rest cs; log := w |})
    = Raise RecursionError.
Proof.
  induction depth as [|depth IH]; intros cs wb_id w Hcs Hdepth.
  - reflexivity.
  - destruct cs as [|c cs]; [simpl in Hdepth; lia|].
    inversion Hcs as [|? ? [Hhas Hfound] Hcs']; subst.
    simpl in Hdepth.
    cbn [create_wb_thing_raw answers].
    unfold bind, request_token, clear_thing, call_api, ret, raise. cbn.
    rewrite Hhas, Hfound. cbn.
    apply IH; [assumption | lia].
Qed.
End Collisions.

(** C1, as amended.  When the remote answers a creation with a
    collision whose info holds a reference to an entity of the kind
    asked for, the session takes the identifier out of the info, clears
    that entity and sends the edit again, now for that identifier; it
    does so again for every further collision, however many the remote
    reports in a row (as long as the interpreter grants the frames),
    and returns the identifier of the first answer without an error.
    [answers] is the script of such a remote and [requests] the
    requests sent: token and edit, then for each collision token, clear,
    token and edit on the identifier found. *)
Theorem collision_recovery (item : bool) (data : payload) (tok final : string)
  (rest : list response) (cs : list (string * string)) (depth : nat)
  (sent : list request) :
  Forall (collides item) cs ->
  length cs < depth ->
  create_wb_thing_raw depth item data None
    {| script := answers tok final rest cs; log := sent |}
  = (Ok final,
      {| script := rest;
         log := (sent ++ requests item data tok None cs)%list |}).
Proof.
  intros Hcs Hdepth. now apply collisions_recovered.
Qed.

Lemma collision_recovery_witness :
  create_wb_thing_raw 2 true thing_data None
    {| script := [ok_token "t"; refused collision_info;
                  ok_token "t"; done "Q42";
                  ok_token "t"; done "Q42"];
       log := [] |}
  = (Ok "Q42",
      {| script := [];
         log := [QueryTokens; EditEntity (New "item") true thing_data "t";
                 QueryTokens; EditEntity (Existing "Q42") true DataEmpty "t";
                 QueryTokens; EditEntity (Existing "Q42") false thing_data "t"] |}).
Proof.
  apply (@collision_recovery true thing_data "t" "Q42" [] [(collision_info, "Q42")] 2 []).
  - constructor; [split; reflexivity | constructor].
  - apply le_n.
Defined.

(** C1 as stated fails: the retry is answered with a collision again,
    and the run does not fail; the entity is cleared a second time, the
    edit is sent a third time, and its identifier is returned. *)
Lemma second_collision_is_recovered :
  create_wb_thing_raw 3 true thing_data None
    {| script := [ok_token "t"; refused collision_info;
                  ok_token "t"; done "Q42";
                  ok_token "t"; refused collision_info;
                  ok_token "t"; done "Q42";
                  ok_token "t"; done "Q42"];
       log := [] |}
  = (Ok "Q42",
      {| script := [];
         log := [QueryTokens; EditEntity (New "item") true thing_data "t";
                 QueryTokens; EditEntity (Existing "Q42") true DataEmpty "t";
                 QueryTokens; EditEntity (Existing "Q42") false thing_data "t";
                 QueryTokens; EditEntity (Existing "Q42") true DataEmpty "t";
                 QueryTokens; EditEntity (Existing "Q42") false thing_data "t"] |}).
Proof. reflexivity. Qed.

(** ** Claims on literals: [create_claim] *)

Lemma n3_literal_quoted (l : literal) :
  exists rest, n3 (Literal l) = Ok (String Text.dquote rest).
Proof.
  unfold n3, quote_encode.
  destruct (Text.contains _ _); simpl; eauto.
Qed.

Section LiteralClaims.
Variable validators_url : string -> bool.

(** No text that begins with a double quote is a URL. *)
Hypothesis url_has_no_quote :
  forall rest, validators_url (String Text.dquote rest) = false.

Lemma literal_value_type (g : graph) (l : literal) :
  value_type_of g validators_url (Literal l) = Ok "string".
Proof.
  unfold value_type_of. simpl is_literal. cbv iota.
  destruct (n3_literal_quoted l) as [rest ->]. cbn [result_bind].
  now rewrite url_has_no_quote.
Qed.

(** C2, on the code.  The test for a URL is made on [obj.n3()], the
    literal between double quotes, which is never a URL; so the claim
    of every literal has the value type and the datatype [string],
    that of a literal with the text of a URL too. *)
Theorem literal_claims_are_string_typed (g store : graph) (pred : node)
  (l : literal) (pred_wb_id : string) :
  mem pred get_non_claim_preds = false ->
  rdf2wb_id store pred true = Ok (Some pred_wb_id) ->
  pred_wb_id <> "P1647" ->
  claims_of g validators_url store pred (Literal l)
  = Ok (Some [(pred_wb_id, [text_claim pred_wb_id "string" (lexical l)])]).
Proof.
  intros Hpred Hid Hnot. unfold claims_of, rdf2wb_id_or_fail.
  rewrite Hpred, Hid. simpl result_bind.
  destruct (String.eqb_spec pred_wb_id "P1647") as [|_]; [contradiction|].
  rewrite literal_value_type. reflexivity.
Qed.
End LiteralClaims.

Lemma literal_claims_are_string_typed_witness :
  scheme_url "http://example.org" = true
  /\ claims_of [] scheme_url homepage_store homepage
       (Literal (plain "http://example.org" None))
     = Ok (Some [("P10", [text_claim "P10" "string" "http://example.org"])]).
Proof.
  split; [reflexivity|].
  apply (@literal_claims_are_string_typed scheme_url (fun rest => eq_refl)
           [] homepage_store homepage (plain "http://example.org" None) "P10").
  - reflexivity.
  - reflexivity.
  - discriminate.
Defined.

(** ** The creation pass and the link store *)

(** A triple equal to one of the graph is not added. *)
Lemma add_cases (g : graph) (t : triple) :
  (Rdf.add g t = g
   /\ exists t0, In t0 g /\ triple_eqb t t0 = true)
  \/ (Rdf.add g t = (g ++ [t])%list
      /\ forall t0, In t0 g -> triple_eqb t t0 = false).
Proof.
  unfold Rdf.add. destruct (existsb (triple_eqb t) g) eqn:Hex.
  - left. split; [reflexivity|]. now apply existsb_exists.
  - right. split; [reflexivity|]. intros t0 Hin.
    destruct (triple_eqb t t0) eqn:Heq; [|reflexivity].
    rewrite <- Hex. symmetry. apply existsb_exists. eauto.
Qed.

Lemma in_add (g : graph) (t t' : triple) :
  In t' (Rdf.add g t) -> In t' g \/ t' = t.
Proof.
  destruct (add_cases g t) as [[-> _] | [-> _]]; [now left|].
  rewrite in_app_iff. simpl. intuition.
Qed.

Lemma in_add_old (g : graph) (t t' : triple) :
  In t' g -> In t' (Rdf.add g t).
Proof.
  destruct (add_cases g t) as [[-> _] | [-> _]]; [auto|].
  intros H. apply in_app_iff. now left.
Qed.

Lemma ident_eqb (p : node) :
  node_eqb p (SCHEMA "identifier") = true <-> p = SCHEMA "identifier".
Proof. apply node_eqb_eq. now right. Qed.

Lemma linked_iff (store : graph) (s : node) :
  linked store s
  <-> exists s' o, In (s', SCHEMA "identifier", o) store /\ node_eqb s' s = true.
Proof.
  unfold linked. split.
  - destruct (objects store s (SCHEMA "identifier")) as [|o l] eqn:Hobj;
      [congruence|].
    intros _.
    assert (Hin : In o (objects store s (SCHEMA "identifier")))
      by (rewrite Hobj; now left).
    apply in_objects in Hin. destruct Hin as [s' [p' [Hin [Hs Hp]]]].
    apply ident_eqb in Hp. subst p'. eauto.
  - intros [s' [o [Hin Hs]]] Hnil.
    assert (Ho : In o (objects store s (SCHEMA "identifier"))).
    { apply in_objects. exists s', (SCHEMA "identifier").
      split; [assumption|]. split; [assumption | apply node_eqb_refl]. }
    rewrite Hnil in Ho. destruct Ho.
Qed.

Lemma linked_add (store : graph) (t : triple) (s : node) :
  linked store s -> linked (Rdf.add store t) s.
Proof.
  rewrite !linked_iff. intros [s' [o [Hin Hs]]]. exists s', o.
  split; [now apply in_add_old | assumption].
Qed.

(** A node has a record after [add] when it had one, or the triple
    added is one. *)
Lemma linked_add_iff (store : graph) (s' p' o' s : node) :
  linked (Rdf.add store (s', p', o')) s
  <-> linked store s
      \/ (node_eqb s' s = true /\ p' = SCHEMA "identifier").
Proof.
  split.
  - rewrite !linked_iff. intros [s0 [o [Hin Hs]]].
    apply in_add in Hin. destruct Hin as [Hin | [= -> <- ->]]; [left; eauto|].
    right. auto.
  - intros [Hl | [Hs ->]]; [now apply linked_add|].
    destruct (add_cases store (s', SCHEMA "identifier", o'))
      as [[-> [[[s0 p0] o0] [Hin Heq]]] | [-> _]].
    + change (node_eqb s' s0 && node_eqb (SCHEMA "identifier") p0
              && node_eqb o' o0 = true) in Heq.
      apply andb_true_iff in Heq. destruct Heq as [Heq _].
      apply andb_true_iff in Heq. destruct Heq as [Hs0 Hp0].
      rewrite node_eqb_sym in Hp0. apply ident_eqb in Hp0. subst p0.
      apply linked_iff. exists s0, o0. split; [assumption|].
      rewrite node_eqb_sym in Hs0. exact (node_eqb_trans _ _ _ Hs0 Hs).
    + apply linked_iff. exists s', o'. split; [|assumption].
      apply in_app_iff. right. now left.
Qed.

Lemma linked_nil (s : node) : ~ linked [] s.
Proof. intros H. now apply H. Qed.

Lemma linked_cons (s' p' o' : node) (l : graph) (s : node) :
  linked ((s', p', o') :: l) s
  <-> (node_eqb s' s = true /\ p' = SCHEMA "identifier") \/ linked l s.
Proof.
  rewrite <- ident_eqb. unfold linked, objects. cbn [filter fst snd].
  destruct (node_eqb s' s), (node_eqb p' (SCHEMA "identifier")); cbn [andb map].
  - split; [auto | discriminate].
  - split; [auto | intros [[_ H] | H]; [discriminate | exact H]].
  - split; [auto | intros [[H _] | H]; [discriminate | exact H]].
  - split; [auto | intros [[H _] | H]; [discriminate | exact H]].
Qed.

Lemma linked_load (file : list triple) (s : node) :
  linked (load file) s <-> linked file s.
Proof.
  unfold load.
  assert (Hgen : forall l acc,
             linked (fold_left Rdf.add l acc) s <-> linked acc s \/ linked l s).
  { induction l as [|[[s' p'] o'] l IH]; intros acc; cbn [fold_left].
    - pose proof (@linked_nil s). tauto.
    - rewrite IH, linked_add_iff, linked_cons. tauto. }
  rewrite Hgen. pose proof (@linked_nil s). tauto.
Qed.

(** The records of a node after a link is recorded. *)
Lemma add_first_link (store : graph) (s o : node) :
  objects store s (SCHEMA "identifier") = [] ->
  Rdf.add store (s, SCHEMA "identifier", o)
  = (store ++ [(s, SCHEMA "identifier", o)])%list.
Proof.
  intros Hnil.
  destruct (add_cases store (s, SCHEMA "identifier", o))
    as [[_ [[[s0 p0] o0] [Hin Heq]]] | [-> _]]; [|reflexivity].
  exfalso.
  change (node_eqb s s0 && node_eqb (SCHEMA "identifier") p0
          && node_eqb o o0 = true) in Heq.
  apply andb_true_iff in Heq. destruct Heq as [Heq _].
  apply andb_true_iff in Heq. destruct Heq as [Hs Hp].
  assert (Ho : In o0 (objects store s (SCHEMA "identifier"))).
  { apply in_objects. exists s0, p0. rewrite (node_eqb_sym s0), (node_eqb_sym p0).
    auto. }
  rewrite Hnil in Ho. destruct Ho.
Qed.

Lemma objects_add_first (store : graph) (s o : node) :
  objects store s (SCHEMA "identifier") = [] ->
  objects (Rdf.add store (s, SCHEMA "identifier", o)) s (SCHEMA "identifier") = [o].
Proof.
  intros Hnil. rewrite (add_first_link store s o Hnil), objects_app, Hnil.
  unfold objects. simpl. now rewrite !node_eqb_refl.
Qed.

Lemma objects_add_other (store : graph) (s s' p o : node) :
  node_eqb s' s = false ->
  objects (Rdf.add store (s', p, o)) s (SCHEMA "identifier")
  = objects store s (SCHEMA "identifier").
Proof.
  intros Hne. unfold Rdf.add. destruct (existsb _ store); [reflexivity|].
  rewrite objects_app. unfold objects at 2. simpl. rewrite Hne.
  simpl. apply app_nil_r.
Qed.

Section CreationPass.
Variables (g : graph) (depth : nat).

(** [create_ont_wb_thing] touches the session only. *)
Lemma create_ont_wb_thing_state (s : node) (st st1 : converter)
  (r : result (option string)) :
  create_ont_wb_thing g depth s st = (r, st1) ->
  ont2wb st1 = ont2wb st /\ link_file st1 = link_file st.
Proof.
  unfold create_ont_wb_thing, bind, pure, on_wbs, ret, raise.
  destruct (aggregate g get_label_preds label_sep s);
    [|intros [= <- <-]; auto].
  destruct (aggregate g get_desc_preds description_sep s);
    [|intros [= <- <-]; auto].
  destruct (kind_of_types _).
  - destruct (create_wb_thing depth true _ _ _ _) as [[id|e] w];
      intros [= <- <-]; auto.
  - destruct (create_wb_thing depth false _ _ _ _) as [[id|e] w];
      intros [= <- <-]; auto.
  - intros [= <- <-]; auto.
  - intros [= <- <-]; auto.
Qed.

(** A subject with the ontology type, and neither the class type nor
    a property type, gets no entity, and no request is sent for it. *)
Lemma create_ont_wb_thing_nothing (s : node) (st st1 : converter)
  (x : option string) :
  kind_of_types (objects g s RDF_type) = NoThing ->
  create_ont_wb_thing g depth s st = (Ok x, st1) ->
  x = None /\ st1 = st.
Proof.
  intros Hkind. unfold create_ont_wb_thing, bind, pure, ret.
  destruct (aggregate g get_label_preds label_sep s); [|discriminate].
  destruct (aggregate g get_desc_preds description_sep s); [|discriminate].
  rewrite Hkind. intros [= <- <-]. auto.
Qed.

Lemma create_for_turn (s : node) (st st' : converter) (r : result unit) :
  create_for g depth s st = (r, st') -> turn g depth s st r st'.
Proof.
  unfold create_for. destruct (skip_subj s) eqn:Hskip.
  - intros [= <- <-]. now constructor.
  - unfold bind at 1. simpl.
    destruct (objects (ont2wb st) s (SCHEMA "identifier")) as [|o l] eqn:Hobj.
    + unfold bind.
      destruct (create_ont_wb_thing g depth s st) as [[x|e] st1] eqn:Hmake.
      * unfold record_link, bind, get_state, set_ont2wb.
        intros [= <- <-]. now apply turn_recorded.
      * intros [= <- <-]. now apply turn_failed.
    + intros [= <- <-]. apply turn_known; [assumption|].
      unfold linked. rewrite Hobj. discriminate.
Qed.

(** A turn keeps the link file and the links there are, and a turn
    without an exception leaves its subject skipped or linked. *)
Lemma turn_keeps (s : node) (st st' : converter) (r : result unit) :
  turn g depth s st r st' ->
  link_file st' = link_file st
  /\ (forall s', linked (ont2wb st) s' -> linked (ont2wb st') s')
  /\ (r = Ok tt -> skip_subj s = true \/ linked (ont2wb st') s).
Proof.
  intros [Hskip | Hskip Hl | e st1 Hskip Hobj Hmake | x st1 Hskip Hobj Hmake].
  - auto.
  - auto.
  - apply create_ont_wb_thing_state in Hmake. destruct Hmake as [Hs Hf].
    rewrite Hs. repeat split; auto. discriminate.
  - apply create_ont_wb_thing_state in Hmake. destruct Hmake as [Hs Hf].
    simpl. rewrite Hs. repeat split.
    + assumption.
    + intros s' Hl. now apply linked_add.
    + intros _. right. unfold linked. rewrite objects_add_first by assumption.
      discriminate.
Qed.

(** After a creation pass without an exception every subject is
    skipped or linked, and the link file is the one before. *)
Lemma creation_pass_links (l : list node) :
  forall (st st' : converter) (r : result unit),
    for_ l (create_for g depth) st = (r, st') ->
    link_file st' = link_file st
    /\ (forall s', linked (ont2wb st) s' -> linked (ont2wb st') s')
    /\ (r = Ok tt ->
        forall s, In s l -> skip_subj s = true \/ linked (ont2wb st') s).
Proof.
  induction l as [|x l IH]; intros st st' r; simpl.
  - intros [= <- <-]. split; [reflexivity|]. split; [auto|]. intros _ s [].
  - unfold bind.
    destruct (create_for g depth x st) as [[[]|e] st1] eqn:Hx;
      apply create_for_turn, turn_keeps in Hx; destruct Hx as [Hf [Hmono Hx]].
    + intros Hrest. apply IH in Hrest. destruct Hrest as [Hf' [Hmono' Hall]].
      split; [congruence|]. split; [auto|].
      intros Hr s [<-|Hin]; [|now apply Hall].
      destruct (Hx eq_refl) as [Hs|Hl]; [now left | right; auto].
    + intros [= <- <-]. repeat split; auto. discriminate.
Qed.

(** A creation pass over subjects that are all skipped or linked does
    nothing. *)
Lemma creation_pass_idle (l : list node) (st : converter) :
  (forall s, In s l -> skip_subj s = true \/ linked (ont2wb st) s) ->
  for_ l (create_for g depth) st = (Ok tt, st).
Proof.
  induction l as [|x l IH]; intros Hall; simpl; [reflexivity|].
  assert (Hx : create_for g depth x st = (Ok tt, st)).
  { unfold create_for. destruct (skip_subj x) eqn:Hskip; [reflexivity|].
    destruct (Hall x (or_introl eq_refl)) as [Hs|Hl]; [congruence|].
    unfold bind, get_state. unfold linked in Hl.
    destruct (objects (ont2wb st) x (SCHEMA "identifier")); [congruence|].
    reflexivity. }
  unfold bind. rewrite Hx. apply IH. intros s Hin. apply Hall. now right.
Qed.
End CreationPass.

(** *** Relations kept by every step of a run *)

Section Respects.
Variable R : converter -> converter -> Prop.
Hypothesis R_refl : forall st, R st st.
Hypothesis R_trans : forall a b c, R a b -> R b c -> R a c.

Lemma respects_ret {A} (a : A) : respects R (ret a).
Proof. intros st r st' [= <- <-]. apply R_refl. Qed.

Lemma respects_raise {A} (e : error) : respects R (@raise converter A e).
Proof. intros st r st' [= <- <-]. apply R_refl. Qed.

Lemma respects_pure {A} (x : result A) : respects R (pure x).
Proof. intros st r st' [= <- <-]. apply R_refl. Qed.

Lemma respects_get_state : respects R get_state.
Proof. intros st r st' [= <- <-]. apply R_refl. Qed.

Lemma respects_bind {A B} (c : run converter A) (k : A -> run converter B) :
  respects R c -> (forall a, respects R (k a)) -> respects R (bind c k).
Proof.
  intros Hc Hk st r st'. unfold bind.
  destruct (c st) as [[a|e] st1] eqn:Hrun.
  - intros Hrest. apply (R_trans (Hc _ _ _ Hrun) (Hk _ _ _ _ Hrest)).
  - intros [= <- <-]. apply (Hc _ _ _ Hrun).
Qed.

Lemma respects_for {A} (l : list A) (body : A -> run converter unit) :
  (forall x, respects R (body x)) -> respects R (for_ l body).
Proof.
  intros Hbody. induction l as [|x l IH]; simpl.
  - apply respects_ret.
  - apply respects_bind; [apply Hbody | intros _; exact IH].
Qed.

Lemma respects_on_wbs {A} (c : run session A) (P : session -> session -> Prop) :
  (forall w r w', c w = (r, w') -> P w w') ->
  (forall st w', P (wbs st) w' ->
                 R st {| wbs := w'; ont2wb := ont2wb st; link_file := link_file st |}) ->
  respects R (on_wbs c).
Proof.
  intros Hc HP st r st'. unfold on_wbs.
  destruct (c (wbs st)) as [r0 w'] eqn:Hrun. intros [= <- <-].
  apply HP. apply (Hc _ _ _ Hrun).
Qed.
End Respects.

Ltac respects_steps :=
  repeat first
    [ apply respects_ret; assumption
    | apply respects_raise; assumption
    | apply respects_pure; assumption
    | apply respects_get_state; assumption
    | apply respects_for; [assumption | assumption | intros ?]
    | apply respects_bind; [assumption | | intros ?]
    | match goal with
      | |- respects _ (match ?x with _ => _ end) => destruct x
      end ].

Lemma same_file_refl (st : converter) : same_file st st.
Proof. reflexivity. Qed.

Lemma same_file_trans (a b c : converter) :
  same_file a b -> same_file b c -> same_file a c.
Proof. unfold same_file. congruence. Qed.

Lemma record_link_same_file (s : node) (x : option string) :
  respects same_file (record_link s x).
Proof. intros st r st' [= <- <-]. reflexivity. Qed.

Lemma set_ont2wb_same_file (store : graph) : respects same_file (set_ont2wb store).
Proof. intros st r st' [= <- <-]. reflexivity. Qed.

Lemma on_wbs_same_file {A} (c : run session A) : respects same_file (on_wbs c).
Proof.
  apply respects_on_wbs with (P := fun _ _ => True); [auto|].
  intros st w' _. reflexivity.
Qed.

Lemma bootstrap_same_file (depth : nat) : respects same_file (bootstrap depth).
Proof.
  pose proof same_file_refl as Hrefl. pose proof same_file_trans as Htrans.
  assert (Hprop : forall n a b c, respects same_file (create_subst_property depth n a b c)).
  { intros n a b c. unfold create_subst_property. respects_steps;
      first [apply on_wbs_same_file | apply set_ont2wb_same_file]. }
  assert (Hitem : forall n a b, respects same_file (create_subst_item depth n a b)).
  { intros n a b. unfold create_subst_item. respects_steps;
      first [apply on_wbs_same_file | apply set_ont2wb_same_file]. }
  unfold bootstrap.
  repeat (apply respects_bind; [assumption | first [apply Hprop | apply Hitem] | intros _]).
  apply Hprop.
Qed.

Lemma claims_only_refl (st : converter) : claims_only st st.
Proof. repeat split. apply sends_refl. Qed.

Lemma claims_only_trans (a b c : converter) :
  claims_only a b -> claims_only b c -> claims_only a c.
Proof.
  intros [H1 [H2 H3]] [H4 [H5 H6]]. repeat split; try congruence.
  apply (sends_trans H3 H6).
Qed.

Lemma claim_pass_claims_only (g : graph) (url : string -> bool) (depth : nat) :
  respects claims_only (claim_pass g url depth).
Proof.
  pose proof claims_only_refl as Hrefl. pose proof claims_only_trans as Htrans.
  unfold claim_pass. apply respects_for; [assumption..|]. intros s.
  unfold claims_for.
  destruct (skip_subj s); [now apply respects_ret|].
  apply respects_bind; [assumption | now apply respects_get_state | intros st0].
  destruct (objects (ont2wb st0) s (SCHEMA "identifier")) as [|o l];
    [now apply respects_raise|].
  apply respects_for; [assumption..|]. intros t.
  unfold claim_for_triple.
  destruct (node_eqb _ (RDFS "range")); [now apply respects_ret|].
  destruct (node_eqb _ (RDFS "domain")); [now apply respects_ret|].
  unfold create_claim.
  apply respects_bind; [assumption | now apply respects_get_state | intros st1].
  apply respects_bind; [assumption | now apply respects_pure | intros made].
  destruct made as [claims|]; [|now apply respects_ret].
  apply respects_bind; [assumption | | intros _; now apply respects_ret].
  apply respects_on_wbs with (P := sends_all not_new).
  - intros w r w'. apply add_wb_thing_claims_not_new.
  - intros st w' Hs. repeat split. exact Hs.
Qed.

(** ** Two runs of [convert] *)

(** [convert], step by step. *)
Lemma convert_steps (g : graph) (url : string -> bool) (depth : nat) (st : converter) :
  convert g url depth st =
    let emptied := {| wbs := wbs st; ont2wb := []; link_file := link_file st |} in
    match match link_file st with
          | Some file => set_ont2wb (load file) emptied
          | None => bootstrap depth emptied
          end
    with
    | (Raise e, seeded) => (Raise e, seeded)
    | (Ok _, seeded) =>
        match creation_pass g depth seeded with
        | (Raise e, made) => (Raise e, made)
        | (Ok _, made) =>
            claim_pass g url depth
              {| wbs := wbs made; ont2wb := ont2wb made;
                 link_file := Some (serialize (ont2wb made)) |}
        end
    end.
Proof.
  unfold convert, bind, set_ont2wb, set_link_file, get_state. simpl.
  destruct (link_file st); reflexivity.
Qed.

(** A link file written by a run that found none holds a link for every
    subject that the creation pass does not skip. *)
Lemma first_run_links_all (g : graph) (url : string -> bool) (depth : nat)
  (st s : converter) (r : result unit) (file : list triple) :
  link_file st = None ->
  convert g url depth st = (r, s) ->
  link_file s = Some file ->
  forall x, In x (subjects g) -> skip_subj x = true \/ linked file x.
Proof.
  intros Hnone Hrun Hfile. rewrite convert_steps in Hrun. cbv zeta in Hrun.
  rewrite Hnone in Hrun.
  destruct (bootstrap depth _) as [[[]|e] seeded] eqn:Hboot;
    apply bootstrap_same_file in Hboot; unfold same_file in Hboot; simpl in Hboot.
  2: { injection Hrun as _ <-. congruence. }
  unfold creation_pass in Hrun.
  destruct (for_ (subjects g) (create_for g depth) seeded) as [[[]|e] made] eqn:Hpass;
    apply creation_pass_links in Hpass; destruct Hpass as [Hf [_ Hall]].
  2: { injection Hrun as _ <-. congruence. }
  apply claim_pass_claims_only in Hrun. destruct Hrun as [_ [Hsame _]].
  simpl in Hsame. rewrite Hsame in Hfile. injection Hfile as <-.
  exact (Hall eq_refl).
Qed.

(** C4.  A run of [convert] that finds no link file and writes one, and
    a second run that finds this file: every subject of the ontology
    that the creation pass does not skip has a link in the loaded file,
    the creation pass of the second run sends nothing and records
    nothing, and none of the requests of the whole second run asks for
    a new entity. *)
Theorem second_run_creates_nothing (g : graph) (url : string -> bool)
  (depth1 depth2 : nat) (st1 s1 st2 s2 : converter) (r1 r2 : result unit)
  (file : list triple) :
  link_file st1 = None ->
  convert g url depth1 st1 = (r1, s1) ->
  link_file s1 = Some file ->
  link_file st2 = Some file ->
  convert g url depth2 st2 = (r2, s2) ->
  (forall x, In x (subjects g) -> skip_subj x = true \/ linked (load file) x)
  /\ creation_pass g depth2 (loaded st2 file) = (Ok tt, loaded st2 file)
  /\ exists reqs,
      log (wbs s2) = (log (wbs st2) ++ reqs)%list
      /\ forall kind clear data tok,
          ~ In (EditEntity (New kind) clear data tok) reqs.
Proof.
  intros Hnone Hrun1 Hfile1 Hfile2 Hrun2.
  assert (Hall : forall x, In x (subjects g) ->
                           skip_subj x = true \/ linked (load file) x).
  { intros x Hin.
    destruct (first_run_links_all g url depth1 st1 Hnone Hrun1 Hfile1 x Hin)
      as [Hs|Hl]; [now left | right; now apply linked_load]. }
  assert (Hidle : creation_pass g depth2 (loaded st2 file) = (Ok tt, loaded st2 file)).
  { apply creation_pass_idle. exact Hall. }
  split; [exact Hall|]. split; [exact Hidle|].
  rewrite convert_steps in Hrun2. cbv zeta in Hrun2. rewrite Hfile2 in Hrun2.
  unfold set_ont2wb in Hrun2. simpl in Hrun2.
  fold (loaded st2 file) in Hrun2. rewrite Hidle in Hrun2.
  apply claim_pass_claims_only in Hrun2. destruct Hrun2 as [_ [_ [reqs [Hlog Hreqs]]]].
  exists reqs. split; [exact Hlog|].
  intros kind clear data tok Hin.
  rewrite Forall_forall in Hreqs. exact (Hreqs _ Hin).
Qed.

Lemma second_run_creates_nothing_witness :
  (forall x, In x (subjects class_graph) ->
             skip_subj x = true \/ linked (load written) x)
  /\ creation_pass class_graph 5 (loaded (fresh [] (Some written)) written)
     = (Ok tt, loaded (fresh [] (Some written)) written)
  /\ exists reqs,
      log (wbs (snd second_run)) = ([] ++ reqs)%list
      /\ forall kind clear data tok,
          ~ In (EditEntity (New kind) clear data tok) reqs.
Proof.
  apply (@second_run_creates_nothing class_graph scheme_url 5 5
           (fresh accepting None) (snd first_run)
           (fresh [] (Some written)) (snd second_run)
           (fst first_run) (fst second_run) written eq_refl).
  - apply surjective_pairing.
  - vm_compute. reflexivity.
  - reflexivity.
  - apply surjective_pairing.
Defined.

(** The two runs of the witness: the first one ends well, with nineteen
    creations and as many links in the file; the second one ends well
    and sends nothing. *)
Example two_runs :
  fst first_run = Ok tt
  /\ length written = 19
  /\ rdf2wb_id written example_node true = Ok (Some "Q2")
  /\ length (log (wbs (snd first_run))) = 38
  /\ fst second_run = Ok tt
  /\ log (wbs (snd second_run)) = [].
Proof. vm_compute. repeat split. Qed.

(** ** Subjects with the ontology type *)

Section OntologySubject.
Variables (g : graph) (depth : nat) (subj : node).

Hypothesis not_skipped : skip_subj subj = false.
Hypothesis no_thing : kind_of_types (objects g subj RDF_type) = NoThing.

Let records (st : converter) : list node :=
  objects (ont2wb st) subj (SCHEMA "identifier").

Lemma turn_none (s : node) (st st' : converter) (r : result unit) :
  turn g depth s st r st' ->
  (records st = [no_identifier] -> records st' = [no_identifier])
  /\ (records st = [] ->
      (node_eqb s subj = false -> records st' = [])
      /\ (node_eqb s subj = true -> r = Ok tt -> records st' = [no_identifier])).
Proof.
  unfold records.
  intros [Hskip | Hskip Hl | e st1 Hskip Hobj Hmake | x st1 Hskip Hobj Hmake].
  - split; [auto|]. intros Hnil. split; [auto|]. intros Heq _.
    rewrite (skip_subj_eqb _ _ Heq) in Hskip. congruence.
  - split; [auto|]. intros Hnil. split; [auto|]. intros Heq _.
    unfold linked in Hl. rewrite (objects_eqb _ _ _ _ Heq) in Hl. congruence.
  - apply create_ont_wb_thing_state in Hmake. destruct Hmake as [-> _].
    split; [auto|]. intros Hnil. split; [auto|]. discriminate.
  - pose proof (create_ont_wb_thing_state _ _ _ _ Hmake) as [Hs _].
    simpl. rewrite Hs. destruct (node_eqb s subj) eqn:Heq.
    + rewrite (objects_eqb _ _ _ _ Heq) in Hobj.
      split; [intros Hone; congruence|].
      intros Hnil. split; [discriminate|]. intros _ _.
      apply create_ont_wb_thing_nothing in Hmake;
        [|now rewrite (objects_eqb _ _ _ _ Heq)].
      destruct Hmake as [-> _].
      rewrite <- (objects_eqb _ _ _ _ Heq). apply objects_add_first.
      now rewrite (objects_eqb _ _ _ _ Heq).
    + rewrite objects_add_other by assumption.
      split; [auto|]. intros Hnil. split; [auto | discriminate].
Qed.

Lemma pass_none (l : list node) :
  forall st st',
    for_ l (create_for g depth) st = (Ok tt, st') ->
    (records st = [no_identifier] -> records st' = [no_identifier])
    /\ (records st = [] -> In subj l -> records st' = [no_identifier]).
Proof.
  induction l as [|x l IH]; intros st st'; simpl.
  - intros [= <-]. split; [auto | intros _ []].
  - unfold bind.
    destruct (create_for g depth x st) as [[[]|e] st1] eqn:Hx; [|discriminate].
    apply create_for_turn, turn_none in Hx. destruct Hx as [Hone Hnil].
    intros Hrest. apply IH in Hrest. destruct Hrest as [Hone' Hnil'].
    split; [auto|]. intros Hst Hin.
    destruct (Hnil Hst) as [Hother Hsame].
    destruct (node_eqb x subj) eqn:Heq.
    + apply Hone'. now apply Hsame.
    + apply Hnil'; [now apply Hother|]. destruct Hin as [->|Hin]; [|assumption].
      rewrite node_eqb_refl in Heq. discriminate.
Qed.
End OntologySubject.

(** C9, as amended.  A subject that is no blank node and not the base
    URI, whose type set holds the ontology type and none of the class,
    object-property and datatype-property types, and that has no link
    yet: [create_ont_wb_thing] returns [None] for it without a request,
    and the creation loop records the link whose identifier is the text
    [None].  After a creation pass that ends without an exception the
    link store holds this one record for the subject, it is not the
    store from before, and the subject resolves to the text [None]. *)
Theorem ontology_subject_is_linked_to_None (g : graph) (depth : nat) (subj : node) :
  is_bnode subj = false ->
  str subj <> BASE_URI ->
  let types := objects g subj RDF_type in
  mem (OWL "Ontology") types = true ->
  mem (OWL "Class") types = false ->
  mem (OWL "ObjectProperty") types = false ->
  mem (OWL "DatatypeProperty") types = false ->
  (forall st lbs dscs,
      objects (ont2wb st) subj (SCHEMA "identifier") = [] ->
      aggregate g get_label_preds label_sep subj = Ok lbs ->
      aggregate g get_desc_preds description_sep subj = Ok dscs ->
      create_ont_wb_thing g depth subj st = (Ok None, st)
      /\ create_for g depth subj st
         = (Ok tt,
             {| wbs := wbs st;
                ont2wb := (ont2wb st ++ [(subj, SCHEMA "identifier", no_identifier)])%list;
                link_file := link_file st |}))
  /\ (forall st st',
         In subj (subjects g) ->
         objects (ont2wb st) subj (SCHEMA "identifier") = [] ->
         creation_pass g depth st = (Ok tt, st') ->
         objects (ont2wb st') subj (SCHEMA "identifier") = [no_identifier]
         /\ ont2wb st' <> ont2wb st
         /\ rdf2wb_id (ont2wb st') subj true = Ok (Some "None")).
Proof.
  intros Hb Huri types Honto Hclass Hobj Hdata.
  assert (Hskip : skip_subj subj = false).
  { unfold skip_subj. rewrite Hb. simpl.
    destruct (String.eqb_spec (str subj) BASE_URI); congruence. }
  assert (Hkind : kind_of_types (objects g subj RDF_type) = NoThing).
  { unfold kind_of_types. fold types. now rewrite Hclass, Hobj, Hdata, Honto. }
  split.
  - intros st lbs dscs Hnil Hlbs Hdscs. split.
    + unfold create_ont_wb_thing, bind, pure. rewrite Hlbs, Hdscs, Hkind.
      reflexivity.
    + rewrite (create_for_by_kind g depth subj st Hnil Hlbs Hdscs Hskip), Hkind.
      unfold record_link, bind, get_state, set_ont2wb. simpl.
      now rewrite add_first_link.
  - intros st st' Hin Hnil Hpass.
    unfold creation_pass in Hpass.
    apply (@pass_none g depth subj Hskip Hkind) in Hpass. destruct Hpass as [_ Hrec].
    specialize (Hrec Hnil Hin).
    split; [exact Hrec|]. split.
    + intros Heq. rewrite Heq, Hnil in Hrec. discriminate.
    + unfold rdf2wb_id. rewrite Hrec. reflexivity.
Qed.

Lemma ontology_subject_is_linked_to_None_witness :
  objects (ont2wb (snd (creation_pass ontology_graph 5 (fresh [] None))))
    ontology_node (SCHEMA "identifier") = [no_identifier]
  /\ ont2wb (snd (creation_pass ontology_graph 5 (fresh [] None))) <> []
  /\ rdf2wb_id (ont2wb (snd (creation_pass ontology_graph 5 (fresh [] None))))
       ontology_node true = Ok (Some "None").
Proof.
  refine (proj2 (@ontology_subject_is_linked_to_None ontology_graph 5 ontology_node
                   eq_refl _ eq_refl eq_refl eq_refl eq_refl)
            (fresh [] None) _ _ eq_refl _).
  - discriminate.
  - left. reflexivity.
  - reflexivity.
Defined.

(** C9 as stated fails: a subject that is no blank node and not the base
    URI, with the ontology type in its type set, and with the class type
    too.  An item is created for it, and its link holds the identifier
    the remote gave. *)
Lemma ontology_typed_class_gets_an_item :
  is_bnode ontology_node = false
  /\ str ontology_node <> BASE_URI
  /\ mem (OWL "Ontology") (objects ontology_and_class ontology_node RDF_type) = true
  /\ create_ont_wb_thing ontology_and_class 5 ontology_node
       (fresh [ok_token "t"; done "Q7"] None)
     = (Ok (Some "Q7"),
         {| wbs := {| script := [];
                      log := [QueryTokens;
                              EditEntity (New "item") true (DataEntity [] [] None) "t"] |};
            ont2wb := [];
            link_file := None |})
  /\ ont2wb (snd (creation_pass ontology_and_class 5
                    (fresh [ok_token "t"; done "Q7"] None)))
     = [(ontology_node, SCHEMA "identifier", Literal (plain "Q7" None))]
  /\ rdf2wb_id
       (ont2wb (snd (creation_pass ontology_and_class 5
                       (fresh [ok_token "t"; done "Q7"] None))))
       ontology_node true
     = Ok (Some "Q7").
Proof.
  split; [reflexivity|]. split; [discriminate|]. repeat split.
Qed.


(** * Further properties of the code *)

(** ** The references in the info of an error *)

Lemma strip_prefix_spec (p s r : string) :
  Text.strip_prefix p s = Some r <-> s = p ++ r.
Proof.
  revert s. induction p as [|a p IH]; intros s; simpl.
  - split; [now intros [= ->] | now intros ->].
  - destruct s as [|b s]; [split; discriminate|].
    destruct (Ascii.eqb_spec a b) as [->|Hne].
    + rewrite IH. split; [now intros -> | now intros [= ->]].
    + split; [discriminate | intros [= -> _]; contradiction].
Qed.

Lemma take_digits_all (s : string) : all_digits (Text.take_digits s) = true.
Proof.
  induction s as [|c s IH]; simpl; [reflexivity|].
  destruct (Text.is_digit c) eqn:Hc; simpl; [now rewrite Hc | reflexivity].
Qed.

Lemma take_digits_split (s : string) :
  exists rest, s = Text.take_digits s ++ rest /\ no_digit_ahead rest = true.
Proof.
  induction s as [|c s [rest [Hs Hrest]]]; simpl.
  - exists EmptyString. now split.
  - destruct (Text.is_digit c) eqn:Hc.
    + exists rest. split; [simpl; now rewrite <- Hs | assumption].
    + exists (String c s). split; [reflexivity | simpl; now rewrite Hc].
Qed.

Lemma take_digits_app (ds rest : string) :
  all_digits ds = true -> no_digit_ahead rest = true ->
  Text.take_digits (ds ++ rest) = ds.
Proof.
  intros Hds Hrest. induction ds as [|c ds IH]; simpl in *.
  - destruct rest as [|c rest]; [reflexivity|]. simpl in Hrest.
    simpl. now destruct (Text.is_digit c).
  - apply andb_true_iff in Hds. destruct Hds as [Hc Hds].
    now rewrite Hc, IH.
Qed.

Lemma match_ref_here_shape (lit : string) (letter : ascii) (s w : string) :
  Text.match_ref_here lit letter s = Some w ->
  exists ds rest,
    w = String letter ds /\ ds <> EmptyString /\ all_digits ds = true
    /\ s = lit ++ String letter ds ++ rest.
Proof.
  unfold Text.match_ref_here.
  destruct (Text.strip_prefix _ s) as [after|] eqn:Hstrip; [|discriminate].
  apply strip_prefix_spec in Hstrip.
  destruct (take_digits_split after) as [rest [Hafter _]].
  pose proof (take_digits_all after) as Hall.
  destruct (Text.take_digits after) as [|d ds] eqn:Hds; [discriminate|].
  intros [= <-]. exists (String d ds), rest.
  split; [reflexivity|]. split; [discriminate|]. split; [exact Hall|].
  rewrite Hstrip, Hafter, append_assoc. reflexivity.
Qed.

Lemma search_ref_shape (lit : string) (letter : ascii) (s w : string) :
  Text.search_ref lit letter s = Some w ->
  exists before ds rest,
    w = String letter ds /\ ds <> EmptyString /\ all_digits ds = true
    /\ s = before ++ lit ++ String letter ds ++ rest.
Proof.
  induction s as [|c s IH]; simpl.
  - destruct (Text.match_ref_here lit letter EmptyString) as [w0|] eqn:Hm;
      [|discriminate].
    intros [= <-]. apply match_ref_here_shape in Hm.
    destruct Hm as [ds [rest H]]. exists EmptyString, ds, rest. exact H.
  - destruct (Text.match_ref_here lit letter (String c s)) as [w0|] eqn:Hm.
    + intros [= <-]. apply match_ref_here_shape in Hm.
      destruct Hm as [ds [rest H]]. exists EmptyString, ds, rest. exact H.
    + intros Hs. destruct (IH Hs) as [before [ds [rest [Hw [Hne [Hall Heq]]]]]].
      exists (String c before), ds, rest. repeat split; try assumption.
      simpl. now rewrite Heq.
Qed.

Lemma digit_is_plain (c : ascii) :
  Text.is_digit c = true ->
  Text.is_space c = false /\ c <> "-"%char /\ c <> "+"%char /\ c <> "_"%char.
Proof.
  intros Hc. repeat split; try (intros ->; discriminate).
  unfold Text.is_digit in Hc. unfold Text.is_space.
  apply andb_true_iff in Hc. destruct Hc as [H1 H2].
  apply Nat.leb_le in H1, H2.
  repeat match goal with
         | |- context [(?a <=? ?b)%nat] => destruct (Nat.leb_spec a b)
         | |- context [(?a =? ?b)%nat] => destruct (Nat.eqb_spec a b)
         end; simpl; try reflexivity; lia.
Qed.

Lemma lstrip_digits (ds : string) : all_digits ds = true -> Text.lstrip ds = ds.
Proof.
  destruct ds as [|c ds]; [reflexivity|]. simpl. intros H.
  apply andb_true_iff in H. destruct H as [Hc _].
  apply digit_is_plain in Hc. destruct Hc as [-> _]. reflexivity.
Qed.

Lemma rstrip_digits (ds : string) : all_digits ds = true -> Text.rstrip ds = ds.
Proof.
  induction ds as [|c ds IH]; [reflexivity|]. simpl. intros H.
  apply andb_true_iff in H. destruct H as [Hc Hds].
  rewrite (IH Hds). apply digit_is_plain in Hc. destruct Hc as [-> _].
  destruct ds; reflexivity.
Qed.

Lemma digits_value_some (ds : string) :
  all_digits ds = true ->
  forall (acc : Z) (after_digit : bool),
    (ds <> EmptyString \/ after_digit = true) ->
    (0 <= acc)%Z ->
    exists n, Text.digits_value ds acc after_digit = Some n /\ (0 <= n)%Z.
Proof.
  induction ds as [|c ds IH]; simpl; intros Hall acc b Hne Hacc.
  - destruct Hne as [Hne| ->]; [congruence | eauto].
  - apply andb_true_iff in Hall. destruct Hall as [Hc Hds].
    rewrite Hc. apply IH; [assumption | now right |].
    unfold Text.digit_value. lia.
Qed.

Lemma count_digits_all (ds : string) :
  all_digits ds = true -> Text.count_digits ds = String.length ds.
Proof.
  induction ds as [|c ds IH]; simpl; [reflexivity|]. intros H.
  apply andb_true_iff in H. destruct H as [-> Hds]. now rewrite (IH Hds).
Qed.

Lemma py_int_unsigned (ds : string) :
  all_digits ds = true -> Text.py_int ds = Text.unsigned_int ds.
Proof.
  intros Hall. unfold Text.py_int.
  rewrite (@lstrip_digits ds Hall), (@rstrip_digits ds Hall).
  destruct ds as [|c ds]; [reflexivity|].
  simpl in Hall. apply andb_true_iff in Hall. destruct Hall as [Hc _].
  apply digit_is_plain in Hc. destruct Hc as [_ [Hminus [Hplus _]]].
  destruct c as [[] [] [] [] [] [] [] []]; try reflexivity; congruence.
Qed.

(** [int] of a text of digits: a number, not negative, when the digits
    are no more than the interpreter takes, and [ValueError] when they
    are more. *)
Lemma py_int_digits (ds : string) :
  all_digits ds = true -> ds <> EmptyString ->
  (String.length ds <= Text.int_max_str_digits ->
   exists n, Text.py_int ds = Some n /\ (0 <= n)%Z)
  /\ (Text.int_max_str_digits < String.length ds -> Text.py_int ds = None).
Proof.
  intros Hall Hne. rewrite (py_int_unsigned ds Hall). unfold Text.unsigned_int.
  rewrite (count_digits_all ds Hall). split; intros Hlen.
  - destruct (Nat.ltb_spec Text.int_max_str_digits (String.length ds)) as [Hlt|_];
      [exfalso; exact (proj1 (Nat.lt_nge _ _) Hlt Hlen)|].
    exact (@digits_value_some ds Hall 0%Z false (or_introl Hne) (Z.le_refl 0)).
  - destruct (Nat.ltb_spec Text.int_max_str_digits (String.length ds)) as [_|Hle];
      [reflexivity|].
    exfalso. exact (proj1 (Nat.lt_nge _ _) Hlen Hle).
Qed.

(** X1.  An identifier that [create_wb_thing_raw] takes out of the info
    of an error is the letter of the kind (Q for an item, P for a
    property) and then digits, at least one; it stands in the info
    behind the opening of a reference of that kind.  [int] of what
    follows its first character, which [create_claim] computes for the
    numeric id of such an identifier, is a number and not negative when
    the digits are no more than [int] takes (4300), and fails when they
    are more. *)
Theorem found_identifier_is_well_formed (item : bool) (text found : string) :
  search_pat item text = Some found ->
  exists before ds rest,
    found = String (ref_letter item) ds
    /\ ds <> EmptyString
    /\ all_digits ds = true
    /\ text = before ++ ref_lit item ++ found ++ rest
    /\ (String.length ds <= Text.int_max_str_digits ->
        exists n, Text.py_int (Text.tail found) = Some n /\ (0 <= n)%Z)
    /\ (Text.int_max_str_digits < String.length ds ->
        Text.py_int (Text.tail found) = None).
Proof.
  intros Hfound.
  assert (Hshape : exists before ds rest,
             found = String (ref_letter item) ds /\ ds <> EmptyString
             /\ all_digits ds = true
             /\ text = before ++ ref_lit item ++ String (ref_letter item) ds ++ rest).
  { unfold search_pat in Hfound. destruct item; now apply search_ref_shape. }
  destruct Hshape as [before [ds [rest [Hw [Hne [Hall Htext]]]]]].
  destruct (@py_int_digits ds Hall Hne) as [Hsmall Hlarge].
  exists before, ds, rest. subst found. simpl Text.tail.
  repeat split; assumption.
Qed.

Lemma found_identifier_is_well_formed_witness :
  exists before ds rest,
    "Q42" = String (ref_letter true) ds
    /\ ds <> EmptyString
    /\ all_digits ds = true
    /\ collision_info = before ++ ref_lit true ++ "Q42" ++ rest
    /\ (String.length ds <= Text.int_max_str_digits ->
        exists n, Text.py_int (Text.tail "Q42") = Some n /\ (0 <= n)%Z)
    /\ (Text.int_max_str_digits < String.length ds ->
        Text.py_int (Text.tail "Q42") = None).
Proof.
  apply (@found_identifier_is_well_formed true collision_info "Q42").
  reflexivity.
Defined.

Lemma search_ref_here (lit : string) (letter : ascii) (s w : string) :
  Text.match_ref_here lit letter s = Some w -> Text.search_ref lit letter s = Some w.
Proof. destruct s; simpl; now intros ->. Qed.

Lemma search_ref_skip (lit : string) (letter c : ascii) (s : string) :
  Text.match_ref_here lit letter (String c s) = None ->
  Text.search_ref lit letter (String c s) = Text.search_ref lit letter s.
Proof. simpl. now intros ->. Qed.

Lemma match_ref_here_head (lit : string) (letter : ascii) (ds rest : string) :
  all_digits ds = true -> ds <> EmptyString -> no_digit_ahead rest = true ->
  Text.match_ref_here lit letter (lit ++ String letter ds ++ rest)
  = Some (String letter ds).
Proof.
  intros Hall Hne Hrest. unfold Text.match_ref_here.
  assert (Hstrip : Text.strip_prefix (lit ++ String letter EmptyString)
                     (lit ++ String letter ds ++ rest) = Some (ds ++ rest)).
  { apply strip_prefix_spec. rewrite append_assoc. reflexivity. }
  rewrite Hstrip, (take_digits_app ds rest Hall Hrest).
  destruct ds; [congruence | reflexivity].
Qed.

(** X2.  When the info of an error holds a reference of the kind asked
    for, with nothing that opens a bracket before it, the identifier
    taken out of the info is the one of that reference, with all its
    digits. *)
Theorem reference_is_found (item : bool) (before ds rest : string) :
  free_of "["%char before = true ->
  all_digits ds = true ->
  ds <> EmptyString ->
  no_digit_ahead rest = true ->
  search_pat item (before ++ ref_lit item ++ String (ref_letter item) ds ++ rest)
  = Some (String (ref_letter item) ds).
Proof.
  intros Hfree Hall Hne Hrest.
  assert (Hgen : forall lit letter,
             (exists lit', lit = String "["%char lit') ->
             Text.search_ref lit letter (before ++ lit ++ String letter ds ++ rest)
             = Some (String letter ds)).
  { intros lit letter [lit' Hlit]. induction before as [|c before IH].
    - simpl. apply search_ref_here. now apply match_ref_here_head.
    - simpl in Hfree. apply andb_true_iff in Hfree. destruct Hfree as [Hc Hfree].
      specialize (IH Hfree).
      change (String c before ++ lit ++ String letter ds ++ rest)
        with (String c (before ++ lit ++ String letter ds ++ rest)).
      rewrite search_ref_skip; [exact IH|].
      assert (Hcc : Ascii.eqb "["%char c = false).
      { destruct (Ascii.eqb_spec "["%char c) as [<-|_]; [|reflexivity].
        rewrite Ascii.eqb_refl in Hc. discriminate Hc. }
      unfold Text.match_ref_here. rewrite Hlit.
      cbn [String.append Text.strip_prefix]. now rewrite Hcc. }
  unfold search_pat, ref_lit, ref_letter. destruct item; apply Hgen; eexists; reflexivity.
Qed.

Lemma reference_is_found_witness :
  search_pat false
    ("Property " ++ ref_lit false ++ String (ref_letter false) "123"
       ++ "|P123]] already has label")
  = Some "P123".
Proof.
  apply (@reference_is_found false "Property " "123" "|P123]] already has label");
    try reflexivity.
  discriminate.
Defined.

(** ** Errors of the remote *)

(** X3.  An answer with an error whose info does not speak of a
    collision ends [create_wb_thing_raw] with a [RuntimeError] that
    carries the kind asked for and the code and the info of the error
    as they came; the session has sent the request for a token and the
    edit, and nothing else: no entity is cleared, no edit is sent
    again. *)
Theorem other_error_is_fatal (depth : nat) (item : bool) (data : payload)
  (wb_id : option string) (tok : string) (res : response) (err : api_error)
  (rest : list response) (sent : list request) :
  error_of res = Some err ->
  Text.contains " already has " (info err) = false ->
  create_wb_thing_raw (S depth) item data wb_id
    {| script := ok_token tok :: res :: rest; log := sent |}
  = (Raise (RuntimeError (FailedCreating (type_str item) (code err) (info err))),
      {| script := rest;
         log := (sent ++ [QueryTokens; edit_of item data wb_id tok])%list |}).
Proof.
  intros Herr Hinfo. cbn [create_wb_thing_raw].
  unfold bind, request_token, call_api, ret, raise. cbn.
  rewrite Herr, Hinfo. rewrite <- app_assoc. destruct wb_id; reflexivity.
Qed.

Lemma other_error_is_fatal_witness :
  create_wb_thing_raw 1 true thing_data None
    {| script := [ok_token "t"; refused "The save has failed."]; log := [] |}
  = (Raise (RuntimeError
              (FailedCreating "Item" "modification-failed" "The save has failed.")),
      {| script := [];
         log := [QueryTokens; EditEntity (New "item") true thing_data "t"] |}).
Proof.
  apply (@other_error_is_fatal 0 true thing_data None "t"
           (refused "The save has failed.")
           {| code := "modification-failed"; info := "The save has failed." |}
           [] []); reflexivity.
Defined.

(** X4.  [add_wb_thing_claims] hands [None] for [item], so a collision
    reported for its edit is searched for a reference to a property;
    when the info holds none (it names an item, say) the match is
    [None] and the call ends with [AttributeError], after the request
    for a token and the edit, without clearing anything. *)
Theorem claims_collision_without_property (depth : nat) (wb_id : string)
  (claims : Dict.t (list statement)) (tok : string) (res : response)
  (err : api_error) (rest : list response) (sent : list request) :
  error_of res = Some err ->
  Text.contains " already has " (info err) = true ->
  search_pat false (info err) = None ->
  add_wb_thing_claims (S depth) wb_id claims
    {| script := ok_token tok :: res :: rest; log := sent |}
  = (Raise AttributeError,
      {| script := rest;
         log := (sent ++ [QueryTokens;
                          EditEntity (Existing wb_id) false (DataClaims claims) tok])%list |}).
Proof.
  intros Herr Hinfo Hnone. unfold add_wb_thing_claims. cbn [create_wb_thing_raw].
  unfold bind, request_token, call_api, ret, raise. cbn -[search_pat].
  rewrite Herr, Hinfo, Hnone. rewrite <- app_assoc. reflexivity.
Qed.

Lemma claims_collision_without_property_witness :
  search_pat true collision_info = Some "Q42"
  /\ add_wb_thing_claims 5 "Q42" []
       {| script := [ok_token "t"; refused collision_info; ok_token "t"; done "Q42"];
          log := [] |}
     = (Raise AttributeError,
         {| script := [ok_token "t"; done "Q42"];
            log := [QueryTokens; EditEntity (Existing "Q42") false (DataClaims []) "t"] |}).
Proof.
  split; [reflexivity|].
  apply (@claims_collision_without_property 4 "Q42" [] "t" (refused collision_info)
           {| code := "modification-failed"; info := collision_info |}
           [ok_token "t"; done "Q42"] []); reflexivity.
Defined.

(** X5.  Without a token no edit is sent: when the answer to the
    request for a token has a status other than 200, or holds no token,
    [create_wb_thing_raw] and [clear_thing] end with an exception
    ([TypeError], raised while the message of the error is formatted,
    or [KeyError]) and the request for the token is all that was
    sent. *)
Theorem no_token_no_edit (depth : nat) (item : bool) (data : payload)
  (wb_id : option string) (part_id : string) (res : response)
  (rest : list response) (sent : list request) :
  status_code res <> 200%Z \/ csrftoken res = None ->
  let failure :=
    if negb (Z.eqb (status_code res) 200) then TypeError else KeyError "query" in
  let after := {| script := rest; log := (sent ++ [QueryTokens])%list |} in
  create_wb_thing_raw (S depth) item data wb_id {| script := res :: rest; log := sent |}
  = (Raise failure, after)
  /\ clear_thing part_id {| script := res :: rest; log := sent |}
     = (Raise failure, after).
Proof.
  intros Hres. cbv zeta. cbn [create_wb_thing_raw].
  unfold clear_thing, bind, request_token, call_api, ret, raise. cbn.
  destruct (Z.eqb_spec (status_code res) 200) as [Heq|Hne]; cbn.
  - destruct Hres as [Hs|Ht]; [contradiction|]. rewrite Ht. split; reflexivity.
  - split; reflexivity.
Qed.

Lemma no_token_no_edit_witness :
  create_wb_thing_raw 1 true thing_data None
    {| script := [{| status_code := 503; csrftoken := None;
                     error_of := None; entity_id := None |}];
       log := [] |}
  = (Raise TypeError, {| script := []; log := [QueryTokens] |}).
Proof.
  apply (@no_token_no_edit 0 true thing_data None "Q1"
           {| status_code := 503; csrftoken := None;
              error_of := None; entity_id := None |} [] []).
  left. discriminate.
Defined.

(** X6.  When, after a collision, the entity named in the info cannot
    be cleared (the answer to the clearing edit has an error), the run
    ends with the [RuntimeError] of [clear_thing], which names the
    identifier and the code and the info of that error, and the edit is
    not sent a second time. *)
Theorem failed_clearing_is_fatal (depth : nat) (item : bool) (data : payload)
  (wb_id : option string) (tok tok' why found : string) (res : response)
  (err : api_error) (rest : list response) (sent : list request) :
  collides item (why, found) ->
  error_of res = Some err ->
  create_wb_thing_raw (S depth) item data wb_id
    {| script := ok_token tok :: refused why :: ok_token tok' :: res :: rest;
       log := sent |}
  = (Raise (RuntimeError (FailedClearing found (code err) (info err))),
      {| script := rest;
         log := (sent ++ [QueryTokens; edit_of item data wb_id tok;
                          QueryTokens;
                          EditEntity (Existing found) true DataEmpty tok'])%list |}).
Proof.
  intros [Hhas Hfound] Herr. simpl in Hhas, Hfound. cbn [create_wb_thing_raw].
  unfold clear_thing, bind, request_token, call_api, ret, raise. cbn.
  rewrite Hhas, Hfound. cbn. rewrite Herr. rewrite <- !app_assoc.
  destruct wb_id; reflexivity.
Qed.

Lemma failed_clearing_is_fatal_witness :
  create_wb_thing_raw 2 true thing_data None
    {| script := [ok_token "t"; refused collision_info;
                  ok_token "u"; refused "You have no right to edit."];
       log := [] |}
  = (Raise (RuntimeError
              (FailedClearing "Q42" "modification-failed" "You have no right to edit.")),
      {| script := [];
         log := [QueryTokens; EditEntity (New "item") true thing_data "t";
                 QueryTokens; EditEntity (Existing "Q42") true DataEmpty "u"] |}).
Proof.
  apply (@failed_clearing_is_fatal 1 true thing_data None "t" "u" collision_info "Q42"
           (refused "You have no right to edit.")
           {| code := "modification-failed"; info := "You have no right to edit." |}
           [] []).
  - split; reflexivity.
  - reflexivity.
Defined.

(** X7.  The session never gives up on collisions by itself: against a
    remote that answers every edit with a collision, as often as the
    interpreter grants frames, the run ends with [RecursionError] and
    with nothing else. *)
Theorem endless_collisions_end_in_RecursionError (depth : nat) (item : bool)
  (data : payload) (tok final : string) (rest : list response)
  (cs : list (string * string)) (sent : list request) :
  Forall (collides item) cs ->
  depth <= length cs ->
  fst (create_wb_thing_raw depth item data None
         {| script := answers tok final rest cs; log := sent |})
  = Raise RecursionError.
Proof.
  intros Hcs Hdepth. now apply collisions_exhaust_the_stack.
Qed.

Lemma endless_collisions_end_in_RecursionError_witness :
  fst (create_wb_thing_raw 2 true thing_data None
         {| script := answers "t" "Q42" []
                        [(collision_info, "Q42"); (collision_info, "Q42")];
            log := [] |})
  = Raise RecursionError.
Proof.
  apply (@endless_collisions_end_in_RecursionError 2 true thing_data "t" "Q42" []
           [(collision_info, "Q42"); (collision_info, "Q42")] []).
  - repeat constructor.
  - apply le_n.
Defined.

(** ** The data of an entity *)

Lemma set_same_last {V} (d : Dict.t V) (k : string) (v v' : V) :
  Dict.get d k = None ->
  Dict.set (d ++ [(k, v)])%list k v' = (d ++ [(k, v')])%list.
Proof.
  induction d as [|[k0 v0] d IH]; simpl.
  - now rewrite String.eqb_refl.
  - destruct (String.eqb k0 k); [discriminate|]. intros H. now rewrite IH.
Qed.

Lemma last_cons {A} (l : list A) (x y : A) : last (y :: l) x = last l y.
Proof.
  revert x y. induction l as [|a l IH]; intros x y; [reflexivity|].
  change (last (y :: a :: l) x) with (last (a :: l) x).
  now rewrite !IH.
Qed.

Lemma set_each_fresh (lang x : string) (l : list string) (d : Dict.t term) :
  Dict.get d lang = None ->
  set_each lang (x :: l) d
  = (d ++ [(lang, {| language := lang; value := PStr (last l x) |})])%list.
Proof.
  intros Hfresh. unfold set_each. simpl fold_left. rewrite set_fresh by assumption.
  revert x. induction l as [|y l IH]; intros x; [reflexivity|].
  simpl fold_left. rewrite set_same_last by assumption.
  rewrite IH. now rewrite last_cons.
Qed.

Lemma keys_sent_labels (d : Dict.t pyval) (k : string) :
  In k (Dict.keys (flat_map sent_label d)) -> In k (Dict.keys d).
Proof.
  unfold Dict.keys. induction d as [|[k0 v0] d IH]; simpl; [auto|].
  rewrite map_app, in_app_iff. intros [Hin|Hin]; [|right; auto].
  left. unfold sent_label in Hin. simpl in Hin.
  destruct v0 as [t|[|x l]]; simpl in Hin; intuition.
Qed.

(** X8.  Of a label given as a list [create_wb_thing] sends the last
    element only (every element is set over the one before), and of an
    empty list it sends no label at all; a label given as a text is
    sent as it is.  (No descriptions here; the labels are a dictionary,
    with every language once.) *)
Theorem list_labels_collapse (item : bool) (labels : Dict.t pyval)
  (property_type : string) :
  NoDup (Dict.keys labels) ->
  create_wb_thing_data item labels [] property_type
  = Ok (DataEntity (flat_map sent_label labels) []
          (if item then None else Some property_type)).
Proof.
  intros Hnodup. unfold create_wb_thing_data.
  assert (Hgen : forall d2 d1,
             labels = (d1 ++ d2)%list ->
             for_each (label_body labels) (Dict.keys d2) (flat_map sent_label d1)
             = Ok (flat_map sent_label labels)).
  { induction d2 as [|[k v] d2 IH]; intros d1 Hd.
    - simpl. now rewrite Hd, app_nil_r.
    - assert (Hfresh : Dict.get d1 k = None).
      { apply get_none_iff. intros Hin. subst labels.
        unfold Dict.keys in Hnodup. rewrite map_app in Hnodup. simpl in Hnodup.
        apply NoDup_remove_2 in Hnodup. apply Hnodup.
        apply in_or_app. now left. }
      assert (Hsent : Dict.get (flat_map sent_label d1) k = None).
      { apply get_none_iff. intros Hin. apply keys_sent_labels in Hin.
        apply get_none_iff in Hfresh. contradiction. }
      assert (Hget : getitem labels k = Ok v).
      { unfold getitem. rewrite Hd, get_app_fresh by assumption. simpl.
        now rewrite String.eqb_refl. }
      simpl for_each. unfold label_body at 1. rewrite Hget. cbn [result_bind].
      assert (Hnext : forall sent,
                 flat_map sent_label (d1 ++ [(k, v)])%list
                 = (flat_map sent_label d1 ++ sent)%list ->
                 for_each (label_body labels) (Dict.keys d2)
                   (flat_map sent_label d1 ++ sent)%list
                 = Ok (flat_map sent_label labels)).
      { intros sent <-. apply IH. now rewrite <- app_assoc. }
      destruct v as [text|[|x l]]; cbn [result_bind].
      + rewrite set_fresh by assumption. apply Hnext.
        now rewrite flat_map_app.
      + rewrite <- (app_nil_r (flat_map sent_label d1)). apply Hnext.
        now rewrite flat_map_app.
      + rewrite set_each_fresh by assumption. apply Hnext.
        now rewrite flat_map_app. }
  pose proof (Hgen labels [] eq_refl) as Hlabels. cbn [flat_map] in Hlabels.
  rewrite Hlabels. reflexivity.
Qed.

Lemma list_labels_collapse_witness :
  create_wb_thing_data true
    [("en", PList ["Thing"; "Object"]); ("de", PList []); ("fr", PStr "Chose")]
    [] "string"
  = Ok (DataEntity
          [("en", {| language := "en"; value := PStr "Object" |});
           ("fr", {| language := "fr"; value := PStr "Chose" |})]
          [] None).
Proof.
  apply (@list_labels_collapse true
           [("en", PList ["Thing"; "Object"]); ("de", PList []); ("fr", PStr "Chose")]
           "string").
  repeat constructor; simpl; intuition discriminate.
Defined.

Lemma data_of_texts_ok (item : bool) (lbs dscs : Dict.t string) (property_type : string) :
  NoDup (Dict.keys lbs) ->
  NoDup (Dict.keys dscs) ->
  (forall lng, In lng (Dict.keys dscs) -> In lng (Dict.keys lbs)) ->
  create_wb_thing_data item (texts lbs) (texts dscs) property_type
  = Ok (DataEntity (entries label_term lbs) (entries description_term dscs)
          (if item then None else Some property_type)).
Proof.
  intros Hl Hd Hall. unfold create_wb_thing_data.
  rewrite keys_texts, (build_entries label_term); [|clear|assumption].
  - cbn [result_bind]. rewrite keys_texts, (build_entries description_term);
      [reflexivity | clear - Hall | assumption].
    intros acc k v Hget. unfold description_body, getitem.
    assert (Hk : In k (Dict.keys lbs)).
    { apply Hall. apply get_in_keys. congruence. }
    apply get_in_keys in Hk. rewrite get_texts.
    destruct (Dict.get lbs k) as [lb|]; [cbn [option_map result_bind] | congruence].
    rewrite get_texts, Hget. cbn [option_map result_bind]. unfold shorten. simpl pylen.
    unfold description_term.
    destruct (250 <? String.length v)%nat; reflexivity.
  - intros acc k v Hget. unfold label_body, getitem.
    rewrite get_texts, Hget. reflexivity.
Qed.

(** X9.  When every language of the descriptions is a language of the
    labels, and both are maps of texts, [create_wb_thing] raises
    nothing of its own: against a remote that gives a token and accepts
    the edit it returns the identifier from the answer, having sent one
    request for a token and one edit for a new entity of the kind, with
    the labels as they are, the descriptions shortened where they are
    long, and a datatype for a property only. *)
Theorem create_wb_thing_succeeds (depth : nat) (item : bool)
  (lbs dscs : Dict.t string) (property_type tok id : string)
  (rest : list response) (sent : list request) :
  NoDup (Dict.keys lbs) ->
  NoDup (Dict.keys dscs) ->
  (forall lng, In lng (Dict.keys dscs) -> In lng (Dict.keys lbs)) ->
  create_wb_thing (S depth) item (texts lbs) (texts dscs) property_type
    {| script := ok_token tok :: done id :: rest; log := sent |}
  = (Ok id,
      {| script := rest;
         log := (sent ++
                 [QueryTokens;
                  EditEntity (New (if item then "item" else "property")) true
                    (DataEntity (entries label_term lbs)
                       (entries description_term dscs)
                       (if item then None else Some property_type))
                    tok])%list |}).
Proof.
  intros Hl Hd Hall. unfold create_wb_thing, bind, pure.
  rewrite (@data_of_texts_ok item lbs dscs property_type Hl Hd Hall).
  cbn [create_wb_thing_raw].
  unfold bind, request_token, call_api, ret, raise. cbn.
  now rewrite <- app_assoc.
Qed.

Lemma create_wb_thing_succeeds_witness :
  create_wb_thing 1 false (texts [("en", "version")]) (texts []) "string"
    {| script := [ok_token "t"; done "P9"]; log := [] |}
  = (Ok "P9",
      {| script := [];
         log := [QueryTokens;
                 EditEntity (New "property") true
                   (DataEntity [("en", label_term "en" "version")] [] (Some "string"))
                   "t"] |}).
Proof.
  apply (@create_wb_thing_succeeds 0 false [("en", "version")] [] "string" "t" "P9" [] []).
  - repeat constructor. intros [].
  - constructor.
  - intros lng [].
Defined.

(** ** The value type of a claim *)

Lemma sub_aux_not_empty (s : string) :
  fst (Text.sub_to_last_sep_aux (s ++ ">")) <> EmptyString.
Proof.
  induction s as [|c s IH]; simpl.
  - discriminate.
  - destruct (Text.sub_to_last_sep_aux (s ++ ">")) as [kept dropping].
    simpl in IH.
    destruct (Ascii.eqb c Text.newline); [discriminate|].
    destruct dropping; [exact IH|].
    destruct (Text.is_sep c); [exact IH | discriminate].
Qed.

Lemma uri_value_type (g : graph) (url : string -> bool) (u : string) :
  value_type_of g url (URIRef u) = Ok "item"
  \/ value_type_of g url (URIRef u) = Ok "property"
  \/ (value_type_of g url (URIRef u) = Raise (Exception u)
      /\ is_valid_uri u = false /\ untyped g (URIRef u) = true).
Proof.
  unfold value_type_of, untyped. simpl is_literal. cbv iota.
  destruct (mem (OWL "Class") _); [now left|].
  destruct (mem (OWL "ObjectProperty") _ || mem (OWL "DatatypeProperty") _) eqn:Hp;
    [now right; left|].
  simpl orb. rewrite Hp. unfold n3.
  destruct (is_valid_uri u); [|right; right; auto].
  cbn [result_bind]. unfold Text.sub_to_last_sep.
  pose proof (sub_aux_not_empty (String "<"%char u)) as Hne.
  change (String "<"%char u ++ ">") with ("<" ++ u ++ ">") in Hne.
  destruct (fst (Text.sub_to_last_sep_aux ("<" ++ u ++ ">")))
    as [|c rest]; [congruence|].
  destruct (Text.isupper c); [now left | now right; left].
Qed.

(** X10.  For an object that is a URI reference [create_claim] finds a
    value type, [item] or [property], whenever the object has one of
    the class and property types or its URI is one that rdflib can
    write: the name left of its N3 form is never empty, so its first
    character can be read.  Only for a URI with a refused character
    and none of these types no value type is found: the run ends with
    the [Exception] of [n3]. *)
Theorem uri_object_has_entity_type (g : graph) (url : string -> bool) (u : string) :
  (is_valid_uri u = true \/ untyped g (URIRef u) = false ->
   value_type_of g url (URIRef u) = Ok "item"
   \/ value_type_of g url (URIRef u) = Ok "property")
  /\ (is_valid_uri u = false -> untyped g (URIRef u) = true ->
      value_type_of g url (URIRef u) = Raise (Exception u)).
Proof.
  split.
  - intros Hcan.
    destruct (uri_value_type g url u) as [H | [H | [_ [Hvalid Huntyped]]]];
      [now left | now right |].
    destruct Hcan as [Hcan | Hcan]; congruence.
  - intros Hvalid Huntyped. unfold value_type_of, untyped in *.
    simpl is_literal. cbv iota.
    apply negb_true_iff in Huntyped.
    apply orb_false_iff in Huntyped. destruct Huntyped as [Hco Hd].
    apply orb_false_iff in Hco. destruct Hco as [Hc Ho].
    rewrite Hc, Ho, Hd. simpl orb. cbv iota. unfold n3. now rewrite Hvalid.
Qed.

Lemma uri_object_has_entity_type_witness :
  (value_type_of [] (fun _ => false) example_node = Ok "item"
   \/ value_type_of [] (fun _ => false) example_node = Ok "property")
  /\ value_type_of [] (fun _ => false) spaced_node
     = Raise (Exception "http://example.org/a b").
Proof.
  split.
  - apply (proj1 (@uri_object_has_entity_type [] (fun _ => false)
                    "http://example.org/onto#Thing")).
    left. reflexivity.
  - apply (proj2 (@uri_object_has_entity_type [] (fun _ => false)
                    "http://example.org/a b")); reflexivity.
Defined.

Lemma free_of_app (c : ascii) (a b : string) :
  free_of c (a ++ b) = free_of c a && free_of c b.
Proof.
  induction a as [|x a IH]; simpl; [reflexivity|].
  now rewrite IH, andb_assoc.
Qed.

Lemma sub_aux_plain (s : string) :
  one_line s = true -> no_sep s = true ->
  Text.sub_to_last_sep_aux s = (s, false).
Proof.
  unfold one_line, no_sep. induction s as [|c s IH]; simpl; [reflexivity|].
  intros Hline Hsep.
  apply andb_true_iff in Hline. destruct Hline as [Hc Hline].
  apply andb_true_iff in Hsep. destruct Hsep as [Hs1 Hs2].
  apply andb_true_iff in Hs1, Hs2. destruct Hs1 as [Hc1 Hs1], Hs2 as [Hc2 Hs2].
  rewrite IH; [|assumption | now rewrite Hs1, Hs2].
  apply negb_true_iff in Hc, Hc1, Hc2.
  rewrite Hc. unfold Text.is_sep. now rewrite Hc1, Hc2.
Qed.

Lemma sub_aux_behind_sep (before name : string) (sep : ascii) :
  one_line before = true ->
  Text.is_sep sep = true ->
  one_line name = true -> no_sep name = true ->
  Text.sub_to_last_sep_aux (before ++ String sep name) = (name, true).
Proof.
  intros Hbefore Hsep Hline Hnosep.
  assert (Hnl : Ascii.eqb sep Text.newline = false).
  { unfold Text.is_sep in Hsep.
    destruct (Ascii.eqb_spec sep "#"%char) as [->|_]; [reflexivity|].
    destruct (Ascii.eqb_spec sep "/"%char) as [->|_]; [reflexivity | discriminate]. }
  unfold one_line in Hbefore.
  induction before as [|c before IH]; simpl.
  - rewrite (sub_aux_plain name Hline Hnosep), Hnl, Hsep. reflexivity.
  - simpl in Hbefore. apply andb_true_iff in Hbefore. destruct Hbefore as [Hc Hb].
    rewrite (IH Hb). apply negb_true_iff in Hc. now rewrite Hc.
Qed.

(** X11.  The heuristic on names.  An object that is a URI reference
    with none of the class and property types in the ontology, whose
    URI is one that rdflib can write and ends, behind its last [#] or
    [/], in a name: its value type is [item] when the name begins with
    an upper-case letter, and [property] when it does not. *)
Theorem untyped_object_goes_by_its_name (g : graph) (url : string -> bool)
  (before name : string) (sep initial : ascii) :
  let obj := URIRef (before ++ String sep (String initial name)) in
  let types := objects g obj RDF_type in
  is_valid_uri (before ++ String sep (String initial name)) = true ->
  mem (OWL "Class") types = false ->
  mem (OWL "ObjectProperty") types = false ->
  mem (OWL "DatatypeProperty") types = false ->
  one_line before = true ->
  Text.is_sep sep = true ->
  one_line (String initial name) = true ->
  no_sep (String initial name) = true ->
  value_type_of g url obj
  = Ok (if Text.isupper initial then "item" else "property").
Proof.
  intros obj types Hvalid Hclass Hobj Hdata Hbefore Hsep Hline Hnosep.
  unfold value_type_of. simpl is_literal. cbv iota.
  fold types. rewrite Hclass, Hobj, Hdata. simpl orb. cbv iota.
  unfold obj, n3. rewrite Hvalid. cbn [result_bind].
  unfold Text.sub_to_last_sep.
  replace ("<" ++ (before ++ String sep (String initial name)) ++ ">")
    with (String "<"%char before ++ String sep (String initial (name ++ ">")))
    by (simpl; now rewrite append_assoc).
  rewrite sub_aux_behind_sep.
  - simpl fst. cbv iota. destruct (Text.isupper initial); reflexivity.
  - unfold one_line in *. simpl. exact Hbefore.
  - exact Hsep.
  - unfold one_line in *. simpl in *. rewrite free_of_app.
    apply andb_true_iff in Hline. destruct Hline as [-> ->]. reflexivity.
  - unfold no_sep in *. simpl in *.
    apply andb_true_iff in Hnosep. destruct Hnosep as [H1 H2].
    apply andb_true_iff in H1, H2. destruct H1 as [-> H1], H2 as [-> H2].
    rewrite !free_of_app, H1, H2. reflexivity.
Qed.

Lemma untyped_object_goes_by_its_name_witness :
  value_type_of [] (fun _ => false) (URIRef "http://schema.org/Person") = Ok "item"
  /\ value_type_of [] (fun _ => false) (URIRef "http://schema.org/name") = Ok "property".
Proof.
  split.
  - apply (@untyped_object_goes_by_its_name [] (fun _ => false)
             "http://schema.org" "erson" "/"%char "P"%char); reflexivity.
  - apply (@untyped_object_goes_by_its_name [] (fun _ => false)
             "http://schema.org" "ame" "/"%char "n"%char); reflexivity.
Defined.

(** ** What [create_claim] builds and when it sends *)

Lemma rdf2wb_id_or_fail_ok (store : graph) (rdf_ref : node) (id : string) :
  rdf2wb_id_or_fail store rdf_ref = Ok id <-> rdf2wb_id store rdf_ref true = Ok (Some id).
Proof.
  unfold rdf2wb_id_or_fail.
  destruct (rdf2wb_id store rdf_ref true) as [[x|]|e] eqn:H;
    split; intros Heq; try discriminate; congruence.
Qed.

Lemma rdf2wb_id_or_fail_raise (store : graph) (rdf_ref : node) :
  length (objects store rdf_ref (SCHEMA "identifier")) <> 1 ->
  rdf2wb_id_or_fail store rdf_ref
  = Raise (RuntimeError (NoSingleWikiBaseId (str rdf_ref))).
Proof.
  intros Hlen. unfold rdf2wb_id_or_fail.
  now rewrite (rdf2wb_id_not_unique store rdf_ref true Hlen).
Qed.

Lemma value_type_cases (g : graph) (url : string -> bool) (obj : node) (vt : string) :
  value_type_of g url obj = Ok vt ->
  (is_literal obj = true /\ (vt = "string" \/ vt = "url"))
  \/ (is_literal obj = false /\ (vt = "item" \/ vt = "property")).
Proof.
  unfold value_type_of. destruct (is_literal obj).
  - destruct (n3 obj) as [text|e]; [|discriminate]. cbn [result_bind].
    destruct (url _); intros [= <-]; left; auto.
  - destruct (mem (OWL "Class") _); [intros [= <-]; right; auto|].
    destruct (_ || _); [intros [= <-]; right; auto|].
    destruct (n3 obj) as [rdf_name|e]; [|discriminate]. cbn [result_bind].
    destruct (Text.sub_to_last_sep _) as [|c rest]; [discriminate|].
    destruct (Text.isupper c); intros [= <-]; right; auto.
Qed.

(** X12.  Every claim that [create_claim] builds is well formed: it is
    one statement under the identifier of its predicate, which is the
    one record of the predicate in the link store and not P1647; for a
    literal object its datatype and the type of its value are both
    [string] or both [url] and the value is the text of the literal;
    for any other object the datatype is [wikibase-item] or
    [wikibase-property], the type of the value is [wikibase-entityid],
    and the value names the one record of the object in the link store
    with the number behind its first character. *)
Theorem built_claims_are_well_formed (g : graph) (url : string -> bool)
  (store : graph) (pred obj : node) (claims : Dict.t (list statement)) :
  claims_of g url store pred obj = Ok (Some claims) ->
  exists pred_wb_id claim,
    claims = [(pred_wb_id, [claim])]
    /\ mem pred get_non_claim_preds = false
    /\ rdf2wb_id store pred true = Ok (Some pred_wb_id)
    /\ pred_wb_id <> "P1647"
    /\ property (mainsnak claim) = pred_wb_id
    /\ snaktype (mainsnak claim) = "value"
    /\ statement_type claim = "statement"
    /\ rank claim = "normal"
    /\ ((is_literal obj = true
         /\ (WikiBase.datatype (mainsnak claim) = "string"
             \/ WikiBase.datatype (mainsnak claim) = "url")
         /\ datavalue_type (mainsnak claim) = WikiBase.datatype (mainsnak claim)
         /\ datavalue_value (mainsnak claim) = TextValue (str obj))
        \/ (is_literal obj = false
            /\ datavalue_type (mainsnak claim) = "wikibase-entityid"
            /\ exists kind obj_id number,
                (kind = "item" \/ kind = "property")
                /\ WikiBase.datatype (mainsnak claim) = "wikibase-" ++ kind
                /\ rdf2wb_id store obj true = Ok (Some obj_id)
                /\ Text.py_int (Text.tail obj_id) = Some number
                /\ datavalue_value (mainsnak claim) = EntityValue kind obj_id number)).
Proof.
  unfold claims_of.
  destruct (mem pred get_non_claim_preds) eqn:Hpred; [discriminate|].
  destruct (rdf2wb_id_or_fail store pred) as [pred_wb_id|e] eqn:Hid; [|discriminate].
  cbn [result_bind]. apply rdf2wb_id_or_fail_ok in Hid.
  destruct (String.eqb_spec pred_wb_id "P1647") as [|Hnot]; [discriminate|].
  destruct (value_type_of g url obj) as [vt|e] eqn:Hvt; [|discriminate].
  cbn [result_bind]. apply value_type_cases in Hvt.
  destruct (main_value_of store vt obj) as [value|e] eqn:Hvalue; [|discriminate].
  cbn [result_bind]. intros [= <-].
  exists pred_wb_id, (claim_of pred_wb_id vt value).
  repeat (split; [first [reflexivity | assumption]|]).
  unfold main_value_of in Hvalue.
  destruct Hvt as [[Hlit [-> | ->]] | [Hlit [-> | ->]]]; simpl in Hvalue |- *.
  - left. injection Hvalue as <-. auto.
  - left. injection Hvalue as <-. auto.
  - right. split; [assumption|]. split; [reflexivity|].
    destruct (rdf2wb_id_or_fail store obj) as [obj_id|e] eqn:Hobj; [|discriminate].
    cbn [result_bind] in Hvalue. apply rdf2wb_id_or_fail_ok in Hobj.
    destruct (Text.py_int (Text.tail obj_id)) as [number|] eqn:Hnum; [|discriminate].
    injection Hvalue as <-. exists "item", obj_id, number. auto 10.
  - right. split; [assumption|]. split; [reflexivity|].
    destruct (rdf2wb_id_or_fail store obj) as [obj_id|e] eqn:Hobj; [|discriminate].
    cbn [result_bind] in Hvalue. apply rdf2wb_id_or_fail_ok in Hobj.
    destruct (Text.py_int (Text.tail obj_id)) as [number|] eqn:Hnum; [|discriminate].
    injection Hvalue as <-. exists "property", obj_id, number. auto 10.
Qed.

Lemma built_claims_are_well_formed_witness :
  exists pred_wb_id claim,
    [("P7", [claim_of "P7" "item" (EntityValue "item" "Q42" 42)])]
    = [(pred_wb_id, [claim])]
    /\ mem (SCHEMA "knows") get_non_claim_preds = false
    /\ rdf2wb_id knows_store (SCHEMA "knows") true = Ok (Some pred_wb_id)
    /\ pred_wb_id <> "P1647"
    /\ property (mainsnak claim) = pred_wb_id
    /\ snaktype (mainsnak claim) = "value"
    /\ statement_type claim = "statement"
    /\ rank claim = "normal"
    /\ ((is_literal (SCHEMA "Person") = true
         /\ (WikiBase.datatype (mainsnak claim) = "string"
             \/ WikiBase.datatype (mainsnak claim) = "url")
         /\ datavalue_type (mainsnak claim) = WikiBase.datatype (mainsnak claim)
         /\ datavalue_value (mainsnak claim) = TextValue (str (SCHEMA "Person")))
        \/ (is_literal (SCHEMA "Person") = false
            /\ datavalue_type (mainsnak claim) = "wikibase-entityid"
            /\ exists kind obj_id number,
                (kind = "item" \/ kind = "property")
                /\ WikiBase.datatype (mainsnak claim) = "wikibase-" ++ kind
                /\ rdf2wb_id knows_store (SCHEMA "Person") true = Ok (Some obj_id)
                /\ Text.py_int (Text.tail obj_id) = Some number
                /\ datavalue_value (mainsnak claim) = EntityValue kind obj_id number)).
Proof.
  apply (@built_claims_are_well_formed [] (fun _ => false) knows_store
           (SCHEMA "knows") (SCHEMA "Person")).
  reflexivity.
Defined.

(** [create_claim] does nothing at all, whatever the object, for
    a predicate of the non-claim set and for a predicate whose record
    in the link store is P1647: no request is sent and the converter is
    left as it was. *)
Theorem no_claim_for_meta_predicates (g : graph) (url : string -> bool)
  (depth : nat) (wb_id : string) (subj pred obj : node) (st : converter) :
  mem pred get_non_claim_preds = true
  \/ rdf2wb_id (ont2wb st) pred true = Ok (Some "P1647") ->
  create_claim g url depth wb_id subj pred obj st = (Ok tt, st).
Proof.
  intros Hpred. unfold create_claim, bind, get_state, pure, claims_of.
  destruct (mem pred get_non_claim_preds); [reflexivity|].
  destruct Hpred as [Hpred|Hpred]; [discriminate|].
  apply rdf2wb_id_or_fail_ok in Hpred. rewrite Hpred. reflexivity.
Qed.

Lemma no_claim_for_meta_predicates_witness :
  create_claim [] (fun _ => false) 5 "P3" example_node (RDFS "subPropertyOf")
    (SCHEMA "name")
    {| wbs := ready; ont2wb := subproperty_store; link_file := None |}
  = (Ok tt, {| wbs := ready; ont2wb := subproperty_store; link_file := None |}).
Proof.
  apply no_claim_for_meta_predicates. right. reflexivity.
Defined.

(** X13.  A claim whose predicate, or whose object when it is no
    literal and its value type is found, has not exactly one record in
    the link store is not sent: [create_claim] ends with the
    [RuntimeError] of the resolution, which names the node, and no
    request has been sent.  The value type is looked for before the
    object is resolved: when that fails (for a URI that rdflib cannot
    write, say) the run ends with its exception, whatever the link
    store holds for the object. *)
Theorem unresolved_claim_is_fatal (g : graph) (url : string -> bool)
  (depth : nat) (wb_id : string) (subj pred obj : node) (st : converter) :
  mem pred get_non_claim_preds = false ->
  (length (objects (ont2wb st) pred (SCHEMA "identifier")) <> 1 ->
   create_claim g url depth wb_id subj pred obj st
   = (Raise (RuntimeError (NoSingleWikiBaseId (str pred))), st))
  /\ (forall pred_wb_id value_type,
         rdf2wb_id (ont2wb st) pred true = Ok (Some pred_wb_id) ->
         pred_wb_id <> "P1647" ->
         is_literal obj = false ->
         value_type_of g url obj = Ok value_type ->
         length (objects (ont2wb st) obj (SCHEMA "identifier")) <> 1 ->
         create_claim g url depth wb_id subj pred obj st
         = (Raise (RuntimeError (NoSingleWikiBaseId (str obj))), st))
  /\ (forall pred_wb_id e,
         rdf2wb_id (ont2wb st) pred true = Ok (Some pred_wb_id) ->
         pred_wb_id <> "P1647" ->
         value_type_of g url obj = Raise e ->
         create_claim g url depth wb_id subj pred obj st = (Raise e, st)).
Proof.
  intros Hpred. split; [|split].
  - intros Hlen. unfold create_claim, bind, get_state, pure, claims_of.
    rewrite Hpred, (rdf2wb_id_or_fail_raise _ _ Hlen). reflexivity.
  - intros pred_wb_id vt Hid Hnot Hlit Hvt Hlen.
    unfold create_claim, bind, get_state, pure, claims_of.
    apply rdf2wb_id_or_fail_ok in Hid. rewrite Hpred, Hid. cbn [result_bind].
    destruct (String.eqb_spec pred_wb_id "P1647") as [|_]; [contradiction|].
    rewrite Hvt. cbn [result_bind]. unfold main_value_of.
    apply value_type_cases in Hvt.
    destruct Hvt as [[Hlit' _] | [_ [-> | ->]]]; [congruence | |];
      simpl String.eqb; cbv iota;
      rewrite (rdf2wb_id_or_fail_raise _ _ Hlen); reflexivity.
  - intros pred_wb_id e Hid Hnot Hvt.
    unfold create_claim, bind, get_state, pure, claims_of.
    apply rdf2wb_id_or_fail_ok in Hid. rewrite Hpred, Hid. cbn [result_bind].
    destruct (String.eqb_spec pred_wb_id "P1647") as [|_]; [contradiction|].
    rewrite Hvt. reflexivity.
Qed.

Lemma unresolved_claim_is_fatal_witness :
  create_claim [] (fun _ => false) 5 "Q1" example_node (SCHEMA "knows")
    (SCHEMA "Person")
    {| wbs := ready; ont2wb := []; link_file := None |}
  = (Raise (RuntimeError (NoSingleWikiBaseId "http://schema.org/knows")),
      {| wbs := ready; ont2wb := []; link_file := None |})
  /\ create_claim [] (fun _ => false) 5 "Q1" example_node (RDFS "isDefinedBy")
       (SCHEMA "Person")
       {| wbs := ready; ont2wb := defined_by_store; link_file := None |}
     = (Raise (RuntimeError (NoSingleWikiBaseId "http://schema.org/Person")),
         {| wbs := ready; ont2wb := defined_by_store; link_file := None |})
  /\ create_claim [] (fun _ => false) 5 "Q1" example_node (RDFS "isDefinedBy")
       spaced_node
       {| wbs := ready; ont2wb := defined_by_store; link_file := None |}
     = (Raise (Exception "http://example.org/a b"),
         {| wbs := ready; ont2wb := defined_by_store; link_file := None |}).
Proof.
  split; [|split].
  - apply (proj1 (@unresolved_claim_is_fatal [] (fun _ => false) 5 "Q1" example_node
                    (SCHEMA "knows") (SCHEMA "Person")
                    {| wbs := ready; ont2wb := []; link_file := None |} eq_refl)).
    simpl. discriminate.
  - apply (proj1 (proj2 (@unresolved_claim_is_fatal [] (fun _ => false) 5 "Q1"
                           example_node (RDFS "isDefinedBy") (SCHEMA "Person")
                           {| wbs := ready; ont2wb := defined_by_store;
                              link_file := None |} eq_refl))
             "P20" "item"); try reflexivity; simpl; discriminate.
  - apply (proj2 (proj2 (@unresolved_claim_is_fatal [] (fun _ => false) 5 "Q1"
                           example_node (RDFS "isDefinedBy") spaced_node
                           {| wbs := ready; ont2wb := defined_by_store;
                              link_file := None |} eq_refl))
             "P20"); try reflexivity; discriminate.
Defined.

(** X14.  A claim whose object is no literal, has a value type and is
    recorded in the link store under a text that has no number behind
    its first character ends [create_claim] with [ValueError], before
    any request; so does, in particular, a claim on a node linked to
    the text [None], as a subject with the ontology type is. *)
Theorem claim_on_unnumbered_link_fails (g : graph) (url : string -> bool)
  (depth : nat) (wb_id : string) (subj pred obj : node)
  (pred_wb_id value_type obj_id : string) (st : converter) :
  mem pred get_non_claim_preds = false ->
  rdf2wb_id (ont2wb st) pred true = Ok (Some pred_wb_id) ->
  pred_wb_id <> "P1647" ->
  is_literal obj = false ->
  value_type_of g url obj = Ok value_type ->
  rdf2wb_id (ont2wb st) obj true = Ok (Some obj_id) ->
  Text.py_int (Text.tail obj_id) = None ->
  create_claim g url depth wb_id subj pred obj st = (Raise ValueError, st)
  /\ Text.py_int (Text.tail "None") = None.
Proof.
  intros Hpred Hid Hnot Hlit Hvt Hobj Hnum. split; [|reflexivity].
  unfold create_claim, bind, get_state, pure, claims_of.
  apply rdf2wb_id_or_fail_ok in Hid, Hobj. rewrite Hpred, Hid. cbn [result_bind].
  destruct (String.eqb_spec pred_wb_id "P1647") as [|_]; [contradiction|].
  rewrite Hvt. cbn [result_bind]. unfold main_value_of.
  apply value_type_cases in Hvt.
  destruct Hvt as [[Hlit' _] | [_ [-> | ->]]]; [congruence | |];
    simpl String.eqb; cbv iota; rewrite Hobj; cbn [result_bind];
    rewrite Hnum; reflexivity.
Qed.

Lemma claim_on_unnumbered_link_fails_witness :
  create_claim [] (fun _ => false) 5 "Q1" example_node (RDFS "isDefinedBy")
    ontology_node
    {| wbs := ready; ont2wb := defined_by_store; link_file := None |}
  = (Raise ValueError,
      {| wbs := ready; ont2wb := defined_by_store; link_file := None |}).
Proof.
  apply (proj1 (@claim_on_unnumbered_link_fails [] (fun _ => false) 5 "Q1" example_node
                  (RDFS "isDefinedBy") ontology_node "P20" "property" "None"
                  {| wbs := ready; ont2wb := defined_by_store; link_file := None |}
                  eq_refl eq_refl ltac:(discriminate) eq_refl eq_refl eq_refl
                  eq_refl)).
Defined.

(** ** The link store through the passes *)

(** X15.  Recording and resolving.  After the link of a node without a
    record is recorded, the node, and every node equal to it, resolves
    to the identifier recorded (to the text [None] when [None] was
    recorded), required or not, and every other node resolves as
    before; the session and the link file are untouched.  Equal is
    what rdflib takes for equal: for a URI reference and a blank node
    the node itself. *)
Theorem recorded_link_resolves (s : node) (x : option string) (st : converter) :
  objects (ont2wb st) s (SCHEMA "identifier") = [] ->
  exists st',
    record_link s x st = (Ok tt, st')
    /\ wbs st' = wbs st
    /\ link_file st' = link_file st
    /\ (forall required,
           rdf2wb_id (ont2wb st') s required
           = Ok (Some (match x with Some id => id | None => "None" end)))
    /\ (forall s' required,
           rdf2wb_id (ont2wb st') s' required
           = if node_eqb s' s
             then Ok (Some (match x with Some id => id | None => "None" end))
             else rdf2wb_id (ont2wb st) s' required)
    /\ (forall s' required,
           is_literal s = false \/ is_literal s' = false ->
           s' <> s ->
           rdf2wb_id (ont2wb st') s' required = rdf2wb_id (ont2wb st) s' required).
Proof.
  intros Hnil. eexists. split; [reflexivity|]. simpl.
  split; [reflexivity|]. split; [reflexivity|].
  assert (Hall : forall s' required,
             rdf2wb_id
               (Rdf.add (ont2wb st) (s, SCHEMA "identifier", Literal_of x)) s' required
             = if node_eqb s' s
               then Ok (Some (match x with Some id => id | None => "None" end))
               else rdf2wb_id (ont2wb st) s' required).
  { intros s' required. unfold rdf2wb_id. destruct (node_eqb s' s) eqn:Heq.
    - rewrite (objects_eqb _ _ _ _ Heq), objects_add_first by assumption.
      destruct x; reflexivity.
    - rewrite objects_add_other by (now rewrite node_eqb_sym). reflexivity. }
  split; [|split].
  - intros required. now rewrite Hall, node_eqb_refl.
  - exact Hall.
  - intros s' required Hlit Hne. rewrite Hall.
    destruct (node_eqb s' s) eqn:Heq; [|reflexivity].
    apply node_eqb_eq in Heq; [contradiction | tauto].
Qed.

Lemma recorded_link_resolves_witness :
  exists st',
    record_link example_node (Some "Q5") (fresh [] None) = (Ok tt, st')
    /\ wbs st' = wbs (fresh [] None)
    /\ link_file st' = link_file (fresh [] None)
    /\ (forall required,
           rdf2wb_id (ont2wb st') example_node required = Ok (Some "Q5"))
    /\ (forall s' required,
           rdf2wb_id (ont2wb st') s' required
           = if node_eqb s' example_node
             then Ok (Some "Q5")
             else rdf2wb_id (ont2wb (fresh [] None)) s' required)
    /\ (forall s' required,
           is_literal example_node = false \/ is_literal s' = false ->
           s' <> example_node ->
           rdf2wb_id (ont2wb st') s' required
           = rdf2wb_id (ont2wb (fresh [] None)) s' required).
Proof.
  apply (@recorded_link_resolves example_node (Some "Q5") (fresh [] None)).
  reflexivity.
Defined.

Lemma nodup_add (g : graph) (t : triple) : NoDup g -> NoDup (Rdf.add g t).
Proof.
  intros Hg. destruct (add_cases g t) as [[-> _] | [-> Hfresh]]; [assumption|].
  apply NoDup_app; [assumption | repeat constructor; intros [] |].
  intros x Hin [Heq|[]]. subst x.
  pose proof (triple_eqb_refl t) as Hrefl.
  rewrite (Hfresh t Hin) in Hrefl. discriminate.
Qed.

Lemma nodup_load (file : list triple) : NoDup (load file).
Proof.
  unfold load.
  assert (Hgen : forall l acc, NoDup acc -> NoDup (fold_left Rdf.add l acc)).
  { induction l as [|x l IH]; intros acc Hacc; simpl; [assumption|].
    apply IH. now apply nodup_add. }
  apply Hgen. constructor.
Qed.

(** A graph that is read back as it is stays so with a triple more. *)
Lemma load_add (g : graph) (t : triple) :
  load g = g -> load (Rdf.add g t) = Rdf.add g t.
Proof.
  intros Hg. destruct (add_cases g t) as [[-> _] | [Happ Hfresh]]; [assumption|].
  rewrite Happ at 1. unfold load in *. rewrite fold_left_app. cbn [fold_left].
  now rewrite Hg.
Qed.

Lemma functional_add (store : graph) (s o : node) :
  functional store ->
  objects store s (SCHEMA "identifier") = [] ->
  functional (Rdf.add store (s, SCHEMA "identifier", o)).
Proof.
  intros Hf Hnil s'. destruct (node_eqb s s') eqn:Heq.
  - rewrite <- (objects_eqb _ _ _ _ Heq), objects_add_first by assumption.
    apply le_n.
  - rewrite objects_add_other by assumption. apply Hf.
Qed.

Lemma unresolved_functional (store : graph) (s : node) :
  functional store ->
  rdf2wb_id store s false = Ok None ->
  objects store s (SCHEMA "identifier") = [].
Proof.
  intros Hf. specialize (Hf s). unfold rdf2wb_id.
  destruct (objects store s (SCHEMA "identifier")) as [|x [|y l]];
    [reflexivity | discriminate | simpl in Hf; lia].
Qed.

Lemma unlinked_unresolved (store : graph) (s : node) :
  objects store s (SCHEMA "identifier") = [] -> rdf2wb_id store s false = Ok None.
Proof. unfold rdf2wb_id. now intros ->. Qed.

Section Keeps.
Variable P : graph -> Prop.

(** [P] holds of the link graph with one link more, for a node that is
    not skipped and that did not resolve. *)
Hypothesis P_add :
  forall store n x,
    P store ->
    rdf2wb_id store n false = Ok None ->
    skip_subj n = false ->
    P (Rdf.add store (n, SCHEMA "identifier", Literal_of x)).

Lemma keeps_refl (st : converter) : keeps P st st.
Proof. intros H. exact H. Qed.

Lemma keeps_trans (a b c : converter) : keeps P a b -> keeps P b c -> keeps P a c.
Proof. unfold keeps. auto. Qed.

Lemma keeps_on_wbs {A} (c : run session A) : respects (keeps P) (on_wbs c).
Proof.
  apply respects_on_wbs with (P := fun _ _ => True); [auto|].
  intros st w' _ H. exact H.
Qed.

Lemma keeps_create_subst_property (depth : nat) (n : node) (a b c : string) :
  skip_subj n = false ->
  respects (keeps P) (create_subst_property depth n a b c).
Proof.
  intros Hskip st r st'. unfold create_subst_property, bind, get_state, pure.
  destruct (rdf2wb_id (ont2wb st) n false) as [[known|]|e] eqn:Hknown.
  - intros [= <- <-]. apply keeps_refl.
  - unfold on_wbs.
    destruct (create_wb_thing depth false _ _ _ (wbs st)) as [[id|e] w].
    + unfold record_link, bind, get_state, set_ont2wb. intros [= <- <-].
      intros HP. exact (P_add n (Some id) HP Hknown Hskip).
    + intros [= <- <-]. intros HP. exact HP.
  - intros [= <- <-]. apply keeps_refl.
Qed.

Lemma keeps_create_subst_item (depth : nat) (n : node) (a b : string) :
  skip_subj n = false ->
  respects (keeps P) (create_subst_item depth n a b).
Proof.
  intros Hskip st r st'. unfold create_subst_item, bind, get_state, pure.
  destruct (rdf2wb_id (ont2wb st) n false) as [[known|]|e] eqn:Hknown.
  - intros [= <- <-]. apply keeps_refl.
  - unfold on_wbs.
    destruct (create_wb_thing depth true _ _ _ (wbs st)) as [[id|e] w].
    + unfold record_link, bind, get_state, set_ont2wb. intros [= <- <-].
      intros HP. exact (P_add n (Some id) HP Hknown Hskip).
    + intros [= <- <-]. intros HP. exact HP.
  - intros [= <- <-]. apply keeps_refl.
Qed.

Lemma keeps_bootstrap (depth : nat) : respects (keeps P) (bootstrap depth).
Proof.
  pose proof keeps_refl as Hrefl. pose proof keeps_trans as Htrans.
  unfold bootstrap.
  repeat (apply respects_bind;
          [assumption
          | first [apply keeps_create_subst_property | apply keeps_create_subst_item];
            reflexivity
          | intros _]).
  apply keeps_create_subst_property. reflexivity.
Qed.

Lemma keeps_creation_pass (g : graph) (depth : nat) :
  respects (keeps P) (creation_pass g depth).
Proof.
  unfold creation_pass. apply respects_for; [apply keeps_refl | apply keeps_trans |].
  intros s st r st' Hrun. apply create_for_turn in Hrun.
  destruct Hrun as [Hskip | Hskip Hl | e st1 Hskip Hobj Hmake | x st1 Hskip Hobj Hmake].
  - apply keeps_refl.
  - apply keeps_refl.
  - apply create_ont_wb_thing_state in Hmake. destruct Hmake as [Hs _].
    intros HP. now rewrite Hs.
  - apply create_ont_wb_thing_state in Hmake. destruct Hmake as [Hs _].
    intros HP. simpl. rewrite Hs. apply P_add; [assumption | | assumption].
    now apply unlinked_unresolved.
Qed.

(** A run of [convert] keeps [P]: it holds of the link graph at the end
    when it holds of the empty graph and of the file that is loaded,
    and it holds of the file that a run without a file writes. *)
Lemma keeps_convert (g : graph) (url : string -> bool) (depth : nat)
  (st s : converter) (r : result unit) :
  P [] ->
  (forall file, link_file st = Some file -> P (load file)) ->
  convert g url depth st = (r, s) ->
  P (ont2wb s)
  /\ (link_file st = None ->
      forall written, link_file s = Some written -> P written /\ ont2wb s = written).
Proof.
  intros Hempty Hfile Hrun. rewrite convert_steps in Hrun. cbv zeta in Hrun.
  assert (Hseed : forall r0 seeded,
             match link_file st with
             | Some file => set_ont2wb (load file)
                              {| wbs := wbs st; ont2wb := []; link_file := link_file st |}
             | None => bootstrap depth
                         {| wbs := wbs st; ont2wb := []; link_file := link_file st |}
             end = (r0, seeded) ->
             P (ont2wb seeded) /\ link_file seeded = link_file st).
  { intros r0 seeded. destruct (link_file st) as [file|] eqn:Hlf.
    - intros [= <- <-]. simpl. split; [now apply Hfile | reflexivity].
    - intros Hboot. split.
      + apply keeps_bootstrap in Hboot. now apply Hboot.
      + apply bootstrap_same_file in Hboot. exact Hboot. }
  destruct (match link_file st with Some _ => _ | None => _ end)
    as [[[]|e] seeded] eqn:Hs; destruct (Hseed _ _ eq_refl) as [HP Hlf].
  2: { injection Hrun as _ <-. split; [assumption|]. intros Hnone w Hw. congruence. }
  destruct (creation_pass g depth seeded) as [[[]|e] made] eqn:Hpass;
    pose proof (@keeps_creation_pass g depth seeded _ made Hpass HP) as HP';
    unfold creation_pass in Hpass; apply creation_pass_links in Hpass;
    destruct Hpass as [Hlf' _].
  2: { injection Hrun as _ <-. split; [assumption|]. intros Hnone w Hw. congruence. }
  apply claim_pass_claims_only in Hrun. destruct Hrun as [Hstore [Hlink _]].
  simpl in Hstore, Hlink. rewrite Hstore. split; [assumption|].
  intros _ w Hw. rewrite Hlink in Hw. injection Hw as <-. now split.
Qed.
End Keeps.

Lemma sound_add (store : graph) (n : node) (x : option string) :
  NoDup store /\ functional store ->
  rdf2wb_id store n false = Ok None ->
  skip_subj n = false ->
  NoDup (Rdf.add store (n, SCHEMA "identifier", Literal_of x))
  /\ functional (Rdf.add store (n, SCHEMA "identifier", Literal_of x)).
Proof.
  intros [Hnd Hf] Hnone _. split; [now apply nodup_add|].
  apply functional_add; [assumption|]. now apply unresolved_functional.
Qed.

Lemma reloaded_add (store : graph) (n : node) (x : option string) :
  NoDup store /\ load store = store ->
  rdf2wb_id store n false = Ok None ->
  skip_subj n = false ->
  NoDup (Rdf.add store (n, SCHEMA "identifier", Literal_of x))
  /\ load (Rdf.add store (n, SCHEMA "identifier", Literal_of x))
     = Rdf.add store (n, SCHEMA "identifier", Literal_of x).
Proof.
  intros [Hnd Hl] _ _. split; [now apply nodup_add | now apply load_add].
Qed.

(** X16.  A run of [convert] never gives a node a second record: when
    the link graph it starts from (the empty one, or the one loaded
    from the link file) holds at most one record for every node, so
    does the link graph it ends with, whether the run ends well or
    with an exception; and so does the file written by a run that
    found none. *)
Theorem convert_keeps_links_single (g : graph) (url : string -> bool) (depth : nat)
  (st s : converter) (r : result unit) :
  (forall file, link_file st = Some file -> functional (load file)) ->
  convert g url depth st = (r, s) ->
  functional (ont2wb s)
  /\ (link_file st = None ->
      forall written, link_file s = Some written -> functional written).
Proof.
  intros Hfile Hrun.
  destruct (@keeps_convert (fun store => NoDup store /\ functional store)
              sound_add g url depth st s r) as [[_ Hf] Hw].
  - split; [constructor | intros x; apply le_0_n].
  - intros file Hlf. split; [apply nodup_load | now apply Hfile].
  - exact Hrun.
  - split; [exact Hf|]. intros Hnone w Hlw. now destruct (Hw Hnone w Hlw) as [[_ H] _].
Qed.

Lemma convert_keeps_links_single_witness :
  functional (ont2wb (snd first_run))
  /\ (link_file (fresh accepting None) = None ->
      forall file, link_file (snd first_run) = Some file -> functional file).
Proof.
  apply (@convert_keeps_links_single class_graph scheme_url 5
           (fresh accepting None) (snd first_run) (fst first_run)).
  - intros file Hfile. discriminate Hfile.
  - apply surjective_pairing.
Defined.

(** X17.  What a first run writes is read back as it was: the file
    written by a run of [convert] that found no link file holds every
    triple once, it is the link graph the run ends with, and loading it
    gives that very graph, so that every node resolves in the next run
    as it did in this one. *)
Theorem written_links_are_read_back (g : graph) (url : string -> bool) (depth : nat)
  (st s : converter) (r : result unit) (written : list triple) :
  link_file st = None ->
  convert g url depth st = (r, s) ->
  link_file s = Some written ->
  NoDup written
  /\ ont2wb s = written
  /\ load written = ont2wb s
  /\ forall node required,
      rdf2wb_id (load written) node required = rdf2wb_id (ont2wb s) node required.
Proof.
  intros Hnone Hrun Hw.
  destruct (@keeps_convert (fun store => NoDup store /\ load store = store)
              reloaded_add g url depth st s r) as [_ Hfile].
  - split; [constructor | reflexivity].
  - intros file Hlf. congruence.
  - exact Hrun.
  - destruct (Hfile Hnone written Hw) as [[Hnd Hre] Hs].
    assert (Hload : load written = ont2wb s) by (now rewrite Hs).
    repeat split; try assumption. intros node required. now rewrite Hload.
Qed.

Lemma written_links_are_read_back_witness :
  NoDup written
  /\ ont2wb (snd first_run) = written
  /\ load written = ont2wb (snd first_run)
  /\ forall node required,
      rdf2wb_id (load written) node required
      = rdf2wb_id (ont2wb (snd first_run)) node required.
Proof.
  apply (@written_links_are_read_back class_graph scheme_url 5
           (fresh accepting None) (snd first_run) (fst first_run) written eq_refl).
  - apply surjective_pairing.
  - vm_compute. reflexivity.
Defined.

Lemma skipped_unlinked_add (store : graph) (n : node) (x : option string) :
  skipped_unlinked store ->
  rdf2wb_id store n false = Ok None ->
  skip_subj n = false ->
  skipped_unlinked (Rdf.add store (n, SCHEMA "identifier", Literal_of x)).
Proof.
  intros Hs _ Hskip s Hss. rewrite objects_add_other; [now apply Hs|].
  destruct (node_eqb n s) eqn:Heq; [|reflexivity].
  rewrite (skip_subj_eqb _ _ Heq) in Hskip. congruence.
Qed.

(** X18.  No pass links a node that the passes skip: after a run of
    [convert] that found no link file, a blank node and the node of the
    base URI have no record in the link graph, nor in the file
    written; a claim with such a node as its object cannot be
    resolved. *)
Theorem skipped_nodes_are_never_linked (g : graph) (url : string -> bool)
  (depth : nat) (st s : converter) (r : result unit) (x : node) :
  link_file st = None ->
  convert g url depth st = (r, s) ->
  is_bnode x = true \/ str x = BASE_URI ->
  objects (ont2wb s) x (SCHEMA "identifier") = []
  /\ (forall written, link_file s = Some written ->
                      objects written x (SCHEMA "identifier") = [])
  /\ forall required,
      rdf2wb_id (ont2wb s) x required
      = if required then Raise (RuntimeError (NoSingleWikiBaseId (str x))) else Ok None.
Proof.
  intros Hnone Hrun Hx.
  assert (Hskip : skip_subj x = true).
  { unfold skip_subj. destruct Hx as [-> | ->]; [reflexivity|].
    now rewrite String.eqb_refl, orb_true_r. }
  destruct (@keeps_convert skipped_unlinked skipped_unlinked_add g url depth st s r)
    as [Hs Hfile].
  - intros s0 _. reflexivity.
  - intros file Hlf. congruence.
  - exact Hrun.
  - split; [now apply Hs|]. split.
    + intros w Hw. destruct (Hfile Hnone w Hw) as [H _]. now apply H.
    + intros required. unfold rdf2wb_id. now rewrite (Hs x Hskip).
Qed.

Lemma skipped_nodes_are_never_linked_witness :
  objects (ont2wb (snd first_run)) (BNode "b0") (SCHEMA "identifier") = []
  /\ (forall file, link_file (snd first_run) = Some file ->
                   objects file (BNode "b0") (SCHEMA "identifier") = [])
  /\ forall required,
      rdf2wb_id (ont2wb (snd first_run)) (BNode "b0") required
      = if required then Raise (RuntimeError (NoSingleWikiBaseId (str (BNode "b0"))))
        else Ok None.
Proof.
  apply (@skipped_nodes_are_never_linked class_graph scheme_url 5
           (fresh accepting None) (snd first_run) (fst first_run) (BNode "b0") eq_refl).
  - apply surjective_pairing.
  - left. reflexivity.
Defined.

(** ** Aggregation: its errors and its predicates *)

Lemma add_text_ok_iff (sep : string) (d : Dict.t string) (o : node) :
  (exists d', add_text sep d o = Ok d') <-> text_literal o.
Proof.
  unfold add_text, text_literal. split.
  - intros [d' H]. destruct o as [u|b|l]; try discriminate.
    exists l. split; [reflexivity|]. destruct (py_value l); [discriminate | discriminate H].
  - intros [l [-> Hv]]. destruct (py_value l); [eauto | congruence].
Qed.

Lemma add_text_errors (sep : string) (d : Dict.t string) (o : node) (e : error) :
  add_text sep d o = Raise e -> e = AttributeError \/ e = TypeError.
Proof.
  unfold add_text. destruct o as [u|b|l]; try (intros [= <-]; now left).
  destruct (py_value l); [discriminate | intros [= <-]; now right].
Qed.

(** X19.  The labels and the descriptions of a subject aggregate
    exactly when every object of the predicates is a literal whose
    value is a text; any other object (a URI reference, a blank node, a
    literal with a value of another kind) ends the aggregation with
    [AttributeError] or [TypeError], and [create_ont_wb_thing] then
    ends with that exception before it has looked at the types and
    without a request. *)
Theorem aggregation_needs_text_literals (g : graph) (preds : list node)
  (sep : string) (subj : node) :
  ((exists d, aggregate g preds sep subj = Ok d)
   <-> Forall text_literal (flat_map (fun p => objects g subj p) preds))
  /\ (forall e, aggregate g preds sep subj = Raise e ->
                e = AttributeError \/ e = TypeError)
  /\ (forall depth st e,
         aggregate g get_label_preds label_sep subj = Raise e ->
         create_ont_wb_thing g depth subj st = (Raise e, st)).
Proof.
  unfold aggregate.
  assert (Hgen : forall l acc,
             ((exists d, for_each (add_text sep) l acc = Ok d) <-> Forall text_literal l)
             /\ (forall e, for_each (add_text sep) l acc = Raise e ->
                           e = AttributeError \/ e = TypeError)).
  { induction l as [|o l IH]; intros acc; simpl.
    - split; [split; [constructor | eauto] | discriminate].
    - destruct (add_text sep acc o) as [acc'|e0] eqn:Ho; simpl.
      + assert (Ht : text_literal o) by (apply (add_text_ok_iff sep acc o); eauto).
        destruct (IH acc') as [Hiff Herr]. split; [|exact Herr].
        rewrite Hiff. split; [now constructor | now inversion 1].
      + split.
        * split; [intros [d H]; discriminate|].
          inversion 1 as [|? ? Ht _]; subst.
          apply (add_text_ok_iff sep acc o) in Ht. destruct Ht as [d' Hd'].
          congruence.
        * intros e [= <-]. now apply add_text_errors in Ho. }
  split; [apply Hgen|]. split; [apply Hgen|].
  intros depth st e He. unfold create_ont_wb_thing, bind, pure, aggregate.
  now rewrite He.
Qed.

Lemma aggregation_needs_text_literals_witness :
  create_ont_wb_thing linked_label 5 example_node (fresh [] None)
  = (Raise AttributeError, fresh [] None).
Proof.
  apply (proj2 (proj2 (aggregation_needs_text_literals linked_label
                         get_label_preds label_sep example_node))).
  reflexivity.
Defined.

(** X20.  Of the predicates that the source names for labels and for
    descriptions only the first of each chain is consulted:
    [rdfs:label] and [rdfs:comment].  A subject without an object of
    [rdfs:label] has an empty map of labels, whatever it holds under
    [skos:prefLabel], [dcterms:title] or [dc:title], and likewise for
    descriptions; and none of these other predicates is in the
    non-claim set. *)
Theorem only_rdfs_label_and_comment_are_read (g : graph) (subj : node) :
  (objects g subj (RDFS "label") = [] ->
   aggregate g get_label_preds label_sep subj = Ok [])
  /\ (objects g subj (RDFS "comment") = [] ->
      aggregate g get_desc_preds description_sep subj = Ok [])
  /\ Forall (fun p => mem p get_label_preds = false
                      /\ mem p get_desc_preds = false
                      /\ mem p get_non_claim_preds = false)
       [SKOS "prefLabel"; DCTERMS "title"; DC "title";
        SKOS "definition"; DCTERMS "description"; DC "description"].
Proof.
  split; [|split].
  - intros Hnil. unfold aggregate. rewrite get_label_preds_eq. simpl.
    now rewrite Hnil.
  - intros Hnil. unfold aggregate. rewrite get_desc_preds_eq. simpl.
    now rewrite Hnil.
  - repeat constructor.
Qed.

Lemma only_rdfs_label_and_comment_are_read_witness :
  aggregate preferred_label get_label_preds label_sep example_node = Ok [].
Proof.
  apply (proj1 (only_rdfs_label_and_comment_are_read preferred_label example_node)).
  reflexivity.
Defined.

(** ** The dry run *)

(** On the session [WBSession] the converter on either session is the
    converter above. *)
Lemma live_convert (g : graph) (url : string -> bool) (depth : nat) :
  OnSession.convert OnSession.live g url depth = convert g url depth.
Proof. reflexivity. Qed.

Lemma live_create_claim (g : graph) (url : string -> bool) (depth : nat)
  (wb_id : string) (subj pred obj : node) :
  OnSession.create_claim OnSession.live g url depth wb_id subj pred obj
  = create_claim g url depth wb_id subj pred obj.
Proof. reflexivity. Qed.

Lemma live_create_for (g : graph) (depth : nat) (subj : node) :
  OnSession.create_for OnSession.live g depth subj = create_for g depth subj.
Proof. reflexivity. Qed.

(** X21.  A dry run that finds no link file cannot get past its first
    step: the first entry of the bootstrap asks the dummy session for a
    property, the dummy session adds a text and a number, and the run
    ends with [TypeError], whatever the ontology; nothing is recorded
    and no link file is written. *)
Theorem dry_first_run_fails (g : graph) (url : string -> bool) (depth : nat)
  (st : converter) :
  link_file st = None ->
  OnSession.convert OnSession.dry g url depth st
  = (Raise TypeError, {| wbs := wbs st; ont2wb := []; link_file := None |}).
Proof.
  intros Hnone. unfold OnSession.convert.
  unfold bind at 1. unfold set_ont2wb at 1.
  unfold bind at 1. unfold get_state at 1. cbn [link_file].
  rewrite Hnone. reflexivity.
Qed.

Lemma dry_first_run_fails_witness :
  OnSession.convert OnSession.dry class_graph scheme_url 5 (fresh accepting None)
  = (Raise TypeError,
      {| wbs := wbs (fresh accepting None); ont2wb := []; link_file := None |}).
Proof.
  apply (@dry_first_run_fails class_graph scheme_url 5 (fresh accepting None)).
  reflexivity.
Defined.

Lemma same_session_refl (st : converter) : same_session st st.
Proof. reflexivity. Qed.

Lemma same_session_trans (a b c : converter) :
  same_session a b -> same_session b c -> same_session a c.
Proof. unfold same_session. congruence. Qed.

Lemma dummy_create_same (depth : nat) (item : bool) (labels descriptions : Dict.t pyval)
  (property_type : string) (w w' : session) (r : result string) :
  Dummy.create_wb_thing depth item labels descriptions property_type w = (r, w') ->
  w' = w /\ exists e, r = Raise e.
Proof.
  unfold Dummy.create_wb_thing, Dummy.create_wb_thing_raw, bind, pure, raise.
  destruct (create_wb_thing_data item labels descriptions property_type);
    intros [= <- <-]; eauto.
Qed.

Lemma dry_on_wbs_create (depth : nat) (item : bool) (labels descriptions : Dict.t pyval)
  (property_type : string) :
  respects same_session
    (on_wbs (Dummy.create_wb_thing depth item labels descriptions property_type)).
Proof.
  apply respects_on_wbs with (P := fun w w' => w' = w).
  - intros w r w' H. now apply dummy_create_same in H.
  - intros st w' ->. reflexivity.
Qed.

Lemma dry_set_ont2wb (store : graph) : respects same_session (set_ont2wb store).
Proof. intros st r st' [= <- <-]. reflexivity. Qed.

Lemma dry_set_link_file (file : list triple) : respects same_session (set_link_file file).
Proof. intros st r st' [= <- <-]. reflexivity. Qed.

Lemma dry_record_link (s : node) (x : option string) :
  respects same_session (record_link s x).
Proof. intros st r st' [= <- <-]. reflexivity. Qed.

Lemma dry_bootstrap (depth : nat) :
  respects same_session (OnSession.bootstrap OnSession.dry depth).
Proof.
  pose proof same_session_refl as Hrefl. pose proof same_session_trans as Htrans.
  assert (Hprop : forall n a b c,
             respects same_session
               (OnSession.create_subst_property OnSession.dry depth n a b c)).
  { intros n a b c. unfold OnSession.create_subst_property.
    apply respects_bind; [assumption | now apply respects_get_state | intros st0].
    apply respects_bind; [assumption | now apply respects_pure | intros known].
    destruct known; [now apply respects_ret|].
    apply respects_bind; [assumption | apply dry_on_wbs_create | intros id].
    apply dry_record_link. }
  assert (Hitem : forall n a b,
             respects same_session
               (OnSession.create_subst_item OnSession.dry depth n a b)).
  { intros n a b. unfold OnSession.create_subst_item.
    apply respects_bind; [assumption | now apply respects_get_state | intros st0].
    apply respects_bind; [assumption | now apply respects_pure | intros known].
    destruct known; [now apply respects_ret|].
    apply respects_bind; [assumption | apply dry_on_wbs_create | intros id].
    apply dry_record_link. }
  unfold OnSession.bootstrap.
  repeat (apply respects_bind; [assumption | first [apply Hprop | apply Hitem] | intros _]).
  apply Hprop.
Qed.

Lemma dry_creation_pass (g : graph) (depth : nat) :
  respects same_session (OnSession.creation_pass OnSession.dry g depth).
Proof.
  pose proof same_session_refl as Hrefl. pose proof same_session_trans as Htrans.
  unfold OnSession.creation_pass. apply respects_for; [assumption..|]. intros s.
  unfold OnSession.create_for.
  destruct (skip_subj s); [now apply respects_ret|].
  apply respects_bind; [assumption | now apply respects_get_state | intros st0].
  destruct (objects (ont2wb st0) s (SCHEMA "identifier")); [|now apply respects_ret].
  apply respects_bind; [assumption | | intros x; apply dry_record_link].
  unfold OnSession.create_ont_wb_thing.
  apply respects_bind; [assumption | now apply respects_pure | intros lbs].
  apply respects_bind; [assumption | now apply respects_pure | intros dscs].
  destruct (kind_of_types _).
  - apply respects_bind; [assumption | apply dry_on_wbs_create | intros id].
    now apply respects_ret.
  - apply respects_bind; [assumption | apply dry_on_wbs_create | intros id].
    now apply respects_ret.
  - now apply respects_ret.
  - now apply respects_raise.
Qed.

Lemma dry_claim_pass (g : graph) (url : string -> bool) (depth : nat) :
  respects same_session (OnSession.claim_pass OnSession.dry g url depth).
Proof.
  pose proof same_session_refl as Hrefl. pose proof same_session_trans as Htrans.
  unfold OnSession.claim_pass. apply respects_for; [assumption..|]. intros s.
  unfold OnSession.claims_for.
  destruct (skip_subj s); [now apply respects_ret|].
  apply respects_bind; [assumption | now apply respects_get_state | intros st0].
  destruct (objects (ont2wb st0) s (SCHEMA "identifier")) as [|o l];
    [now apply respects_raise|].
  apply respects_for; [assumption..|]. intros t.
  unfold OnSession.claim_for_triple.
  destruct (node_eqb _ (RDFS "range")); [now apply respects_ret|].
  destruct (node_eqb _ (RDFS "domain")); [now apply respects_ret|].
  unfold OnSession.create_claim.
  apply respects_bind; [assumption | now apply respects_get_state | intros st1].
  apply respects_bind; [assumption | now apply respects_pure | intros made].
  destruct made as [claims|]; [|now apply respects_ret].
  apply respects_bind; [assumption | | intros _; now apply respects_ret].
  apply respects_on_wbs with (P := fun w w' => w' = w).
  - intros w r w' [= <- <-]. reflexivity.
  - intros st w' ->. reflexivity.
Qed.

(** X22.  A dry run sends nothing: however a run of [convert] on the
    dummy session goes, with or without a link file, and however it
    ends, the session at its end is the session at its start, script
    and log of requests. *)
Theorem dry_run_sends_nothing (g : graph) (url : string -> bool) (depth : nat)
  (st s : converter) (r : result unit) :
  OnSession.convert OnSession.dry g url depth st = (r, s) ->
  wbs s = wbs st.
Proof.
  pose proof same_session_refl as Hrefl. pose proof same_session_trans as Htrans.
  revert st r s. change (respects same_session (OnSession.convert OnSession.dry g url depth)).
  unfold OnSession.convert.
  apply respects_bind; [assumption | apply dry_set_ont2wb | intros _].
  apply respects_bind; [assumption | now apply respects_get_state | intros st0].
  apply respects_bind; [assumption | | intros _].
  { destruct (link_file st0); [apply dry_set_ont2wb | apply dry_bootstrap]. }
  apply respects_bind; [assumption | apply dry_creation_pass | intros _].
  apply respects_bind; [assumption | now apply respects_get_state | intros st1].
  apply respects_bind; [assumption | apply dry_set_link_file | intros _].
  apply dry_claim_pass.
Qed.

Lemma dry_run_sends_nothing_witness :
  wbs (snd (OnSession.convert OnSession.dry class_graph scheme_url 5
              (fresh accepting (Some written))))
  = wbs (fresh accepting (Some written)).
Proof.
  apply (@dry_run_sends_nothing class_graph scheme_url 5
           (fresh accepting (Some written))
           (snd (OnSession.convert OnSession.dry class_graph scheme_url 5
                   (fresh accepting (Some written))))
           (fst (OnSession.convert OnSession.dry class_graph scheme_url 5
                   (fresh accepting (Some written))))).
  apply surjective_pairing.
Defined.

(** The dry run of the witness, on the file of the first run: it ends
    well, the claims of the one subject being of the non-claim set. *)
Example dry_second_run :
  fst (OnSession.convert OnSession.dry class_graph scheme_url 5
         (fresh accepting (Some written)))
  = Ok tt.
Proof. vm_compute. reflexivity. Qed.

(** ** Turns that create and claims that are sent *)

(** X23.  A turn of the creation loop that ends well for a subject
    that is not skipped, has no link yet and has the class type or a
    property type, has created an entity: [create_ont_wb_thing]
    returned an identifier, and from then on the subject resolves to
    that identifier. *)
Theorem created_subject_resolves (g : graph) (depth : nat) (s : node)
  (st st' : converter) :
  create_for g depth s st = (Ok tt, st') ->
  skip_subj s = false ->
  objects (ont2wb st) s (SCHEMA "identifier") = [] ->
  kind_of_types (objects g s RDF_type) = Item
  \/ kind_of_types (objects g s RDF_type) = Property ->
  exists id st1,
    create_ont_wb_thing g depth s st = (Ok (Some id), st1)
    /\ wbs st' = wbs st1
    /\ objects (ont2wb st') s (SCHEMA "identifier") = [Literal (plain id None)]
    /\ forall required, rdf2wb_id (ont2wb st') s required = Ok (Some id).
Proof.
  intros Hrun Hskip Hnil Hkind. apply create_for_turn in Hrun.
  inversion Hrun as [Hs | Hs Hl | e st1 Hs Hobj Hmake | x st1 Hs Hobj Hmake]; subst.
  - congruence.
  - unfold linked in Hl. congruence.
  - pose proof (create_ont_wb_thing_state _ _ _ _ Hmake) as [Hstore _].
    assert (Hx : exists id, x = Some id).
    { revert Hmake. unfold create_ont_wb_thing, bind, pure, ret, on_wbs.
      destruct (aggregate g get_label_preds label_sep s); [|discriminate].
      destruct (aggregate g get_desc_preds description_sep s); [|discriminate].
      destruct Hkind as [-> | ->].
      - destruct (create_wb_thing depth true _ _ _ _) as [[id|e] w];
          [intros [= <- _]; eauto | discriminate].
      - destruct (create_wb_thing depth false _ _ _ _) as [[id|e] w];
          [intros [= <- _]; eauto | discriminate]. }
    destruct Hx as [id ->]. exists id, st1. split; [assumption|].
    split; [reflexivity|]. simpl. rewrite Hstore.
    rewrite objects_add_first by assumption. split; [reflexivity|].
    intros required. unfold rdf2wb_id. now rewrite objects_add_first by assumption.
Qed.

Lemma created_subject_resolves_witness :
  exists id st1,
    create_ont_wb_thing class_graph 5 example_node (fresh [ok_token "t"; done "Q9"] None)
    = (Ok (Some id), st1)
    /\ wbs (snd (create_for class_graph 5 example_node
                   (fresh [ok_token "t"; done "Q9"] None))) = wbs st1
    /\ objects (ont2wb (snd (create_for class_graph 5 example_node
                               (fresh [ok_token "t"; done "Q9"] None))))
         example_node (SCHEMA "identifier") = [Literal (plain id None)]
    /\ forall required,
        rdf2wb_id (ont2wb (snd (create_for class_graph 5 example_node
                                  (fresh [ok_token "t"; done "Q9"] None))))
          example_node required = Ok (Some id).
Proof.
  apply (@created_subject_resolves class_graph 5 example_node
           (fresh [ok_token "t"; done "Q9"] None)
           (snd (create_for class_graph 5 example_node
                   (fresh [ok_token "t"; done "Q9"] None)))).
  - reflexivity.
  - reflexivity.
  - reflexivity.
  - left. reflexivity.
Defined.

(** X24.  A claim that can be built is sent once: against a remote
    that gives a token and accepts the edit, [create_claim] sends the
    request for a token and one edit of the entity of the subject that
    holds the claims built, and nothing else; the link graph and the
    link file stay as they were. *)
Theorem built_claim_is_sent_once (g : graph) (url : string -> bool) (depth : nat)
  (wb_id tok answer : string) (subj pred obj : node)
  (claims : Dict.t (list statement)) (rest : list response) (sent : list request)
  (store : graph) (file : option (list triple)) :
  claims_of g url store pred obj = Ok (Some claims) ->
  create_claim g url (S depth) wb_id subj pred obj
    {| wbs := {| script := ok_token tok :: done answer :: rest; log := sent |};
       ont2wb := store; link_file := file |}
  = (Ok tt,
      {| wbs := {| script := rest;
                   log := (sent ++ [QueryTokens;
                                    EditEntity (Existing wb_id) false
                                      (DataClaims claims) tok])%list |};
         ont2wb := store; link_file := file |}).
Proof.
  intros Hclaims. unfold create_claim, bind, get_state, pure. cbn [ont2wb].
  rewrite Hclaims. unfold on_wbs, add_wb_thing_claims. cbn [wbs create_wb_thing_raw].
  unfold bind, request_token, call_api, ret, raise. cbn.
  now rewrite <- app_assoc.
Qed.

Lemma built_claim_is_sent_once_witness :
  create_claim [] (fun _ => false) 1 "Q1" example_node (SCHEMA "knows") (SCHEMA "Person")
    {| wbs := {| script := [ok_token "t"; done "Q1"]; log := [] |};
       ont2wb := knows_store; link_file := None |}
  = (Ok tt,
      {| wbs := {| script := [];
                   log := [QueryTokens;
                           EditEntity (Existing "Q1") false
                             (DataClaims
                                [("P7", [claim_of "P7" "item" (EntityValue "item" "Q42" 42)])])
                             "t"] |};
         ont2wb := knows_store; link_file := None |}).
Proof.
  apply (@built_claim_is_sent_once [] (fun _ => false) 0 "Q1" "t" "Q1" example_node
           (SCHEMA "knows") (SCHEMA "Person")
           [("P7", [claim_of "P7" "item" (EntityValue "item" "Q42" 42)])]
           [] [] knows_store None).
  reflexivity.
Defined.
